(** * college_backend: users, notices and syllabus applications

    A shallow embedding of the Django models, serializers and views that
    carry the Head-of-Department succession rules, the subject-code
    generator, the notice audience rule and the role gates, followed by the
    properties established about them.

    Conventions.
    - A database table is the list of its rows in insertion order; an
      unsaved model instance has [pk = None].
    - Every statement that touches the database takes the table and returns
      the new one; a Python exception is a value of [Py.exn].
    - Instants are integers counting microseconds (the resolution of a
      Python [datetime]); a calendar date is the number of its day. *)

From Stdlib Require Import ZArith List String Ascii Bool Lia DecimalString
  Sorted.
Import ListNotations.

(* ================================================================== *)
(** * Part I: the program *)
(* ================================================================== *)

(** ** The Python and Django runtime the sources rely on *)

Module Py.

(** Exceptions raised by the modelled code paths. *)
Inductive exn : Type :=
| NameError (name : string)
| AttributeError (what : string)
| RelatedObjectDoesNotExist (field : string)
| IntegrityError (constraint : string)
| MultipleObjectsReturned
| KeyError (key : string)
| ValueError (msg : string)
| ValidationError (detail : string).

(** Truth value of a [str]: only the empty string is falsy. *)
Definition truthy (s : string) : bool := negb (String.eqb s EmptyString).

(** Truth value of an optional [str] ([None] is falsy as well). *)
Definition truthy_opt (o : option string) : bool :=
  match o with
  | Some s => truthy s
  | None => false
  end.

(** [x in l] for a list of strings. *)
Definition str_in (x : string) (l : list string) : bool :=
  existsb (String.eqb x) l.

(** [str.upper] on ASCII text. *)
Definition upper_ascii (c : ascii) : ascii :=
  let n := nat_of_ascii c in
  if (97 <=? n)%nat && (n <=? 122)%nat then ascii_of_nat (n - 32) else c.

Fixpoint upper (s : string) : string :=
  match s with
  | EmptyString => EmptyString
  | String c r => String (upper_ascii c) (upper r)
  end.

(** [str.lower] on ASCII text. *)
Definition lower_ascii (c : ascii) : ascii :=
  let n := nat_of_ascii c in
  if (65 <=? n)%nat && (n <=? 90)%nat then ascii_of_nat (n + 32) else c.

Fixpoint lower (s : string) : string :=
  match s with
  | EmptyString => EmptyString
  | String c r => String (lower_ascii c) (lower r)
  end.

Definition is_none {A : Type} (o : option A) : bool :=
  match o with
  | Some _ => false
  | None => true
  end.

(** [str(n)] for an [int]. *)
Definition str (z : Z) : string := NilZero.string_of_int (Z.to_int z).

(** [f"{n:02d}"]: the sign counts towards the width of two, zeros fill
    between the sign and the digits, and a longer number is not cut. *)
Definition format_02d (z : Z) : string :=
  if (z <? 0)%Z then str z
  else if (z <? 10)%Z then String "0"%char (str z)
  else str z.

(** [s[n:]] for [n >= 0]: never raises, empty once [n] passes the end. *)
Fixpoint slice_from (n : nat) (s : string) : string :=
  match n, s with
  | O, _ => s
  | S _, EmptyString => EmptyString
  | S m, String _ r => slice_from m r
  end.

(** Characters [int()] strips around a literal. *)
Definition is_space (c : ascii) : bool :=
  let n := nat_of_ascii c in
  ((9 <=? n)%nat && (n <=? 13)%nat) || ((28 <=? n)%nat && (n <=? 32)%nat).

Fixpoint lstrip (s : string) : string :=
  match s with
  | EmptyString => EmptyString
  | String c r => if is_space c then lstrip r else s
  end.

Fixpoint rev_onto (s acc : string) : string :=
  match s with
  | EmptyString => acc
  | String c r => rev_onto r (String c acc)
  end.

Definition strip (s : string) : string :=
  rev_onto (lstrip (rev_onto (lstrip s) EmptyString)) EmptyString.

Definition digit_val (c : ascii) : option Z :=
  let n := nat_of_ascii c in
  if (48 <=? n)%nat && (n <=? 57)%nat then Some (Z.of_nat (n - 48)) else None.

(** Digits of a decimal literal; a single underscore may sit between two
    digits. [after_digit] tells whether the previous character was a
    digit. *)
Fixpoint int_digits (after_digit : bool) (acc : Z) (s : string) : option Z :=
  match s with
  | EmptyString => if after_digit then Some acc else None
  | String c r =>
      match digit_val c with
      | Some d => int_digits true (10 * acc + d)%Z r
      | None =>
          if Ascii.eqb c "_"%char && after_digit
          then int_digits false acc r
          else None
      end
  end.

(** [int(s)] in base ten on ASCII text; [None] stands for [ValueError]. *)
Definition int (s : string) : option Z :=
  match strip s with
  | String "-"%char r => option_map Z.opp (int_digits false 0%Z r)
  | String "+"%char r => int_digits false 0%Z r
  | t => int_digits false 0%Z t
  end.

(** [timedelta(minutes=m)] in microseconds. *)
Definition timedelta_minutes (m : Z) : Z := (m * 60 * 1000000)%Z.

(** [datetime.date()] of an instant: the number of its (UTC) day. *)
Definition date_of (instant : Z) : Z := (instant / 86400000000)%Z.

End Py.

(** ** users/models.py, users/serializers.py and users/views.py *)

Module Users.

Definition ROLE_CHOICES : list string := ["admin"; "staff"; "student"]%string.

(** The [User] model. The columns that [AbstractBaseUser] and
    [PermissionsMixin] add beside [password] and [is_superuser] (last login,
    groups, permissions) play no part in the modelled code. *)
Module User.
Record t : Type := mk {
  pk : option Z;
  email : string;
  first_name : string;
  last_name : string;
  role : string;
  is_active : bool;
  is_staff : bool;
  is_superuser : bool;
  password : string;
  date_joined : Z;
  updated_at : Z
}.

Definition get_full_name (u : t) : string :=
  String.append (first_name u) (String " "%char (last_name u)).
End User.

(** [request.user]: [None] is the anonymous user. *)
Definition requester : Type := option User.t.

(** The permission classes of [rest_framework.permissions] in use. *)
Definition AllowAny (_ : requester) : bool := true.

Definition IsAuthenticated (user : requester) : bool :=
  match user with
  | Some _ => true
  | None => false
  end.

(** [bool(request.user and request.user.is_staff)]. *)
Definition IsAdminUser (user : requester) : bool :=
  match user with
  | Some u => User.is_staff u
  | None => false
  end.

(** [Staff.DEPARTMENT_CHOICES], code and display name. *)
Definition DEPARTMENT_CHOICES : list (string * string) :=
  [ ("IT", "Information Technology"); ("CS", "Computer Science");
    ("EE", "Electrical Engineering"); ("ME", "Mechanical Engineering");
    ("CE", "Civil Engineering"); ("ADMIN", "Administration");
    ("ACCOUNTS", "Accounts"); ("LIBRARY", "Library"); ("OTHER", "Other") ]%string.

(** [get_department_display]: the label of a choice, the raw value of
    anything else. *)
Definition department_display (d : string) : string :=
  match find (fun c => String.eqb (fst c) d) DEPARTMENT_CHOICES with
  | Some c => snd c
  | None => d
  end.

(** The [Staff] model; its key is the key of its user. The demographic
    columns (birth date, gender, phone, address, salary) are left out. *)
Module Staff.
Record t : Type := mk {
  user : Z;
  staff_id : string;
  department : option string;
  designation : option string;
  qualification : option string;
  joining_date : Z
}.
End Staff.

(** The [HeadOfDepartment] model. An instance built by the serializer can
    lack what the table requires ([staff], [start_date]). *)
Module HeadOfDepartment.
Record t : Type := mk {
  pk : option Z;
  staff : option Z;             (* OneToOneField to Staff *)
  department : string;
  start_date : option Z;
  end_date : option Z;
  is_active : bool;
  additional_responsibilities : option string;
  created_at : Z;
  updated_at : Z
}.

Definition set_pk (k : option Z) (h : t) : t :=
  mk k (staff h) (department h) (start_date h) (end_date h) (is_active h)
     (additional_responsibilities h) (created_at h) (updated_at h).

Definition set_end_date (e : option Z) (h : t) : t :=
  mk (pk h) (staff h) (department h) (start_date h) e (is_active h)
     (additional_responsibilities h) (created_at h) (updated_at h).

Definition set_is_active (b : bool) (h : t) : t :=
  mk (pk h) (staff h) (department h) (start_date h) (end_date h) b
     (additional_responsibilities h) (created_at h) (updated_at h).

Definition set_stamps (created updated : Z) (h : t) : t :=
  mk (pk h) (staff h) (department h) (start_date h) (end_date h) (is_active h)
     (additional_responsibilities h) created updated.

Definition pk_is (k : Z) (h : t) : bool :=
  match pk h with
  | Some j => Z.eqb j k
  | None => false
  end.

Definition staff_is (s : Z) (h : t) : bool :=
  match staff h with
  | Some j => Z.eqb j s
  | None => false
  end.

(** [filter(department=d, is_active=True)]. *)
Definition active_in (d : string) (h : t) : bool :=
  String.eqb (department h) d && is_active h.

(** [exclude(pk=k)]; [exclude(pk=None)] excludes nothing. *)
Definition exclude_pk (k : option Z) (rows : list t) : list t :=
  match k with
  | Some j => filter (fun h => negb (pk_is j h)) rows
  | None => rows
  end.

Definition next_pk (rows : list t) : Z :=
  (1 + fold_right (fun r m => match pk r with
                              | Some k => Z.max k m
                              | None => m
                              end) 0 rows)%Z.

(** UPDATE of the row with key [k]. *)
Definition replace_row (k : Z) (r : t) (rows : list t) : list t :=
  map (fun x => if pk_is k x then r else x) rows.
End HeadOfDepartment.

Record DB : Type := mkDB {
  users : list User.t;
  staff : list Staff.t;
  hods : list HeadOfDepartment.t
}.

(** *** Statements against the database

    A computation takes the tables and returns its result, or the
    exception it raised, with the tables as it left them: the views of
    this application run without a transaction, so what was written
    before an exception stays written. *)
Definition M (A : Type) : Type := DB -> (Py.exn + A) * DB.

Definition ret {A : Type} (a : A) : M A := fun db => (inr a, db).

Definition raise {A : Type} (e : Py.exn) : M A := fun db => (inl e, db).

Definition bind {A B : Type} (m : M A) (k : A -> M B) : M B :=
  fun db =>
    match m db with
    | (inr a, db1) => k a db1
    | (inl e, db1) => (inl e, db1)
    end.

Notation "x <- m ;; k" := (bind m (fun x => k))
  (at level 61, m at next level, right associativity).
Notation "m ;;; k" := (bind m (fun _ => k))
  (at level 61, right associativity).

Definition read : M DB := fun db => (inr db, db).

Definition write_hods (rows : list HeadOfDepartment.t) : M unit :=
  fun db => (inr tt, mkDB (users db) (staff db) rows).

Definition write_users (rows : list User.t) : M unit :=
  fun db => (inr tt, mkDB rows (staff db) (hods db)).

Definition find_staff (k : Z) (db : DB) : option Staff.t :=
  find (fun s => Z.eqb (Staff.user s) k) (staff db).

Definition user_pk_is (k : Z) (u : User.t) : bool :=
  match User.pk u with
  | Some j => Z.eqb j k
  | None => false
  end.

Definition find_user (k : Z) (db : DB) : option User.t :=
  find (user_pk_is k) (users db).

(** *** users/models.py: [HeadOfDepartment.save] *)

Import HeadOfDepartment.

(** The names bound at module level in users/models.py: those of its three
    import statements and its own classes. *)
Definition models_globals : list string :=
  [ "AbstractBaseUser"; "BaseUserManager"; "PermissionsMixin"; "models";
    "RegexValidator"; "UserManager"; "User"; "Student"; "Staff";
    "HeadOfDepartment" ]%string.

(** [timezone.now().date()] evaluated inside users/models.py. *)
Definition models_timezone_today (now : Z) : M Z :=
  if Py.str_in "timezone" models_globals
  then ret (Py.date_of now)
  else raise (Py.NameError "timezone").

(** [filter(department=d, is_active=True).update(is_active=False)], with
    [end_date=e] as well when [e] is given. A queryset update does not
    refresh [updated_at]. *)
Definition retire_row (e : option Z) (h : t) : t :=
  set_is_active false
    (match e with
     | Some day => set_end_date (Some day) h
     | None => h
     end).

Definition deactivate_active (d : string) (e : option Z) : M unit :=
  db <- read ;;
  write_hods (map (fun h => if active_in d h then retire_row e h else h)
                  (hods db)).

(** The constraints of the table, checked for a row against the other
    rows: the two NOT NULL columns an instance can lack, the uniqueness
    of [staff] (OneToOneField) and [unique_active_hod_per_department]. *)
Definition staff_taken (h : t) (others : list t) : bool :=
  match staff h with
  | Some s => existsb (staff_is s) others
  | None => false
  end.

Definition department_has_active (h : t) (others : list t) : bool :=
  is_active h && existsb (active_in (department h)) others.

Definition constraint_error (h : t) (others : list t) : option Py.exn :=
  if Py.is_none (staff h) then
    Some (Py.IntegrityError "NOT NULL head_of_department.staff_id")
  else if Py.is_none (start_date h) then
    Some (Py.IntegrityError "NOT NULL head_of_department.start_date")
  else if staff_taken h others then
    Some (Py.IntegrityError "UNIQUE head_of_department.staff_id")
  else if department_has_active h others then
    Some (Py.IntegrityError "unique_active_hod_per_department")
  else None.

(** [models.Model.save]: INSERT for an instance without key, UPDATE of the
    row with that key otherwise (INSERT if there is none). *)
Definition Model_save (now : Z) (self : t) : M t :=
  db <- read ;;
  match constraint_error self (exclude_pk (pk self) (hods db)) with
  | Some e => raise e
  | None =>
      match pk self with
      | None =>
          let r := set_stamps now now
                     (set_pk (Some (next_pk (hods db))) self) in
          write_hods (hods db ++ [r]) ;;; ret r
      | Some k =>
          let r := set_stamps (created_at self) now self in
          if existsb (pk_is k) (hods db)
          then write_hods (replace_row k r (hods db)) ;;; ret r
          else write_hods (hods db ++ [r]) ;;; ret r
      end
  end.

Definition set_role (r : string) (u : User.t) : User.t :=
  User.mk (User.pk u) (User.email u) (User.first_name u) (User.last_name u) r
          (User.is_active u) (User.is_staff u) (User.is_superuser u)
          (User.password u) (User.date_joined u) (User.updated_at u).

(** [self.staff] and [self.staff.user]: the related rows. *)
Definition related_staff (self : t) : M Staff.t :=
  db <- read ;;
  match staff self with
  | Some s =>
      match find_staff s db with
      | Some st => ret st
      | None => raise (Py.RelatedObjectDoesNotExist "staff")
      end
  | None => raise (Py.RelatedObjectDoesNotExist "staff")
  end.

Definition related_user (st : Staff.t) : M User.t :=
  db <- read ;;
  match find_user (Staff.user st) db with
  | Some u => ret u
  | None => raise (Py.RelatedObjectDoesNotExist "user")
  end.

(** Lines 284-286: the user of the staff member gets the role 'staff'. *)
Definition ensure_staff_role (self : t) : M unit :=
  st <- related_staff self ;;
  u <- related_user st ;;
  if negb (String.eqb (User.role u) "staff") then
    db <- read ;;
    write_users (map (fun x => if user_pk_is (Staff.user st) x
                               then set_role "staff" x else x) (users db))
  else ret tt.

(** [HeadOfDepartment.save]. *)
Definition HeadOfDepartment_save (now : Z) (self : t) : M t :=
  (if is_active self && Py.is_none (pk self)
   then deactivate_active (department self) None
   else ret tt) ;;;
  self1 <- (if negb (is_active self) && Py.is_none (end_date self)
            then today <- models_timezone_today now ;;
                 ret (set_end_date (Some today) self)
            else ret self) ;;
  ensure_staff_role self1 ;;;
  Model_save now self1.

(** *** users/serializers.py: [HeadOfDepartmentSerializer] *)

(** The writable fields of the serializer, in the request and after
    validation: a key may be missing (outer [None]), a nullable field may
    hold [None] (inner [None]). [a_staff] is the key of a [Staff] row. *)
Record attrs : Type := mkAttrs {
  a_staff : option Z;
  a_department : option string;
  a_start_date : option Z;
  a_end_date : option (option Z);
  a_is_active : option bool;
  a_additional_responsibilities : option (option string)
}.

Definition with_start_date (d : option Z) (a : attrs) : attrs :=
  mkAttrs (a_staff a) (a_department a) d (a_end_date a) (a_is_active a)
          (a_additional_responsibilities a).

Definition with_end_date (e : option (option Z)) (a : attrs) : attrs :=
  mkAttrs (a_staff a) (a_department a) (a_start_date a) e (a_is_active a)
          (a_additional_responsibilities a).

Definition or_default {A : Type} (o : option A) (d : A) : A :=
  match o with
  | Some v => v
  | None => d
  end.

(** The instance built from validated data: missing keys take the
    defaults of the model fields. *)
Definition instance_of (a : attrs) : t :=
  mk None (a_staff a) (or_default (a_department a) EmptyString)
     (a_start_date a) (or_default (a_end_date a) None)
     (or_default (a_is_active a) true)
     (or_default (a_additional_responsibilities a) None) 0 0.

(** [setattr(instance, attr, value)] for every key present. *)
Definition apply_attrs (a : attrs) (h : t) : t :=
  mk (pk h)
     (match a_staff a with Some s => Some s | None => staff h end)
     (or_default (a_department a) (department h))
     (match a_start_date a with Some d => Some d | None => start_date h end)
     (or_default (a_end_date a) (end_date h))
     (or_default (a_is_active a) (is_active h))
     (or_default (a_additional_responsibilities a)
                 (additional_responsibilities h))
     (created_at h) (updated_at h).

Definition instance_pk (instance : option t) : option Z :=
  match instance with
  | Some i => pk i
  | None => None
  end.

(** Field validation of the ModelSerializer: required keys, an existing
    [Staff] key, the UniqueValidator that the OneToOneField gives the
    [staff] field, a department of the choices. *)
Definition field_errors (partial : bool) (instance : option t) (d : attrs)
  (db : DB) : list string :=
  (match a_staff d with
   | None => if partial then [] else ["staff: This field is required."%string]
   | Some s =>
       match find_staff s db with
       | None => ["staff: Invalid pk - object does not exist."%string]
       | Some _ =>
           if existsb (staff_is s) (exclude_pk (instance_pk instance) (hods db))
           then ["staff: This field must be unique."%string]
           else []
       end
   end)
  ++ (match a_department d with
      | None =>
          if partial then [] else ["department: This field is required."%string]
      | Some dep =>
          if existsb (fun c => String.eqb (fst c) dep) DEPARTMENT_CHOICES
          then []
          else ["department: not a valid choice."%string]
      end)
  ++ (match a_start_date d with
      | None =>
          if partial then [] else ["start_date: This field is required."%string]
      | Some _ => []
      end).

(** [HeadOfDepartmentSerializer.validate]. *)
Definition validate (instance : option t) (a : attrs) : M attrs :=
  db <- read ;;
  match a_staff a with
  | None => raise (Py.AttributeError "'NoneType' object has no attribute 'user'")
  | Some s =>
      st <- related_staff (instance_of a) ;;
      u <- related_user st ;;
      if negb (User.is_active u) then
        raise (Py.ValidationError "Cannot assign an inactive staff member as HOD.")
      else
        let others := exclude_pk (instance_pk instance) (hods db) in
        match find (fun h => staff_is s h && is_active h) others with
        | Some existing_hod =>
            raise (Py.ValidationError
                     (String.append "This staff member is already the HOD of "
                        (String.append (department_display (department existing_hod))
                                       " department.")))
        | None =>
            match a_department a with
            | None => ret a
            | Some dep =>
                match find (active_in dep) others with
                | Some existing_dept_hod =>
                    st' <- related_staff existing_dept_hod ;;
                    u' <- related_user st' ;;
                    raise (Py.ValidationError
                             (String.append (User.get_full_name u')
                                (String.append " is already the HOD of "
                                   (String.append
                                      (department_display
                                         (department existing_dept_hod))
                                      " department."))))
                | None => ret a
                end
            end
        end
  end.

Inductive validation : Type :=
| Valid (validated_data : attrs)
| Invalid (errors : list string).

(** [serializer.is_valid()]: a ValidationError of [validate] becomes an
    error list; any other exception goes on. *)
Definition is_valid (partial : bool) (instance : option t) (d : attrs)
  : M validation :=
  fun db =>
    match field_errors partial instance d db with
    | [] =>
        match validate instance d db with
        | (inr a, db1) => (inr (Valid a), db1)
        | (inl (Py.ValidationError msg), db1) => (inr (Invalid [msg]), db1)
        | (inl e, db1) => (inl e, db1)
        end
    | errors => (inr (Invalid errors), db)
    end.

(** [HeadOfDepartmentSerializer.create]. *)
Definition HeadOfDepartmentSerializer_create (now : Z) (validated_data : attrs)
  : M t :=
  match a_department validated_data with
  | None => raise (Py.KeyError "department")
  | Some d =>
      deactivate_active d (Some (Py.date_of now)) ;;;
      let validated_data1 :=
        match a_start_date validated_data with
        | None => with_start_date (Some (Py.date_of now)) validated_data
        | Some _ => validated_data
        end in
      HeadOfDepartment_save now (instance_of validated_data1)
  end.

(** [HeadOfDepartmentSerializer.update]. *)
Definition HeadOfDepartmentSerializer_update (now : Z) (instance : t)
  (validated_data : attrs) : M t :=
  let department_changes :=
    match a_department validated_data with
    | Some d => negb (String.eqb (department instance) d)
    | None => false
    end in
  if department_changes then
    HeadOfDepartment_save now
      (set_is_active false (set_end_date (Some (Py.date_of now)) instance)) ;;;
    HeadOfDepartment_save now
      (instance_of (with_start_date None validated_data))
  else
    HeadOfDepartment_save now (apply_attrs validated_data instance).

(** *** users/views.py: the Head-of-Department views *)

Inductive body : Type :=
| HodData (h : t)
| HodList (l : list t)
| Errors (errors : list string)
| Detail (msg : string)
| Registered (u : User.t) (refresh access : string)
| NoContent.

(** What the client gets: a response, or the 500 of an exception nothing
    caught. *)
Inductive response : Type :=
| Response (status : Z) (content : body)
| ServerError (e : Py.exn).

Definition run_view (m : M response) (db : DB) : response * DB :=
  match m db with
  | (inr r, db1) => (r, db1)
  | (inl e, db1) => (ServerError e, db1)
  end.

(** [permission_classes = [IsAuthenticated, IsAdminUser]]. *)
Definition admin_gate (user : requester) (m : M response) : M response :=
  if negb (IsAuthenticated user) then
    ret (Response 401 (Detail "Authentication credentials were not provided."))
  else if negb (IsAdminUser user) then
    ret (Response 403 (Detail "You do not have permission to perform this action."))
  else m.

(** [permission_classes = [IsAuthenticated]]. *)
Definition authenticated_gate (user : requester) (m : M response)
  : M response :=
  if negb (IsAuthenticated user) then
    ret (Response 401 (Detail "Authentication credentials were not provided."))
  else m.

(** [order_by('department', '-is_active', '-start_date')]. *)
Definition listed_before (x y : t) : bool :=
  match String.compare (department x) (department y) with
  | Lt => true
  | Gt => false
  | Eq =>
      if Bool.eqb (is_active x) (is_active y) then
        match start_date x, start_date y with
        | Some a, Some b => (b <=? a)%Z
        | _, _ => true
        end
      else is_active x
  end.

Fixpoint insert_sorted (x : t) (l : list t) : list t :=
  match l with
  | [] => [x]
  | y :: r => if listed_before x y then x :: l else y :: insert_sorted x r
  end.

(** GET hods/: [get_queryset] with its two optional query parameters. *)
Definition HeadOfDepartmentListCreateView_get (user : requester)
  (q_department q_is_active : option string) : M response :=
  admin_gate user
    (db <- read ;;
     let by_department :=
       match q_department with
       | Some d => if Py.truthy d
                   then filter (fun h => String.eqb (department h) d) (hods db)
                   else hods db
       | None => hods db
       end in
     let by_activity :=
       match q_is_active with
       | Some v =>
           let wanted := String.eqb (Py.lower v) "true" in
           filter (fun h => Bool.eqb (is_active h) wanted) by_department
       | None => by_department
       end in
     ret (Response 200 (HodList (fold_right insert_sorted [] by_activity)))).

(** POST hods/: [CreateModelMixin.create] with [perform_create]. *)
Definition HeadOfDepartmentListCreateView_post (now : Z) (user : requester)
  (d : attrs) : M response :=
  admin_gate user
    (v <- is_valid false None d ;;
     match v with
     | Invalid errors => ret (Response 400 (Errors errors))
     | Valid validated_data =>
         let validated_data1 :=
           match a_start_date validated_data with
           | None => with_start_date (Some (Py.date_of now)) validated_data
           | Some _ => validated_data
           end in
         h <- HeadOfDepartmentSerializer_create now validated_data1 ;;
         ret (Response 201 (HodData h))
     end).

(** [get_object] of the detail view. *)
Definition get_object (id : Z) (db : DB) : option t :=
  find (pk_is id) (hods db).

(** PUT and PATCH hods/<id>/: [UpdateModelMixin.update] with
    [perform_update]. *)
Definition HeadOfDepartmentDetailView_update (now : Z) (user : requester)
  (partial : bool) (id : Z) (d : attrs) : M response :=
  admin_gate user
    (db <- read ;;
     match get_object id db with
     | None => ret (Response 404 (Detail "Not found."))
     | Some instance =>
         v <- is_valid partial (Some instance) d ;;
         match v with
         | Invalid errors => ret (Response 400 (Errors errors))
         | Valid validated_data =>
             let validated_data1 :=
               match a_is_active validated_data with
               | Some false =>
                   with_end_date (Some (Some (Py.date_of now))) validated_data
               | _ => validated_data
               end in
             h <- HeadOfDepartmentSerializer_update now instance validated_data1 ;;
             ret (Response 200 (HodData h))
         end
     end).

(** [perform_destroy]. *)
Definition perform_destroy (now : Z) (instance : t) : M t :=
  HeadOfDepartment_save now
    (set_end_date (Some (Py.date_of now)) (set_is_active false instance)).

(** DELETE hods/<id>/. *)
Definition HeadOfDepartmentDetailView_delete (now : Z) (user : requester)
  (id : Z) : M response :=
  admin_gate user
    (db <- read ;;
     match get_object id db with
     | None => ret (Response 404 (Detail "Not found."))
     | Some instance =>
         perform_destroy now instance ;;; ret (Response 204 NoContent)
     end).

(** GET hods/<id>/. *)
Definition HeadOfDepartmentDetailView_get (user : requester) (id : Z)
  : M response :=
  admin_gate user
    (db <- read ;;
     match get_object id db with
     | None => ret (Response 404 (Detail "Not found."))
     | Some instance => ret (Response 200 (HodData instance))
     end).

(** GET departments/<department>/hod/: [DepartmentHODView.get]. *)
Definition DepartmentHODView_get (user : requester) (department : string)
  : M response :=
  authenticated_gate user
    (db <- read ;;
     match filter (active_in department) (hods db) with
     | [] =>
         ret (Response 404
                (Detail (String.append "No active HOD found for "
                           (String.append department " department"))))
     | [hod] => ret (Response 200 (HodData hod))
     | _ => raise Py.MultipleObjectsReturned
     end).

(** The requests that change the Head-of-Department table. *)
Inductive request : Type :=
| POST_hods (d : attrs)
| PUT_hod (id : Z) (d : attrs)
| PATCH_hod (id : Z) (d : attrs)
| DELETE_hod (id : Z).

Definition serve (now : Z) (user : requester) (r : request) (db : DB)
  : response * DB :=
  match r with
  | POST_hods d => run_view (HeadOfDepartmentListCreateView_post now user d) db
  | PUT_hod id d =>
      run_view (HeadOfDepartmentDetailView_update now user false id d) db
  | PATCH_hod id d =>
      run_view (HeadOfDepartmentDetailView_update now user true id d) db
  | DELETE_hod id => run_view (HeadOfDepartmentDetailView_delete now user id) db
  end.

(** A history: who asked what and when, oldest first. *)
Fixpoint serve_all (history : list (Z * requester * request)) (db : DB) : DB :=
  match history with
  | [] => db
  | (now, user, r) :: rest => serve_all rest (snd (serve now user r db))
  end.

(** *** Registration: [UserManager.create_user], the registration
    serializers and [register_view] *)

(** What the code delegates to Django and to the token library. *)
Record Auth : Type := mkAuth {
  make_password : string -> string;      (* [set_password]: the stored hash *)
  normalize_email : string -> string;    (* [BaseUserManager.normalize_email] *)
  validate_password : string -> bool;    (* the configured password validators *)
  email_format_ok : string -> bool;      (* the validator of [EmailField] *)
  for_user : User.t -> string * string   (* [RefreshToken.for_user]: refresh, access *)
}.

Definition users_next_pk (rows : list User.t) : Z :=
  (1 + fold_right (fun r m => match User.pk r with
                              | Some k => Z.max k m
                              | None => m
                              end) 0 rows)%Z.

Definition email_taken (e : string) (rows : list User.t) : bool :=
  existsb (fun u => String.eqb (User.email u) e) rows.

(** [UserManager.create_user]; [role] and [is_staff] are the extra fields
    the callers pass (or the defaults of the model). *)
Definition create_user (env : Auth) (now : Z) (email password : string)
  (first_name last_name role : string) (is_staff : bool) : M User.t :=
  if negb (Py.truthy email) then
    raise (Py.ValueError "The Email field must be set")
  else
    let email1 := normalize_email env email in
    db <- read ;;
    if email_taken email1 (users db) then
      raise (Py.IntegrityError "UNIQUE users.email")
    else
      let user := User.mk (Some (users_next_pk (users db))) email1 first_name
                          last_name role true is_staff false
                          (make_password env password) now now in
      write_users (users db ++ [user]) ;;; ret user.

(** The body of a registration request: a key may be missing. *)
Record registration : Type := mkRegistration {
  r_email : option string;
  r_first_name : option string;
  r_last_name : option string;
  r_role : option string;
  r_password : option string;
  r_password2 : option string
}.

(** Validated data of [UserRegistrationSerializer]. *)
Record registration_data : Type := mkRegistrationData {
  v_email : string;
  v_first_name : string;
  v_last_name : string;
  v_role : string;
  v_password : string;
  v_password2 : string
}.

(** A required [CharField]: present, not blank, trimmed, within the
    maximal length when there is one. *)
Definition char_field (label : string) (max_length : option nat)
  (v : option string) : string + string :=
  match v with
  | None => inl (String.append label ": This field is required.")
  | Some raw =>
      let value := Py.strip raw in
      if negb (Py.truthy value) then
        inl (String.append label ": This field may not be blank.")
      else
        match max_length with
        | Some n =>
            if (n <? String.length value)%nat
            then inl (String.append label ": Ensure this field is not too long.")
            else inr value
        | None => inr value
        end
  end.

(** [UserRegistrationSerializer.is_valid()]: the fields, then [validate]. *)
Definition UserRegistrationSerializer_is_valid (env : Auth)
  (d : registration) (db : DB) : list string + registration_data :=
  match char_field "email" (Some 254%nat) (r_email d),
        char_field "first_name" (Some 100%nat) (r_first_name d),
        char_field "last_name" (Some 100%nat) (r_last_name d),
        r_role d,
        char_field "password" None (r_password d),
        char_field "password2" None (r_password2 d) with
  | inr email, inr first_name, inr last_name, Some role, inr password,
    inr password2 =>
      if negb (email_format_ok env email) then
        inl ["email: Enter a valid email address."%string]
      else if email_taken email (users db) then
        inl ["email: user with this email already exists."%string]
      else if negb (Py.str_in role ROLE_CHOICES) then
        inl ["role: not a valid choice."%string]
      else if negb (validate_password env password) then
        inl ["password: This password is not acceptable."%string]
      else if negb (String.eqb password password2) then
        inl ["password: Password fields didn't match."%string]
      else
        inr (mkRegistrationData email first_name last_name role password
                                password2)
  | _, _, _, _, _, _ => inl ["A required field is missing or blank."%string]
  end.

(** [UserRegistrationSerializer.create]. *)
Definition UserRegistrationSerializer_create (env : Auth) (now : Z)
  (validated_data : registration_data) : M User.t :=
  let is_staff := Py.str_in (v_role validated_data) ["admin"; "staff"]%string in
  create_user env now (v_email validated_data) (v_password validated_data)
              (v_first_name validated_data) (v_last_name validated_data)
              (v_role validated_data) is_staff.

(** [register_view], behind [AllowAny]. The branch on the role 'admin' is
    a [pass]. *)
Definition register_view (env : Auth) (now : Z) (user : requester)
  (d : registration) : M response :=
  if negb (AllowAny user) then
    ret (Response 403 (Detail "You do not have permission to perform this action."))
  else
    db <- read ;;
    match UserRegistrationSerializer_is_valid env d db with
    | inl errors => ret (Response 400 (Errors errors))
    | inr validated_data =>
        u <- UserRegistrationSerializer_create env now validated_data ;;
        let tokens := for_user env u in
        ret (Response 201 (Registered u (fst tokens) (snd tokens)))
    end.

(** Validated data of [StaffRegistrationSerializer], without the
    demographic fields. *)
Record staff_registration : Type := mkStaffRegistration {
  s_email : string;
  s_first_name : string;
  s_last_name : string;
  s_password : string;
  s_staff_id : string;
  s_department : option string;
  s_designation : option string;
  s_qualification : option string
}.

(** [StaffRegistrationSerializer.create]: the user, then the profile. *)
Definition StaffRegistrationSerializer_create (env : Auth) (now : Z)
  (validated_data : staff_registration) : M Staff.t :=
  u <- create_user env now (s_email validated_data)
                   (s_password validated_data) (s_first_name validated_data)
                   (s_last_name validated_data) "staff" true ;;
  db <- read ;;
  match User.pk u with
  | None => raise (Py.ValueError "unsaved user")
  | Some k =>
      if existsb (fun x => String.eqb (Staff.staff_id x)
                                      (s_staff_id validated_data)) (Users.staff db)
      then raise (Py.IntegrityError "UNIQUE staff.staff_id")
      else
        let profile := Staff.mk k (s_staff_id validated_data)
                                (s_department validated_data)
                                (s_designation validated_data)
                                (s_qualification validated_data)
                                (Py.date_of now) in
        (fun db1 => (inr profile,
                     mkDB (users db1) (Users.staff db1 ++ [profile]) (hods db1)))
  end.

(** *** The constraints of the Head-of-Department table, as a check *)

Fixpoint keys_distinct (rows : list t) : bool :=
  match rows with
  | [] => true
  | r :: rest =>
      match pk r with
      | Some k => negb (existsb (pk_is k) rest) && keys_distinct rest
      | None => false
      end
  end.

Fixpoint staff_distinct (rows : list t) : bool :=
  match rows with
  | [] => true
  | r :: rest =>
      match staff r with
      | Some s => negb (existsb (staff_is s) rest) && staff_distinct rest
      | None => false
      end
  end.

Fixpoint one_active_each (rows : list t) : bool :=
  match rows with
  | [] => true
  | r :: rest => negb (department_has_active r rest) && one_active_each rest
  end.

(** Primary key, NOT NULL columns, OneToOneField and
    [unique_active_hod_per_department] all hold. *)
Definition constraints_hold (rows : list t) : bool :=
  keys_distinct rows && staff_distinct rows && one_active_each rows
  && forallb (fun r => negb (Py.is_none (start_date r))) rows.

(** Number of rows with [is_active] set for a department. *)
Definition count_active (d : string) (rows : list t) : nat :=
  List.length (filter (active_in d) rows).

End Users.

(** ** notices/models.py, notices/serializers.py and the expiry command *)

Module Notices.

Record Notice : Type := mkNotice {
  pk : option Z;
  category : string;
  audience : string;          (* CharField, NOT NULL: [""] is "not set" *)
  title : option string;
  content : option string;
  date : option Z;
  datetime : option Z;
  posted_by : option Z;
  priority : string;
  expiry_date : option Z;
  created_at : Z;
  updated_at : Z
}.

Definition set_audience (a : string) (n : Notice) : Notice :=
  mkNotice (pk n) (category n) a (title n) (content n) (date n) (datetime n)
           (posted_by n) (priority n) (expiry_date n) (created_at n)
           (updated_at n).

Definition set_category (c : string) (n : Notice) : Notice :=
  mkNotice (pk n) c (audience n) (title n) (content n) (date n) (datetime n)
           (posted_by n) (priority n) (expiry_date n) (created_at n)
           (updated_at n).

Definition set_pk (k : option Z) (n : Notice) : Notice :=
  mkNotice k (category n) (audience n) (title n) (content n) (date n)
           (datetime n) (posted_by n) (priority n) (expiry_date n)
           (created_at n) (updated_at n).

Definition set_stamps (created updated : Z) (n : Notice) : Notice :=
  mkNotice (pk n) (category n) (audience n) (title n) (content n) (date n)
           (datetime n) (posted_by n) (priority n) (expiry_date n)
           created updated.

(** The two literals of [Notice.save] (and of the serializer). *)
Definition staff_categories : list string :=
  [ "Staff Meeting"; "Invigilation Duty"; "Internal Circular";
    "Timetable Work"; "Leave / Policy Update"; "Faculty Training";
    "Research Opportunities"; "Staff Achievements"; "Maintenance Notices";
    "IT & System Updates" ]%string.

Definition all_users_categories : list string :=
  [ "Holiday Announcement"; "Exam Timetable"; "Events"; "Results";
    "Fee Notices"; "Emergency Alerts"; "Workshops / Seminars";
    "Scholarship / Grants"; "Campus News"; "Sports / Cultural Updates" ]%string.

(** [Notice.save], lines 74-78: the audience is filled in from the category
    only when it is not set. *)
Definition derive_audience (self : Notice) : Notice :=
  if negb (Py.truthy (audience self)) then
    if Py.str_in (category self) staff_categories then
      set_audience "staff" self
    else if Py.str_in (category self) all_users_categories then
      set_audience "all" self
    else self
  else self.

(** Nothing is left to derive once the audience is set or the category is
    in neither list. *)
Definition settled (n : Notice) : bool :=
  Py.truthy (audience n)
  || (negb (Py.str_in (category n) staff_categories)
      && negb (Py.str_in (category n) all_users_categories)).

Definition pk_is (k : Z) (n : Notice) : bool :=
  match pk n with
  | Some j => Z.eqb j k
  | None => false
  end.

(** The key an AutoField gives to the next inserted row. *)
Definition next_pk (rows : list Notice) : Z :=
  (1 + fold_right (fun n m => match pk n with
                              | Some k => Z.max k m
                              | None => m
                              end) 0 rows)%Z.

(** [models.Model.save]: INSERT for an instance without key ([auto_now_add]
    and [auto_now] stamp it), UPDATE of the row with that key otherwise
    ([auto_now] only); an UPDATE that matches no row falls back to INSERT. *)
Definition Model_save (now : Z) (self : Notice) (rows : list Notice)
  : Notice * list Notice :=
  match pk self with
  | None =>
      let r := set_stamps now now (set_pk (Some (next_pk rows)) self) in
      (r, rows ++ [r])
  | Some k =>
      let r := set_stamps (created_at self) now self in
      if existsb (pk_is k) rows
      then (r, map (fun x => if pk_is k x then r else x) rows)
      else (r, rows ++ [r])
  end.

(** [Notice.save]. *)
Definition save (now : Z) (self : Notice) (rows : list Notice)
  : Notice * list Notice :=
  Model_save now (derive_audience self) rows.

(** Validated data of [NoticeCreateSerializer]: a key may be missing
    (outer [None]); a nullable field may hold [None] (inner [None]). *)
Record attrs : Type := mkAttrs {
  a_category : option string;
  a_audience : option string;
  a_title : option (option string);
  a_content : option (option string);
  a_date : option (option Z);
  a_datetime : option (option Z);
  a_priority : option string;
  a_expiry_date : option (option Z)
}.

(** [if field in attrs and attrs[field] == '': attrs[field] = None]. *)
Definition blank_to_none (v : option (option string)) : option (option string) :=
  match v with
  | Some (Some s) => if String.eqb s EmptyString then Some None else v
  | _ => v
  end.

(** [attrs.get(field)] for a nullable text field. *)
Definition get_text (v : option (option string)) : option string :=
  match v with
  | Some o => o
  | None => None
  end.

(** Lines 62-68 of the serializer: the same rule on the validated data. *)
Definition validate_audience (category : option string)
  (audience : option string) : option string :=
  if Py.truthy_opt category then
    if negb (Py.truthy_opt audience) then
      match category with
      | Some c =>
          if Py.str_in c staff_categories then Some "staff"%string
          else if Py.str_in c all_users_categories then Some "all"%string
          else audience
      | None => audience
      end
    else audience
  else audience.

(** [NoticeCreateSerializer.validate]. *)
Definition validate (a : attrs) : Py.exn + attrs :=
  let t := blank_to_none (a_title a) in
  let c := blank_to_none (a_content a) in
  if negb (Py.truthy_opt (get_text t)) && negb (Py.truthy_opt (get_text c))
  then inl (Py.ValidationError "Either title or content must be provided.")
  else inr (mkAttrs (a_category a)
                    (validate_audience (a_category a) (a_audience a))
                    t c (a_date a) (a_datetime a) (a_priority a)
                    (a_expiry_date a)).

Definition or_default {A : Type} (o : option A) (d : A) : A :=
  match o with
  | Some v => v
  | None => d
  end.

(** [ModelSerializer.update]: [setattr] for every key present. *)
Definition apply_attrs (a : attrs) (n : Notice) : Notice :=
  mkNotice (pk n)
           (or_default (a_category a) (category n))
           (or_default (a_audience a) (audience n))
           (or_default (a_title a) (title n))
           (or_default (a_content a) (content n))
           (or_default (a_date a) (date n))
           (or_default (a_datetime a) (datetime n))
           (posted_by n)
           (or_default (a_priority a) (priority n))
           (or_default (a_expiry_date a) (expiry_date n))
           (created_at n) (updated_at n).

(** [Notice(...)] with the field defaults of the model. *)
Definition blank_instance (user : option Z) : Notice :=
  mkNotice None EmptyString EmptyString None None None None user
           "normal"%string None 0%Z 0%Z.

(** [NoticeCreateSerializer.create] on validated data. *)
Definition create (now : Z) (user : Z) (a : attrs) (rows : list Notice)
  : Notice * list Notice :=
  save now (apply_attrs a (blank_instance (Some user))) rows.

(** [ModelSerializer.update] on validated data. *)
Definition update (now : Z) (instance : Notice) (a : attrs)
  (rows : list Notice) : Notice * list Notice :=
  save now (apply_attrs a instance) rows.

(** [delete_old_notices.Command.handle]: returns [deleted[0]] and the
    table after the DELETE. *)
Definition doomed (now : Z) (n : Notice) : bool :=
  let five_minutes_ago := (now - Py.timedelta_minutes 5)%Z in
  (created_at n <? five_minutes_ago)%Z.

Definition handle (now : Z) (rows : list Notice) : Z * list Notice :=
  (Z.of_nat (List.length (filter (doomed now) rows)),
   filter (fun n => negb (doomed now n)) rows).

End Notices.

(** ** syllabus/models.py, syllabus/serializers.py and syllabus/views.py *)

Module Syllabus.

Definition DEPARTMENT_CHOICES : list string :=
  ["CS"; "ECE"; "EE"; "MECH"; "CIVIL"; "IT"]%string.

Definition SEMESTER_CHOICES : list Z := [1; 2; 3; 4; 5; 6; 7; 8]%Z.

Record Subject : Type := mkSubject {
  pk : option Z;
  name : string;
  subject_code : string;
  department : string;
  semester : Z
}.

Record SyllabusRow : Type := mkSyllabus {
  syllabus_pk : option Z;
  subject : Z;                 (* OneToOneField to Subject *)
  pdf_url : string;
  uploaded_at : Z
}.

Record DB : Type := mkDB {
  subjects : list Subject;
  syllabi : list SyllabusRow
}.

Definition set_subject_code (c : string) (s : Subject) : Subject :=
  mkSubject (pk s) (name s) c (department s) (semester s).

Definition set_pk (k : option Z) (s : Subject) : Subject :=
  mkSubject k (name s) (subject_code s) (department s) (semester s).

(** [filter(department=..., semester=...)]. *)
Definition in_pair (d : string) (sem : Z) (r : Subject) : bool :=
  String.eqb (department r) d && Z.eqb (semester r) sem.

(** [order_by('-subject_code').first()]: a row whose code is the greatest
    in the order of the characters' codes, [None] on an empty selection. *)
Fixpoint first_by_code_desc (rows : list Subject) : option Subject :=
  match rows with
  | [] => None
  | r :: rest =>
      match first_by_code_desc rest with
      | None => Some r
      | Some m =>
          match String.compare (subject_code r) (subject_code m) with
          | Lt => Some m
          | _ => Some r
          end
      end
  end.

(** [Subject.generate_subject_code]; [objects] is the table as the SELECT
    of the method sees it. *)
Definition generate_subject_code (self : Subject) (objects : list Subject)
  : string :=
  let dept_code := Py.upper (department self) in
  let last_subject :=
    first_by_code_desc
      (filter (in_pair (department self) (semester self)) objects) in
  let seq_num :=
    match last_subject with
    | Some l =>
        if Py.truthy (subject_code l) then
          let last_code := subject_code l in
          match Py.int (Py.slice_from (String.length dept_code + 1) last_code) with
          | Some v => (v + 1)%Z
          | None => 1%Z
          end
        else 1%Z
    | None => 1%Z
    end in
  String.append dept_code
    (String.append (Py.str (semester self)) (Py.format_02d seq_num)).

Definition pk_is (k : Z) (r : Subject) : bool :=
  match pk r with
  | Some j => Z.eqb j k
  | None => false
  end.

Definition next_pk (rows : list Subject) : Z :=
  (1 + fold_right (fun r m => match pk r with
                              | Some k => Z.max k m
                              | None => m
                              end) 0 rows)%Z.

(** The two uniqueness constraints of the table, checked against the rows
    other than the one being written. *)
Definition code_taken (c : string) (others : list Subject) : bool :=
  existsb (fun r => String.eqb (subject_code r) c) others.

Definition triple_taken (s : Subject) (others : list Subject) : bool :=
  existsb (fun r => String.eqb (name r) (name s)
                    && String.eqb (department r) (department s)
                    && Z.eqb (semester r) (semester s)) others.

(** [models.Model.save]: INSERT for an instance without key, UPDATE
    otherwise; the statement fails when it would break a constraint. *)
Definition Model_save (self : Subject) (rows : list Subject)
  : Py.exn + (Subject * list Subject) :=
  let others :=
    match pk self with
    | Some k => filter (fun r => negb (pk_is k r)) rows
    | None => rows
    end in
  if code_taken (subject_code self) others then
    inl (Py.IntegrityError "subject_code")
  else if triple_taken self others then
    inl (Py.IntegrityError "name, department, semester")
  else
    match pk self with
    | None =>
        let r := set_pk (Some (next_pk rows)) self in
        inr (r, rows ++ [r])
    | Some k =>
        if existsb (pk_is k) rows
        then inr (self, map (fun x => if pk_is k x then self else x) rows)
        else inr (self, rows ++ [self])
    end.

(** [Subject.save], with the table the generator reads ([seen]) kept apart
    from the table the INSERT reaches ([rows]): another request may commit
    between the two statements. *)
Definition save_at (seen : list Subject) (self : Subject)
  (rows : list Subject) : Py.exn + (Subject * list Subject) :=
  let self1 :=
    if negb (Py.truthy (subject_code self))
    then set_subject_code (generate_subject_code self seen) self
    else self in
  Model_save self1 rows.

(** [Subject.save] when nothing happens in between. *)
Definition save (self : Subject) (rows : list Subject)
  : Py.exn + (Subject * list Subject) :=
  save_at rows self rows.

(** [Subject.objects.create(name=, department=, semester=)]. *)
Definition objects_create_at (seen : list Subject) (n d : string) (sem : Z)
  (rows : list Subject) : Py.exn + (Subject * list Subject) :=
  save_at seen (mkSubject None n EmptyString d sem) rows.

Definition objects_create (n d : string) (sem : Z) (rows : list Subject)
  : Py.exn + (Subject * list Subject) :=
  objects_create_at rows n d sem rows.

(** Validated data of [SubjectSerializer] ([subject_code] is read-only and
    never part of it). *)
Record attrs : Type := mkAttrs {
  a_name : string;
  a_department : string;
  a_semester : Z;
  a_pdf_url : option (option string)
}.

Definition syllabus_next_pk (rows : list SyllabusRow) : Z :=
  (1 + fold_right (fun r m => match syllabus_pk r with
                              | Some k => Z.max k m
                              | None => m
                              end) 0 rows)%Z.

(** [Syllabus.objects.create(subject=, pdf_url=)]. *)
Definition Syllabus_objects_create (now : Z) (subject_pk : Z) (url : string)
  (rows : list SyllabusRow) : Py.exn + list SyllabusRow :=
  if existsb (fun r => Z.eqb (subject r) subject_pk) rows
  then inl (Py.IntegrityError "subject_id")
  else inr (rows ++ [mkSyllabus (Some (syllabus_next_pk rows)) subject_pk
                                url now]).

(** [SubjectSerializer.create]: the result and the tables as the method
    leaves them. A failed INSERT writes nothing; a failure of the second
    INSERT leaves the first in place (statement-level failure, as on
    SQLite, Django's default backend). *)
Definition SubjectSerializer_create (now : Z) (seen : list Subject)
  (a : attrs) (db : DB) : (Py.exn + Subject) * DB :=
  match objects_create_at seen (a_name a) (a_department a) (a_semester a)
                          (subjects db) with
  | inl e => (inl e, db)
  | inr (s, subjects1) =>
      let db1 := mkDB subjects1 (syllabi db) in
      match a_pdf_url a, pk s with
      | Some (Some url), Some k =>
          if Py.truthy url then
            match Syllabus_objects_create now k url (syllabi db) with
            | inl e => (inl e, db1)
            | inr syllabi1 => (inr s, mkDB subjects1 syllabi1)
            end
          else (inr s, db1)
      | _, _ => (inr s, db1)
      end
  end.

(** Request data of a POST to [subjects/]: a key may be missing. *)
Record data : Type := mkData {
  d_name : option string;
  d_department : option string;
  d_semester : option Z;
  d_pdf_url : option (option string)   (* a URL that passed URLField, blank or null *)
}.

(** [serializer.is_valid()]: required fields, the CharField and ChoiceField
    checks, then the validator that [unique_together] gives the
    serializer. *)
Definition is_valid (d : data) (rows : list Subject) : string + attrs :=
  match d_name d, d_department d, d_semester d with
  | Some n, Some dept, Some sem =>
      let n1 := Py.strip n in
      if negb (Py.truthy n1) then inl "name: This field may not be blank."%string
      else if (150 <? String.length n1)%nat
      then inl "name: Ensure this field has no more than 150 characters."%string
      else if negb (Py.str_in dept DEPARTMENT_CHOICES)
      then inl "department: not a valid choice."%string
      else if negb (existsb (Z.eqb sem) SEMESTER_CHOICES)
      then inl "semester: not a valid choice."%string
      else if triple_taken (mkSubject None n1 EmptyString dept sem) rows
      then inl "The fields name, department, semester must make a unique set."%string
      else inr (mkAttrs n1 dept sem (d_pdf_url d))
  | _, _, _ => inl "This field is required."%string
  end.

Inductive body : Type :=
| SubjectData (s : Subject)
| SerializerErrors (detail : string)
| ErrorOf (e : Py.exn)
| Detail (msg : string).

Record response : Type := Response { status : Z; payload : body }.

(** [IsStaffOrReadOnly.has_permission] for an unsafe method (POST). *)
Definition IsStaffOrReadOnly_write (user : Users.requester) : bool :=
  match user with
  | Some u => Users.User.is_staff u
  | None => false
  end.

(** [SubjectListCreateView.create] behind its permission classes. The
    except clause turns every exception of [perform_create] into a 400
    response inside the atomic block, which then commits. *)
Definition SubjectListCreateView_create_at (now : Z) (seen : list Subject)
  (user : Users.requester) (d : data) (db : DB) : response * DB :=
  if negb (Users.IsAuthenticated user) then
    (Response 401 (Detail "Authentication credentials were not provided."), db)
  else if negb (IsStaffOrReadOnly_write user) then
    (Response 403 (Detail "You do not have permission to perform this action."), db)
  else
    match is_valid d (subjects db) with
    | inl errors => (Response 400 (SerializerErrors errors), db)
    | inr a =>
        match SubjectSerializer_create now seen a db with
        | (inr s, db1) => (Response 201 (SubjectData s), db1)
        | (inl e, db1) => (Response 400 (ErrorOf e), db1)
        end
    end.

Definition SubjectListCreateView_create (now : Z) (user : Users.requester)
  (d : data) (db : DB) : response * DB :=
  SubjectListCreateView_create_at now (subjects db) user d db.

End Syllabus.

(** ** Sample data used in examples *)

Module Samples.
Import Users.

Definition day : Z := 86400000000%Z.

Definition principal : User.t :=
  User.mk (Some 1%Z) "root@college.example" "Ada" "Root" "admin" true true
          false "pbkdf2$a" 0 0.

(** A member of staff as [StaffRegistrationSerializer.create] makes them. *)
Definition lecturer : User.t :=
  User.mk (Some 2%Z) "lee@college.example" "Lee" "Ng" "staff" true true
          false "pbkdf2$b" 0 0.

Definition reader : User.t :=
  User.mk (Some 3%Z) "bo@college.example" "Bo" "Diaz" "staff" true true
          false "pbkdf2$c" 0 0.

Definition pupil : User.t :=
  User.mk (Some 4%Z) "sam@college.example" "Sam" "Iyer" "student" true false
          false "pbkdf2$d" 0 0.

Definition lecturer_profile : Staff.t :=
  Staff.mk 2 "S001" (Some "CS"%string) (Some "Professor"%string) None 0.

Definition reader_profile : Staff.t :=
  Staff.mk 3 "S002" (Some "EE"%string) None None 0.

(** Users and staff, no Head of Department yet. *)
Definition college : DB :=
  mkDB [principal; lecturer; reader; pupil] [lecturer_profile; reader_profile] [].

(** The same college with the lecturer as active head of CS. *)
Definition college_with_head : DB :=
  mkDB [principal; lecturer; reader; pupil] [lecturer_profile; reader_profile]
       [HeadOfDepartment.mk (Some 1%Z) (Some 2%Z) "CS" (Some 10%Z) None true
                            None 100 100].

(** The body of POST hods/ that appoints a staff member from day 10. *)
Definition appointment (staff_pk : Z) (department : string) : attrs :=
  mkAttrs (Some staff_pk) (Some department) (Some 10%Z) None None None.

(** An authentication back end for the examples. *)
Definition plain_auth : Auth :=
  mkAuth (fun p => String.append "hash$" p) (fun e => e)
         (fun p => (8 <=? String.length p)%nat) (fun _ => true)
         (fun u => (String.append "refresh:" (User.email u),
                    String.append "access:" (User.email u))).

End Samples.

(** ** Vocabulary of the invariants *)

Module Invariants.
Import Users Users.HeadOfDepartment.

(** Every row has a key and no key occurs twice. *)
Definition Keyed (rows : list t) : Prop :=
  Forall (fun r => pk r <> None) rows /\ NoDup (map pk rows).

(** At most one active row for any department. *)
Definition OneActive (rows : list t) : Prop :=
  forall d, (count_active d rows <= 1)%nat.

Definition Consistent (rows : list t) : Prop :=
  Keyed rows /\ OneActive rows.

(** A computation keeps [P] when the tables it leaves satisfy [P] whenever
    the tables it found did, whether it returns or raises. *)
Definition keeps {A : Type} (P : DB -> Prop) (m : M A) : Prop :=
  forall db, P db -> P (snd (m db)).

(** A property of the Head-of-Department table alone. *)
Definition on_hods (Q : list t -> Prop) (db : DB) : Prop := Q (hods db).

Definition Sound : DB -> Prop := on_hods Consistent.

End Invariants.

(** ** Vocabulary of the table constraints *)

Module TableLaws.
Import Users Users.HeadOfDepartment Invariants.

(** Every row names a staff member and no staff member occurs twice. *)
Definition StaffKeyed (rows : list t) : Prop :=
  Forall (fun r => staff r <> None) rows /\ NoDup (map staff rows).

(** Every row has a start date. *)
Definition Dated (rows : list t) : Prop :=
  Forall (fun r => start_date r <> None) rows.

(** All the constraints of the table. *)
Definition Lawful (rows : list t) : Prop :=
  Consistent rows /\ StaffKeyed rows /\ Dated rows.

End TableLaws.

(** ** users/views.py: [login_view] *)

Module Accounts.
Import Users.

(** The body of a login request: a key may be missing. *)
Record credentials : Type := mkCredentials {
  c_email : option string;
  c_password : option string
}.

(** [LoginSerializer.is_valid()]: an [EmailField] and a [CharField], both
    required. *)
Definition LoginSerializer_is_valid (env : Auth) (c : credentials)
  : list string + (string * string) :=
  match char_field "email" None (c_email c),
        char_field "password" None (c_password c) with
  | inr email, inr password =>
      if negb (email_format_ok env email)
      then inl ["email: Enter a valid email address."%string]
      else inr (email, password)
  | _, _ => inl ["A required field is missing or blank."%string]
  end.

(** What [login_view] answers. *)
Inductive reply : Type :=
| Tokens (status : Z) (message : string) (user : User.t)
         (refresh access : string)
| Refusal (status : Z) (error : string)
| FieldErrors (errors : list string)
| Unhandled (e : Py.exn).

(** [User.objects.get(email=email)]: the rows whose e-mail is exactly the
    one given. *)
Definition users_with_email (email : string) (db : DB) : list User.t :=
  filter (fun u => String.eqb (User.email u) email) (users db).

(** The response of [login_view]. [check_password raw stored] is
    [user.check_password]; that Django may store a fresh hash of a correct
    password plays no part in the response. *)
Definition login_view (env : Auth) (check_password : string -> string -> bool)
  (c : credentials) (db : DB) : reply :=
  match LoginSerializer_is_valid env c with
  | inl errors => FieldErrors errors
  | inr (email, password) =>
      match users_with_email email db with
      | [] => Refusal 401 "Invalid email or password."
      | [user] =>
          if negb (User.is_active user) then
            Refusal 403 "User account is disabled."
          else if negb (check_password password (User.password user)) then
            Refusal 401 "Invalid email or password."
          else
            let tokens := for_user env user in
            Tokens 200 "Login successful" user (fst tokens) (snd tokens)
      | _ => Unhandled Py.MultipleObjectsReturned
      end
  end.

End Accounts.

(** ** notices/views.py and the field checks of [NoticeCreateSerializer] *)

Module NoticeViews.
Import Notices.

(** [Notice.CATEGORY_CHOICES], the stored values. *)
Definition CATEGORY_CHOICES : list string :=
  [ "Staff Meeting"; "Invigilation Duty"; "Internal Circular";
    "Timetable Work"; "Leave / Policy Update"; "Faculty Training";
    "Research Opportunities"; "Staff Achievements"; "Maintenance Notices";
    "IT & System Updates";
    "Holiday Announcement"; "Exam Timetable"; "Events"; "Results";
    "Fee Notices"; "Emergency Alerts"; "Workshops / Seminars";
    "Scholarship / Grants"; "Campus News"; "Sports / Cultural Updates" ]%string.

Definition AUDIENCE_CHOICES : list string := ["staff"; "all"]%string.

Definition PRIORITY_CHOICES : list string :=
  ["normal"; "important"; "urgent"]%string.

(** Field validation of the ModelSerializer: [category] and [audience]
    have neither default nor [blank] in the model and are required unless
    the update is partial; the choice fields take a value of their
    choices; a title has at most 200 characters. *)
Definition field_errors (partial : bool) (a : attrs) : list string :=
  (match a_category a with
   | None => if partial then [] else ["category: This field is required."%string]
   | Some c => if Py.str_in c CATEGORY_CHOICES then []
               else ["category: not a valid choice."%string]
   end)
  ++ (match a_audience a with
      | None => if partial then [] else ["audience: This field is required."%string]
      | Some v => if Py.str_in v AUDIENCE_CHOICES then []
                  else ["audience: not a valid choice."%string]
      end)
  ++ (match a_title a with
      | Some (Some t) =>
          if (200 <? String.length t)%nat
          then ["title: Ensure this field has no more than 200 characters."%string]
          else []
      | _ => []
      end)
  ++ (match a_priority a with
      | Some p => if Py.str_in p PRIORITY_CHOICES then []
                  else ["priority: not a valid choice."%string]
      | None => []
      end).

(** [serializer.is_valid()]: the fields, then [validate]. *)
Definition is_valid (partial : bool) (a : attrs) : list string + attrs :=
  match field_errors partial a with
  | [] =>
      match validate a with
      | inr validated_data => inr validated_data
      | inl (Py.ValidationError msg) => inl [msg]
      | inl _ => inl []
      end
  | errors => inl errors
  end.

Inductive body : Type :=
| Created (n : Notice)
| Updated (n : Notice)
| NoticeData (n : Notice)
| NoticeList (count : Z) (notices : list Notice)
| Errors (errors : list string)
| Error (msg : string)
| Message (msg : string).

Record response : Type := Response { status : Z; payload : body }.

(** [order_by('-created_at')]. *)
Fixpoint insert_by_created (x : Notice) (l : list Notice) : list Notice :=
  match l with
  | [] => [x]
  | y :: r => if (created_at y <=? created_at x)%Z
              then x :: l else y :: insert_by_created x r
  end.

Definition newest_first (l : list Notice) : list Notice :=
  fold_right insert_by_created [] l.

Definition not_authenticated : response :=
  Response 401 (Error "Authentication credentials were not provided.").

(** [create_notice_view]. Saving cannot fail in this model, so the except
    clause of the view is never entered. *)
Definition create_notice_view (now : Z) (user : Users.requester) (a : attrs)
  (rows : list Notice) : response * list Notice :=
  match user with
  | None => (not_authenticated, rows)
  | Some u =>
      if negb (Py.str_in (Users.User.role u) ["admin"; "staff"]%string) then
        (Response 403 (Error "Only staff and admin can create notices."), rows)
      else
        match is_valid false a with
        | inl errors => (Response 400 (Errors errors), rows)
        | inr validated_data =>
            let saved :=
              save now (apply_attrs validated_data
                                    (blank_instance (Users.User.pk u))) rows in
            (Response 201 (Created (fst saved)), snd saved)
        end
  end.

(** [list_notices_view]. *)
Definition list_notices_view (user : Users.requester) (rows : list Notice)
  : response :=
  match user with
  | None => not_authenticated
  | Some u =>
      let notices :=
        if String.eqb (Users.User.role u) "admin"
           || String.eqb (Users.User.role u) "staff"
        then newest_first rows
        else newest_first
               (filter (fun n => String.eqb (audience n) "all") rows) in
      Response 200 (NoticeList (Z.of_nat (List.length notices)) notices)
  end.

(** [Notice.objects.get(id=notice_id)]. *)
Definition get (id : Z) (rows : list Notice) : option Notice :=
  find (pk_is id) rows.

(** [notice_detail_view]. *)
Definition notice_detail_view (user : Users.requester) (id : Z)
  (rows : list Notice) : response :=
  match user with
  | None => not_authenticated
  | Some u =>
      match get id rows with
      | None => Response 404 (Error "Notice not found.")
      | Some notice =>
          if String.eqb (audience notice) "staff"
             && String.eqb (Users.User.role u) "student"
          then Response 403
                 (Error "You do not have permission to view this notice.")
          else Response 200 (NoticeData notice)
      end
  end.

Inductive method : Type := PUT | PATCH | DELETE.

(** [manage_notice_view]. *)
Definition manage_notice_view (now : Z) (user : Users.requester) (m : method)
  (id : Z) (a : attrs) (rows : list Notice) : response * list Notice :=
  match user with
  | None => (not_authenticated, rows)
  | Some u =>
      if negb (String.eqb (Users.User.role u) "admin") then
        (Response 403 (Error "Only admins can manage notices."), rows)
      else
        match get id rows with
        | None => (Response 404 (Error "Notice not found."), rows)
        | Some notice =>
            match m with
            | DELETE =>
                (Response 204 (Message "Notice deleted successfully"),
                 filter (fun n => negb (pk_is id n)) rows)
            | _ =>
                let partial := match m with PATCH => true | _ => false end in
                match is_valid partial a with
                | inl errors => (Response 400 (Errors errors), rows)
                | inr validated_data =>
                    let saved := update now notice validated_data rows in
                    (Response 200 (Updated (fst saved)), snd saved)
                end
            end
        end
  end.

End NoticeViews.

(** ** syllabus/views.py: the syllabus upsert, the deletion of a subject and
    the subjects of a department *)

Module SyllabusViews.
Import Syllabus.

Inductive body : Type :=
| SyllabusData (r : SyllabusRow)
| Error (msg : string)
| Detail (msg : string)
| NotFound
| NoContent.

(** What the client gets: a response built by the view or by the
    framework, or the 500 of an exception nobody catches. *)
Inductive response : Type :=
| Response (status : Z) (payload : body)
| ServerError (e : Py.exn).

(** [permission_classes = [IsAuthenticated, IsStaffOrReadOnly]] for a
    method that is not safe; [None] lets the request through. *)
Definition write_gate (user : Users.requester) : option response :=
  if negb (Users.IsAuthenticated user) then
    Some (Response 401 (Detail "Authentication credentials were not provided."))
  else if negb (IsStaffOrReadOnly_write user) then
    Some (Response 403 (Detail "You do not have permission to perform this action."))
  else None.

(** Request data of a POST to [syllabus/]: a key may be missing or null. *)
Record syllabus_data : Type := mkSyllabusData {
  d_subject : option Z;
  d_pdf_url : option string
}.

(** [not subject_id]: a missing key, null and the number 0 are falsy. *)
Definition falsy_id (o : option Z) : bool :=
  match o with
  | Some z => Z.eqb z 0
  | None => true
  end.

Definition syllabus_pk_is (k : Z) (r : SyllabusRow) : bool :=
  match syllabus_pk r with
  | Some j => Z.eqb j k
  | None => false
  end.

Definition set_pdf_url (url : string) (r : SyllabusRow) : SyllabusRow :=
  mkSyllabus (syllabus_pk r) (subject r) url (uploaded_at r).

(** [Syllabus.save] of a stored row: UPDATE by key ([uploaded_at] is
    [auto_now_add] and stays); INSERT for a row without key. *)
Definition Syllabus_save (r : SyllabusRow) (rows : list SyllabusRow)
  : list SyllabusRow :=
  match syllabus_pk r with
  | Some k => map (fun x => if syllabus_pk_is k x then r else x) rows
  | None => rows ++ [r]
  end.

(** [Syllabus.objects.update_or_create(subject=, defaults={'pdf_url': })]:
    the row, whether it was created, and the table. *)
Definition update_or_create (now : Z) (subject_pk : Z) (url : string)
  (rows : list SyllabusRow) : Py.exn + (SyllabusRow * bool * list SyllabusRow) :=
  match filter (fun r => Z.eqb (subject r) subject_pk) rows with
  | [] =>
      let r := mkSyllabus (Some (syllabus_next_pk rows)) subject_pk url now in
      inr (r, true, rows ++ [r])
  | [found] =>
      let r := set_pdf_url url found in
      inr (r, false, Syllabus_save r rows)
  | _ => inl Py.MultipleObjectsReturned
  end.

(** [SyllabusListCreateView.create] behind its permission classes. *)
Definition SyllabusListCreateView_create (now : Z) (user : Users.requester)
  (d : syllabus_data) (db : DB) : response * DB :=
  match write_gate user with
  | Some refusal => (refusal, db)
  | None =>
      let subject_id := d_subject d in
      let pdf_url := d_pdf_url d in
      if falsy_id subject_id || negb (Py.truthy_opt pdf_url) then
        (Response 400 (Error "Both subject ID and PDF URL are required"), db)
      else
        match subject_id, pdf_url with
        | Some id, Some url =>
            match find (pk_is id) (subjects db) with
            | None => (Response 404 (Error "Subject not found"), db)
            | Some _ =>
                match update_or_create now id url (syllabi db) with
                | inl e => (ServerError e, db)
                | inr (syllabus, created, syllabi1) =>
                    (Response (if created then 201 else 200)
                              (SyllabusData syllabus),
                     mkDB (subjects db) syllabi1)
                end
            end
        | _, _ =>
            (Response 400 (Error "Both subject ID and PDF URL are required"), db)
        end
  end.

(** [SubjectDetailView.destroy]: [get_object] answers 404 for an unknown
    key; deleting the subject deletes its syllabus ([on_delete=CASCADE]). *)
Definition SubjectDetailView_destroy (user : Users.requester) (id : Z)
  (db : DB) : response * DB :=
  match write_gate user with
  | Some refusal => (refusal, db)
  | None =>
      match find (pk_is id) (subjects db) with
      | None => (Response 404 NotFound, db)
      | Some _ =>
          (Response 204 NoContent,
           mkDB (filter (fun r => negb (pk_is id r)) (subjects db))
                (filter (fun r => negb (Z.eqb (subject r) id)) (syllabi db)))
      end
  end.

(** [Meta.ordering = ['department', 'semester', 'name']], strings compared
    by the codes of their characters. *)
Definition ordering_le (a b : Subject) : bool :=
  match String.compare (department a) (department b) with
  | Lt => true
  | Gt => false
  | Eq =>
      match Z.compare (semester a) (semester b) with
      | Lt => true
      | Gt => false
      | Eq =>
          match String.compare (name a) (name b) with
          | Gt => false
          | _ => true
          end
      end
  end.

Fixpoint insert_ordered (x : Subject) (l : list Subject) : list Subject :=
  match l with
  | [] => [x]
  | y :: r => if ordering_le x y then x :: l else y :: insert_ordered x r
  end.

Definition ordered (l : list Subject) : list Subject :=
  fold_right insert_ordered [] l.

(** [str.isascii]. *)
Fixpoint isascii (s : string) : bool :=
  match s with
  | EmptyString => true
  | String c r => (nat_of_ascii c <? 128)%nat && isascii r
  end.

(** [DepartmentSubjectsView.get_queryset]: [department] is the path
    argument, [semester] the query parameter when it is given. The module
    never binds the name [serializers], so both raise statements end in a
    NameError. *)
Definition DepartmentSubjectsView_get_queryset (department : string)
  (semester : option string) (rows : list Subject) : Py.exn + list Subject :=
  let department :=
    if Py.truthy department then Py.upper department else department in
  if negb (Py.str_in department DEPARTMENT_CHOICES) then
    inl (Py.NameError "serializers")
  else
    let queryset :=
      filter (fun r => String.eqb (Syllabus.department r) department) rows in
    match semester with
    | Some s =>
        if Py.truthy s then
          match Py.int s with
          | Some v =>
              inr (ordered (filter (fun r => Z.eqb (Syllabus.semester r) v)
                                   queryset))
          | None => inl (Py.NameError "serializers")
          end
        else inr (ordered queryset)
    | None => inr (ordered queryset)
    end.

End SyllabusViews.

(** ** The constraints of the syllabus table *)

Module SyllabusLaws.
Import Syllabus.

(** Every stored row has a key, keys are distinct, and a subject has at
    most one syllabus ([OneToOneField]). *)
Definition Lawful (rows : list SyllabusRow) : Prop :=
  Forall (fun r => syllabus_pk r <> None) rows
  /\ NoDup (map syllabus_pk rows)
  /\ NoDup (map subject rows).

End SyllabusLaws.

(** ** users/views.py: the deletion of a staff member *)

Module StaffViews.
Import Users Users.HeadOfDepartment.

(** [staff.delete()]: the profile goes, and with it every appointment of
    the staff member ([HeadOfDepartment.staff] is [on_delete=CASCADE]). *)
Definition Staff_delete (staff : Staff.t) : M unit :=
  fun db =>
    (inr tt,
     mkDB (users db)
          (filter (fun s => negb (Z.eqb (Staff.user s) (Staff.user staff)))
                  (Users.staff db))
          (filter (fun h => negb (staff_is (Staff.user staff) h)) (hods db))).

(** [user.delete()]: the user goes, and what hangs on it by a cascading
    key (a profile, and the appointments of that profile). *)
Definition User_delete (k : Z) : M unit :=
  fun db =>
    (inr tt,
     mkDB (filter (fun u => negb (user_pk_is k u)) (users db))
          (filter (fun s => negb (Z.eqb (Staff.user s) k)) (Users.staff db))
          (filter (fun h => negb (staff_is k h)) (hods db))).

(** [manage_staff_view] for the method DELETE. *)
Definition manage_staff_view_DELETE (user : requester) (staff_id : string)
  : M response :=
  authenticated_gate user
    (match user with
     | None =>
         ret (Response 401
                (Detail "Authentication credentials were not provided."))
     | Some u =>
         if negb (String.eqb (User.role u) "admin") then
           ret (Response 403 (Detail "Only admins can manage staff members."))
         else
           db <- read ;;
           match filter (fun s => String.eqb (Staff.staff_id s) staff_id)
                        (Users.staff db) with
           | [] => ret (Response 404 (Detail "Staff member not found."))
           | [staff] =>
               match find_user (Staff.user staff) db with
               | None =>
                   ret (Response 400
                          (Detail "Failed to delete staff member: User matching query does not exist."))
               | Some _ =>
                   Staff_delete staff ;;;
                   User_delete (Staff.user staff) ;;;
                   ret (Response 204 (Detail "Staff member deleted successfully"))
               end
           | _ => raise Py.MultipleObjectsReturned
           end
     end).

End StaffViews.

(** ** users/serializers.py and users/views.py: adding a staff member *)

Module AddStaff.
Import Users.

(** The body of a POST to add-staff/ that carries none of the demographic
    keys (date of birth, gender, phone, address, salary): a key may be
    missing, an optional one may be null. *)
Record staff_request : Type := mkStaffRequest {
  q_email : option string;
  q_first_name : option string;
  q_last_name : option string;
  q_password : option string;
  q_password2 : option string;
  q_staff_id : option string;
  q_department : option (option string);
  q_designation : option (option string);
  q_qualification : option (option string)
}.

(** An optional [CharField] with [allow_null] and [allow_blank]: the value
    is trimmed; [validate] then turns the empty string into [None], and
    [create] reads a missing key as [None]. *)
Definition optional_char_field (label : string) (max_length : nat)
  (v : option (option string)) : string + option string :=
  match v with
  | Some (Some raw) =>
      let value := Py.strip raw in
      if (max_length <? String.length value)%nat
      then inl (String.append label ": Ensure this field is not too long.")
      else if String.eqb value EmptyString then inr None
      else inr (Some value)
  | _ => inr None
  end.

(** The optional [ChoiceField] of the department, with [allow_null]. *)
Definition department_field (v : option (option string))
  : string + option string :=
  match v with
  | Some (Some dep) =>
      if existsb (fun c => String.eqb (fst c) dep) DEPARTMENT_CHOICES
      then inr (Some dep)
      else inl "department: not a valid choice."%string
  | _ => inr None
  end.

Definition staff_id_taken (staff_id : string) (rows : list Staff.t) : bool :=
  existsb (fun x => String.eqb (Staff.staff_id x) staff_id) rows.

(** [StaffRegistrationSerializer.is_valid()]: the fields, then
    [validate]. *)
Definition StaffRegistrationSerializer_is_valid (env : Auth)
  (d : staff_request) (db : DB) : list string + staff_registration :=
  match char_field "email" None (q_email d),
        char_field "first_name" (Some 100%nat) (q_first_name d),
        char_field "last_name" (Some 100%nat) (q_last_name d),
        char_field "password" None (q_password d),
        char_field "password2" None (q_password2 d),
        char_field "staff_id" (Some 50%nat) (q_staff_id d),
        department_field (q_department d),
        optional_char_field "designation" 100 (q_designation d),
        optional_char_field "qualification" 200 (q_qualification d) with
  | inr email, inr first_name, inr last_name, inr password, inr password2,
    inr staff_id, inr department, inr designation, inr qualification =>
      if negb (email_format_ok env email) then
        inl ["email: Enter a valid email address."%string]
      else if negb (validate_password env password) then
        inl ["password: This password is not acceptable."%string]
      else if negb (String.eqb password password2) then
        inl ["password: Password fields didn't match."%string]
      else if email_taken email (users db) then
        inl ["email: A user with this email already exists."%string]
      else if staff_id_taken staff_id (Users.staff db) then
        inl ["staff_id: A staff member with this ID already exists."%string]
      else
        inr (mkStaffRegistration email first_name last_name password staff_id
                                 department designation qualification)
  | _, _, _, _, _, _, _, _, _ =>
      inl ["A field is missing, blank or not acceptable."%string]
  end.

(** What [add_staff_view] answers. *)
Inductive reply : Type :=
| Added (status : Z) (staff : Staff.t)
| Invalid (status : Z) (errors : list string)
| Refused (status : Z) (error : string)
| Failed (status : Z) (e : Py.exn).

(** [add_staff_view]. The except clause answers 400 for whatever
    [serializer.save()] raises; what was written before stays written. *)
Definition add_staff_view (env : Auth) (now : Z) (user : requester)
  (d : staff_request) (db : DB) : reply * DB :=
  match user with
  | None => (Refused 401 "Authentication credentials were not provided.", db)
  | Some u =>
      if negb (String.eqb (User.role u) "admin") then
        (Refused 403 "Only admins can add staff members.", db)
      else
        match StaffRegistrationSerializer_is_valid env d db with
        | inl errors => (Invalid 400 errors, db)
        | inr validated_data =>
            match StaffRegistrationSerializer_create env now validated_data db with
            | (inr staff, db1) => (Added 201 staff, db1)
            | (inl e, db1) => (Failed 400 e, db1)
            end
        end
  end.

End AddStaff.

(* ================================================================== *)
(** * Part II: properties *)
(* ================================================================== *)

Module PyFacts.

Example str_7 : Py.str 7 = "7"%string.
Proof. reflexivity. Qed.

Example str_0 : Py.str 0 = "0"%string.
Proof. reflexivity. Qed.

Example format_examples :
  Py.format_02d 1 = "01"%string /\ Py.format_02d 42 = "42"%string /\
  Py.format_02d 100 = "100"%string /\ Py.format_02d (-4) = "-4"%string.
Proof. repeat split; reflexivity. Qed.

Example int_examples :
  Py.int "01" = Some 1%Z /\ Py.int " -12 " = Some (-12)%Z /\
  Py.int "1_0" = Some 10%Z /\ Py.int "" = None /\ Py.int "1__0" = None /\
  Py.int "A1" = None /\ Py.int "_1" = None /\ Py.int "1_" = None.
Proof. repeat split; reflexivity. Qed.

End PyFacts.

(** ** Notices: audience derivation and the expiry sweep *)

Module NoticesFacts.
Import Notices.

Lemma audience_Model_save now n rows :
  audience (fst (Model_save now n rows)) = audience n.
Proof.
  unfold Model_save.
  destruct (pk n) as [k|]; [destruct (existsb (pk_is k) rows)|]; reflexivity.
Qed.

Lemma audience_save now n rows :
  audience (fst (save now n rows)) = audience (derive_audience n).
Proof. unfold save. apply audience_Model_save. Qed.

Lemma derive_audience_set n :
  Py.truthy (audience n) = true -> derive_audience n = n.
Proof. intros H. unfold derive_audience. rewrite H. reflexivity. Qed.

Lemma derive_audience_idem n :
  derive_audience (derive_audience n) = derive_audience n.
Proof.
  destruct (negb (Py.truthy (audience n))) eqn:Hset.
  - destruct (Py.str_in (category n) staff_categories) eqn:E1.
    + assert (Hd : derive_audience n = set_audience "staff" n)
        by (unfold derive_audience; rewrite Hset, E1; reflexivity).
      rewrite Hd. apply derive_audience_set. reflexivity.
    + destruct (Py.str_in (category n) all_users_categories) eqn:E2.
      * assert (Hd : derive_audience n = set_audience "all" n)
          by (unfold derive_audience; rewrite Hset, E1, E2; reflexivity).
        rewrite Hd. apply derive_audience_set. reflexivity.
      * assert (Hd : derive_audience n = n)
          by (unfold derive_audience; rewrite Hset, E1, E2; reflexivity).
        rewrite !Hd. reflexivity.
  - assert (Hd : derive_audience n = n)
      by (unfold derive_audience; rewrite Hset; reflexivity).
    rewrite !Hd. reflexivity.
Qed.

(** The instance that [save] returns is the row the table holds. *)
Lemma save_stored now n rows :
  In (fst (save now n rows)) (snd (save now n rows)).
Proof.
  unfold save, Model_save.
  destruct (pk (derive_audience n)) as [k|] eqn:Hpk; simpl.
  - destruct (existsb (pk_is k) rows) eqn:Hex; simpl.
    + apply existsb_exists in Hex. destruct Hex as [x [Hin Hx]].
      apply in_map_iff. exists x. split; [rewrite Hx; reflexivity | exact Hin].
    + apply in_or_app. right. left. reflexivity.
  - apply in_or_app. right. left. reflexivity.
Qed.

Lemma category_Model_save now n rows :
  category (fst (Model_save now n rows)) = category n.
Proof.
  unfold Model_save.
  destruct (pk n) as [k|]; [destruct (existsb (pk_is k) rows)|]; reflexivity.
Qed.

Lemma settled_fix n : settled n = true -> derive_audience n = n.
Proof.
  unfold settled, derive_audience.
  destruct (Py.truthy (audience n));
    destruct (Py.str_in (category n) staff_categories);
    destruct (Py.str_in (category n) all_users_categories);
    cbn [negb orb andb]; intros H; try reflexivity; discriminate.
Qed.

Lemma settled_derive n : settled (derive_audience n) = true.
Proof.
  unfold derive_audience.
  destruct (Py.truthy (audience n)) eqn:Ht; cbn [negb].
  - unfold settled. rewrite Ht. reflexivity.
  - destruct (Py.str_in (category n) staff_categories) eqn:E1;
      [reflexivity|].
    destruct (Py.str_in (category n) all_users_categories) eqn:E2;
      [reflexivity|].
    unfold settled. rewrite E1, E2. apply orb_true_r.
Qed.

(** A second save finds nothing to derive. *)
Lemma derive_audience_fst_save now n rows :
  derive_audience (fst (save now n rows)) = fst (save now n rows).
Proof.
  apply settled_fix. unfold settled, save.
  rewrite audience_Model_save, category_Model_save.
  apply (settled_derive n).
Qed.

(** The rule of the serializer is the rule of the model. *)
Lemma validate_audience_agrees c a n :
  audience (derive_audience
              (set_category c (set_audience (or_default a EmptyString) n)))
  = or_default (validate_audience (Some c) a) EmptyString.
Proof.
  unfold derive_audience, validate_audience, Py.truthy_opt, Py.truthy.
  cbn [audience category set_category set_audience].
  destruct a as [a|]; cbn [or_default].
  - destruct (String.eqb a EmptyString) eqn:Ha; cbn [negb].
    + apply String.eqb_eq in Ha. subst a.
      destruct (String.eqb c EmptyString) eqn:Hc; cbn [negb].
      * apply String.eqb_eq in Hc. subst c. reflexivity.
      * destruct (Py.str_in c staff_categories); [reflexivity|].
        destruct (Py.str_in c all_users_categories); reflexivity.
    + destruct (negb (String.eqb c EmptyString)); reflexivity.
  - cbn [negb String.eqb].
    destruct (String.eqb c EmptyString) eqn:Hc; cbn [negb].
    + apply String.eqb_eq in Hc. subst c. reflexivity.
    + destruct (Py.str_in c staff_categories); [reflexivity|].
      destruct (Py.str_in c all_users_categories); reflexivity.
Qed.

(** C8. Audience derivation in [Notice.save]: a notice without audience
    gets "staff" for the category "Staff Meeting" and "all" for "Events",
    and keeps its audience unset for a category in neither list; a second
    save returns the audience of the first; an audience that is set is
    never replaced; the result is the same for an INSERT and for an UPDATE;
    the returned instance is the stored row; the serializer's copy of the
    rule computes the same audience as the model's; and the serializer's
    create and update both end in that one rule. *)
Theorem audience_derivation_stable :
  (forall now n rows, audience n = EmptyString ->
     (category n = "Staff Meeting"%string ->
        audience (fst (save now n rows)) = "staff"%string) /\
     (category n = "Events"%string ->
        audience (fst (save now n rows)) = "all"%string) /\
     (Py.str_in (category n) staff_categories = false ->
      Py.str_in (category n) all_users_categories = false ->
        audience (fst (save now n rows)) = EmptyString)) /\
  (forall now now' n rows,
     audience (fst (save now' (fst (save now n rows)) (snd (save now n rows))))
     = audience (fst (save now n rows))) /\
  (forall now n rows, audience n <> EmptyString ->
     audience (fst (save now n rows)) = audience n) /\
  (forall now n rows k,
     audience (fst (save now (set_pk None n) rows))
     = audience (fst (save now (set_pk (Some k) n) rows))) /\
  (forall now n rows, In (fst (save now n rows)) (snd (save now n rows))) /\
  (forall c a n,
     audience (derive_audience
                 (set_category c (set_audience (or_default a EmptyString) n)))
     = or_default (validate_audience (Some c) a) EmptyString) /\
  (forall now user instance a rows,
     audience (fst (create now user a rows))
     = audience (derive_audience (apply_attrs a (blank_instance (Some user)))) /\
     audience (fst (update now instance a rows))
     = audience (derive_audience (apply_attrs a instance))).
Proof.
  split; [|split; [|split; [|split; [|split; [|split]]]]].
  - intros now n rows Hunset. rewrite !audience_save.
    unfold derive_audience. rewrite Hunset. cbn [Py.truthy String.eqb negb].
    split; [|split].
    + intros Hc. rewrite Hc. reflexivity.
    + intros Hc. rewrite Hc. reflexivity.
    + intros H1 H2. rewrite H1, H2. exact Hunset.
  - intros now now' n rows. rewrite audience_save.
    rewrite derive_audience_fst_save. reflexivity.
  - intros now n rows Hset. rewrite audience_save.
    rewrite derive_audience_set; [reflexivity|].
    unfold Py.truthy. destruct (String.eqb (audience n) EmptyString) eqn:E;
      [apply String.eqb_eq in E; contradiction | reflexivity].
  - intros now n rows k. rewrite !audience_save. unfold derive_audience.
    cbn [audience category set_pk].
    destruct (negb (Py.truthy (audience n)));
      destruct (Py.str_in (category n) staff_categories);
      destruct (Py.str_in (category n) all_users_categories); reflexivity.
  - apply save_stored.
  - apply validate_audience_agrees.
  - intros now user instance a rows. unfold create, update.
    rewrite !audience_save. split; reflexivity.
Qed.

Lemma audience_derivation_stable_witness :
  audience (fst (save 1000 (mkNotice None "Staff Meeting" "" (Some "Agenda"%string)
                                     None None None (Some 1%Z) "normal" None 0 0)
                      [])) = "staff"%string.
Proof.
  apply (proj1 (proj1 audience_derivation_stable 1000%Z
                 (mkNotice None "Staff Meeting" "" (Some "Agenda"%string)
                           None None None (Some 1%Z) "normal" None 0 0)
                 [] eq_refl) eq_refl).
Defined.

Lemma filter_split_length {A : Type} (f : A -> bool) (l : list A) :
  List.length l = (List.length (filter f l)
                   + List.length (filter (fun x => negb (f x)) l))%nat.
Proof.
  induction l as [|x l IH]; [reflexivity|].
  cbn [filter]. destruct (f x); cbn [negb List.length]; lia.
Qed.

Lemma filter_of_complement {A : Type} (f : A -> bool) (l : list A) :
  filter f (filter (fun x => negb (f x)) l) = [].
Proof.
  induction l as [|x l IH]; [reflexivity|].
  cbn [filter]. destruct (f x) eqn:E; cbn [negb filter]; [exact IH|].
  rewrite E. exact IH.
Qed.

Lemma filter_twice {A : Type} (f : A -> bool) (l : list A) :
  filter f (filter f l) = filter f l.
Proof.
  induction l as [|x l IH]; [reflexivity|].
  cbn [filter]. destruct (f x) eqn:E; [|exact IH].
  cbn [filter]. rewrite E, IH. reflexivity.
Qed.

Lemma doomed_spec now n :
  doomed now n = true <-> (now - created_at n > 300000000)%Z.
Proof.
  unfold doomed, Py.timedelta_minutes. rewrite Z.ltb_lt. lia.
Qed.

(** C10. The sweep keeps exactly the notices created at most five minutes
    before [now], each of them unchanged and in their order; it deletes the
    others whatever their expiry date, priority and audience; the number it
    reports is the number of rows removed; and a second run at the same
    instant deletes nothing. *)
Theorem sweep_deletes_older_than_five_minutes now rows :
  snd (handle now rows)
    = filter (fun n => (now - created_at n <=? 300000000)%Z) rows /\
  (forall n, In n (snd (handle now rows)) <->
             In n rows /\ (now - created_at n <= 300000000)%Z) /\
  (forall n, In n rows -> (now - created_at n > 300000000)%Z ->
             ~ In n (snd (handle now rows))) /\
  (forall n n', created_at n = created_at n' -> doomed now n = doomed now n') /\
  (fst (handle now rows)
    = Z.of_nat (List.length rows) - Z.of_nat (List.length (snd (handle now rows))))%Z /\
  handle now (snd (handle now rows)) = (0%Z, snd (handle now rows)).
Proof.
  assert (Hkeep : forall n, negb (doomed now n)
                            = (now - created_at n <=? 300000000)%Z).
  { intros n. unfold doomed, Py.timedelta_minutes.
    destruct (Z.ltb_spec (created_at n) (now - 5 * 60 * 1000000));
      destruct (Z.leb_spec (now - created_at n) 300000000);
      cbn [negb]; try reflexivity; lia. }
  assert (Hmem : forall n, In n (snd (handle now rows)) <->
                           In n rows /\ (now - created_at n <= 300000000)%Z).
  { intros n. unfold handle. cbn [snd]. rewrite filter_In, Hkeep, Z.leb_le.
    reflexivity. }
  split; [|split; [|split; [|split; [|split]]]].
  - unfold handle. cbn [snd]. apply filter_ext. exact Hkeep.
  - exact Hmem.
  - intros n _ Hold Hin. apply Hmem in Hin. lia.
  - intros n n' Heq. unfold doomed. rewrite Heq. reflexivity.
  - unfold handle. cbn [fst snd].
    pose proof (filter_split_length (doomed now) rows) as Hlen. lia.
  - unfold handle. cbn [fst snd].
    rewrite filter_of_complement, filter_twice. reflexivity.
Qed.

End NoticesFacts.

(** ** Syllabus: the subject code generator *)

Module SyllabusFacts.
Import Syllabus.

Local Notation "a +++ b" := (String.append a b)
  (at level 60, right associativity).

Example generate_on_empty_table :
  generate_subject_code (mkSubject None "Algorithms" "" "CS" 1) [] = "CS101"%string.
Proof. reflexivity. Qed.

Example create_view_first_subject :
  SubjectListCreateView_create 1000 (Some Samples.lecturer)
    (mkData (Some " Algorithms "%string) (Some "CS"%string) (Some 1%Z) None)
    (mkDB [] [])
  = (Response 201 (SubjectData (mkSubject (Some 1%Z) "Algorithms" "CS101" "CS" 1)),
     mkDB [mkSubject (Some 1%Z) "Algorithms" "CS101" "CS" 1] []).
Proof. reflexivity. Qed.

Example create_view_student_forbidden :
  fst (SubjectListCreateView_create 1000 (Some Samples.pupil)
         (mkData (Some "Algorithms"%string) (Some "CS"%string) (Some 1%Z) None)
         (mkDB [] []))
  = Response 403 (Detail "You do not have permission to perform this action.").
Proof. reflexivity. Qed.

Example generate_past_99 :
  generate_subject_code (mkSubject None "Logic" "" "CS" 1)
    [mkSubject (Some 1%Z) "A" "CS199" "CS" 1;
     mkSubject (Some 2%Z) "B" "CS1100" "CS" 1] = "CS1100"%string.
Proof. reflexivity. Qed.

Lemma length_upper s : String.length (Py.upper s) = String.length s.
Proof. induction s as [|c r IH]; cbn; [reflexivity | now rewrite IH]. Qed.

Lemma slice_from_append p r :
  Py.slice_from (String.length p) (p +++ r) = r.
Proof. induction p as [|c p IH]; [destruct r; reflexivity | exact IH]. Qed.

Lemma slice_from_past_digit p c r :
  Py.slice_from (String.length p + 1) (p +++ String c r) = r.
Proof.
  induction p as [|c' p IH]; [reflexivity | exact IH].
Qed.

Lemma append_assoc a b c : (a +++ b) +++ c = a +++ (b +++ c).
Proof. induction a as [|x a IH]; cbn; [reflexivity | now rewrite IH]. Qed.

Lemma length_append a b :
  String.length (a +++ b) = (String.length a + String.length b)%nat.
Proof. induction a as [|x a IH]; cbn; [reflexivity | now rewrite IH]. Qed.

Lemma append_inj_same_length a a' b b' :
  String.length a = String.length a' ->
  a +++ b = a' +++ b' -> a = a' /\ b = b'.
Proof.
  revert a'. induction a as [|x a IH]; intros [|x' a'] Hlen Heq;
    cbn in *; try discriminate.
  - split; [reflexivity | exact Heq].
  - injection Heq as Hx Hrest. injection Hlen as Hlen.
    destruct (IH a' Hlen Hrest) as [-> ->]. subst x'. split; reflexivity.
Qed.

Lemma compare_append_same p a b :
  String.compare (p +++ a) (p +++ b) = String.compare a b.
Proof.
  induction p as [|c p IH]; [reflexivity|].
  cbn [String.append String.compare]. unfold Ascii.compare.
  rewrite N.compare_refl. exact IH.
Qed.

Lemma truthy_append_char a c b : Py.truthy (a +++ String c b) = true.
Proof. destruct a; reflexivity. Qed.

(** A semester of the model's choices prints as one digit. *)
Lemma str_semester sem :
  (1 <= sem <= 8)%Z -> exists c, Py.str sem = String c EmptyString.
Proof.
  intros H.
  assert (Hc : (sem = 1 \/ sem = 2 \/ sem = 3 \/ sem = 4 \/ sem = 5 \/
               sem = 6 \/ sem = 7 \/ sem = 8)%Z) by lia.
  repeat (destruct Hc as [-> | Hc]; [eexists; reflexivity|]).
  subst sem. eexists; reflexivity.
Qed.

Lemma str_semester_inj s s' :
  (1 <= s <= 8)%Z -> (1 <= s' <= 8)%Z -> Py.str s = Py.str s' -> s = s'.
Proof.
  intros H H'.
  assert (Hc : (s = 1 \/ s = 2 \/ s = 3 \/ s = 4 \/ s = 5 \/
               s = 6 \/ s = 7 \/ s = 8)%Z) by lia.
  assert (Hc' : (s' = 1 \/ s' = 2 \/ s' = 3 \/ s' = 4 \/ s' = 5 \/
                s' = 6 \/ s' = 7 \/ s' = 8)%Z) by lia.
  repeat (destruct Hc as [-> | Hc]);
    repeat (destruct Hc' as [-> | Hc']); subst;
    intros E; try reflexivity; discriminate E.
Qed.

Lemma upper_department d :
  Py.str_in d DEPARTMENT_CHOICES = true -> Py.upper d = d.
Proof.
  unfold Py.str_in, DEPARTMENT_CHOICES. cbn [existsb].
  rewrite !orb_true_iff, !String.eqb_eq.
  intros [H|[H|[H|[H|[H|[H|H]]]]]]; try discriminate; subst; reflexivity.
Qed.

Lemma code_taken_app c l r :
  code_taken c (l ++ [r]) = code_taken c l || String.eqb (subject_code r) c.
Proof.
  unfold code_taken. rewrite existsb_app. cbn [existsb].
  now rewrite orb_false_r.
Qed.

Lemma triple_taken_app s l r :
  triple_taken s (l ++ [r])
  = triple_taken s l
    || (String.eqb (name r) (name s) && String.eqb (department r) (department s)
        && Z.eqb (semester r) (semester s)).
Proof.
  unfold triple_taken. rewrite existsb_app. cbn [existsb].
  now rewrite orb_false_r.
Qed.

(** No row of the pair, no row with the triple. *)
Lemma triple_free_in_empty_pair k n c d sem rows :
  filter (in_pair d sem) rows = [] ->
  triple_taken (mkSubject k n c d sem) rows = false.
Proof.
  intros Hempty. unfold triple_taken. cbn [name department semester].
  induction rows as [|r rows IH]; [reflexivity|].
  cbn [filter existsb] in *.
  destruct (in_pair d sem r) eqn:Hp; [discriminate|].
  rewrite (IH Hempty), orb_false_r.
  unfold in_pair in Hp. rewrite <- andb_assoc, Hp. apply andb_false_r.
Qed.

(** An INSERT that breaks no constraint appends the row under a new key. *)
Lemma objects_create_at_inserts seen rows n d sem :
  let c := generate_subject_code (mkSubject None n EmptyString d sem) seen in
  let r := mkSubject (Some (next_pk rows)) n c d sem in
  code_taken c rows = false ->
  triple_taken (mkSubject None n c d sem) rows = false ->
  objects_create_at seen n d sem rows = inr (r, rows ++ [r]).
Proof.
  intros c r Hcode Htriple.
  unfold objects_create_at, save_at, Model_save.
  cbn [subject_code Py.truthy String.eqb negb]. unfold set_subject_code.
  cbn [subject_code pk name department semester].
  fold c. rewrite Hcode, Htriple. reflexivity.
Qed.

(** A duplicate code makes the INSERT fail. *)
Lemma objects_create_at_duplicate seen rows n d sem :
  code_taken (generate_subject_code (mkSubject None n EmptyString d sem) seen)
             rows = true ->
  objects_create_at seen n d sem rows = inl (Py.IntegrityError "subject_code").
Proof.
  intros Hcode.
  unfold objects_create_at, save_at, Model_save.
  cbn [subject_code Py.truthy String.eqb negb]. unfold set_subject_code.
  cbn [subject_code pk name department semester].
  rewrite Hcode. reflexivity.
Qed.

Lemma generate_first rows n d sem :
  filter (in_pair d sem) rows = [] ->
  generate_subject_code (mkSubject None n EmptyString d sem) rows
  = Py.upper d +++ Py.str sem +++ "01".
Proof.
  intros Hempty. unfold generate_subject_code.
  cbn [department semester]. rewrite Hempty. reflexivity.
Qed.

Lemma generate_second rows n d sem c s1 :
  Py.str sem = String c EmptyString ->
  filter (in_pair d sem) rows = [s1] ->
  subject_code s1 = Py.upper d +++ Py.str sem +++ "01" ->
  generate_subject_code (mkSubject None n EmptyString d sem) rows
  = Py.upper d +++ Py.str sem +++ "02".
Proof.
  intros Hc Hsel H1. unfold generate_subject_code.
  cbn [department semester]. rewrite Hsel. cbn [first_by_code_desc].
  rewrite H1, Hc. cbn [String.append].
  rewrite truthy_append_char, slice_from_past_digit. reflexivity.
Qed.

Lemma generate_third rows n d sem c s1 s2 :
  Py.str sem = String c EmptyString ->
  filter (in_pair d sem) rows = [s1; s2] ->
  subject_code s1 = Py.upper d +++ Py.str sem +++ "01" ->
  subject_code s2 = Py.upper d +++ Py.str sem +++ "02" ->
  generate_subject_code (mkSubject None n EmptyString d sem) rows
  = Py.upper d +++ Py.str sem +++ "03".
Proof.
  intros Hc Hsel H1 H2. unfold generate_subject_code.
  cbn [department semester]. rewrite Hsel. cbn [first_by_code_desc].
  assert (Hcmp : String.compare (subject_code s1) (subject_code s2) = Lt)
    by (rewrite H1, H2, !compare_append_same; reflexivity).
  rewrite Hcmp, H2, Hc. cbn [String.append].
  rewrite truthy_append_char, slice_from_past_digit. reflexivity.
Qed.

Lemma eqb_append_same p a b :
  String.eqb (p +++ a) (p +++ b) = String.eqb a b.
Proof.
  induction p as [|c p IH]; [reflexivity|].
  cbn [String.append String.eqb]. rewrite Ascii.eqb_refl. exact IH.
Qed.

(** Codes of two valid pairs with suffixes of one length agree only when
    the pairs do. *)
Lemma code_determines_pair d d' sem sem' x y :
  (1 <= sem <= 8)%Z -> (1 <= sem' <= 8)%Z ->
  String.length x = String.length y ->
  d +++ Py.str sem +++ x = d' +++ Py.str sem' +++ y ->
  d = d' /\ sem = sem'.
Proof.
  intros Hs Hs' Hlen Heq.
  destruct (str_semester sem Hs) as [c Hc].
  destruct (str_semester sem' Hs') as [c' Hc'].
  assert (Hd : String.length d = String.length d').
  { apply (f_equal String.length) in Heq.
    rewrite !length_append, Hc, Hc' in Heq. cbn [String.length] in Heq. lia. }
  destruct (append_inj_same_length _ _ _ _ Hd Heq) as [-> Hrest].
  split; [reflexivity|].
  apply str_semester_inj; [exact Hs | exact Hs' |].
  rewrite Hc, Hc' in *. cbn [String.append] in Hrest.
  injection Hrest as -> _. reflexivity.
Qed.

Lemma in_pair_other d sem d' sem' k n c :
  (d, sem) <> (d', sem') ->
  in_pair d' sem' (mkSubject k n c d sem) = false.
Proof.
  intros Hne. unfold in_pair. cbn [department semester].
  destruct (String.eqb d d') eqn:Ed; [|reflexivity].
  destruct (Z.eqb sem sem') eqn:Es; [|reflexivity].
  apply String.eqb_eq in Ed. apply Z.eqb_eq in Es. subst. contradiction.
Qed.

Lemma in_pair_own d sem k n c : in_pair d sem (mkSubject k n c d sem) = true.
Proof.
  unfold in_pair. cbn [department semester].
  now rewrite String.eqb_refl, Z.eqb_refl.
Qed.

Lemma filter_snoc {A : Type} (f : A -> bool) l x :
  filter f (l ++ [x]) = filter f l ++ (if f x then [x] else []).
Proof. rewrite filter_app. reflexivity. Qed.

Lemma eqb_neq_false a b : a <> b -> String.eqb a b = false.
Proof. intros H. now apply String.eqb_neq. Qed.

(** C2. In a pair (department, semester) of the model's choices that has
    no subject yet, three creations without a code store the codes
    DEPT SEM 01, DEPT SEM 02 and DEPT SEM 03, in increasing order, and a
    creation in another pair without subjects starts at 01 again. The
    table may hold any subjects of other pairs, as long as the codes about
    to be handed out are not in use and the three names differ. *)
Theorem subject_codes_count_up rows d sem d' sem' n1 n2 n3 n4 :
  Py.str_in d DEPARTMENT_CHOICES = true ->
  Py.str_in d' DEPARTMENT_CHOICES = true ->
  (1 <= sem <= 8)%Z -> (1 <= sem' <= 8)%Z ->
  (d, sem) <> (d', sem') ->
  filter (in_pair d sem) rows = [] ->
  filter (in_pair d' sem') rows = [] ->
  code_taken (d +++ Py.str sem +++ "01") rows = false ->
  code_taken (d +++ Py.str sem +++ "02") rows = false ->
  code_taken (d +++ Py.str sem +++ "03") rows = false ->
  code_taken (d' +++ Py.str sem' +++ "01") rows = false ->
  n1 <> n2 -> n1 <> n3 -> n2 <> n3 ->
  let s1 := mkSubject (Some (next_pk rows)) n1 (d +++ Py.str sem +++ "01") d sem in
  let rows1 := rows ++ [s1] in
  let s2 := mkSubject (Some (next_pk rows1)) n2 (d +++ Py.str sem +++ "02") d sem in
  let rows2 := rows1 ++ [s2] in
  let s3 := mkSubject (Some (next_pk rows2)) n3 (d +++ Py.str sem +++ "03") d sem in
  let rows3 := rows2 ++ [s3] in
  let s4 := mkSubject (Some (next_pk rows3)) n4 (d' +++ Py.str sem' +++ "01") d' sem' in
  objects_create n1 d sem rows = inr (s1, rows1) /\
  objects_create n2 d sem rows1 = inr (s2, rows2) /\
  objects_create n3 d sem rows2 = inr (s3, rows3) /\
  objects_create n4 d' sem' rows3 = inr (s4, rows3 ++ [s4]) /\
  String.compare (subject_code s1) (subject_code s2) = Lt /\
  String.compare (subject_code s2) (subject_code s3) = Lt.
Proof.
  intros Hd Hd' Hs Hs' Hne Hempty Hempty' F1 F2 F3 F4 N12 N13 N23.
  intros s1 rows1 s2 rows2 s3 rows3 s4.
  destruct (str_semester sem Hs) as [c Hc].
  pose proof (upper_department d Hd) as Ud.
  pose proof (upper_department d' Hd') as Ud'.
  assert (Hsel1 : filter (in_pair d sem) rows1 = [s1]).
  { unfold rows1. rewrite filter_snoc, Hempty. unfold s1.
    rewrite in_pair_own. reflexivity. }
  assert (Hsel2 : filter (in_pair d sem) rows2 = [s1; s2]).
  { unfold rows2. rewrite filter_snoc, Hsel1. unfold s2.
    rewrite in_pair_own. reflexivity. }
  assert (Hsel' : filter (in_pair d' sem') rows3 = []).
  { unfold rows3, rows2, rows1. rewrite !filter_snoc, Hempty'.
    unfold s1, s2, s3. rewrite !(in_pair_other d sem d' sem') by exact Hne.
    reflexivity. }
  assert (G1 : generate_subject_code (mkSubject None n1 EmptyString d sem) rows
               = d +++ Py.str sem +++ "01").
  { rewrite (generate_first rows n1 d sem Hempty), Ud. reflexivity. }
  assert (G2 : generate_subject_code (mkSubject None n2 EmptyString d sem) rows1
               = d +++ Py.str sem +++ "02").
  { rewrite (generate_second rows1 n2 d sem c s1 Hc Hsel1), Ud;
      [reflexivity | now rewrite Ud]. }
  assert (G3 : generate_subject_code (mkSubject None n3 EmptyString d sem) rows2
               = d +++ Py.str sem +++ "03").
  { rewrite (generate_third rows2 n3 d sem c s1 s2 Hc Hsel2), Ud;
      [reflexivity | now rewrite Ud | now rewrite Ud]. }
  assert (G4 : generate_subject_code (mkSubject None n4 EmptyString d' sem') rows3
               = d' +++ Py.str sem' +++ "01").
  { rewrite (generate_first rows3 n4 d' sem' Hsel'), Ud'. reflexivity. }
  assert (Hother : forall x, String.length x = 2%nat ->
            String.eqb (d +++ Py.str sem +++ x)
                       (d' +++ Py.str sem' +++ "01") = false).
  { intros x Hx. apply eqb_neq_false. intros Heq.
    apply code_determines_pair in Heq; [|exact Hs|exact Hs'|exact Hx].
    destruct Heq as [-> ->]. apply Hne. reflexivity. }
  split; [|split; [|split; [|split; [|split]]]].
  - unfold objects_create.
    pose proof (objects_create_at_inserts rows rows n1 d sem) as H.
    cbv zeta in H. rewrite G1 in H. apply H; [exact F1|].
    apply triple_free_in_empty_pair. exact Hempty.
  - unfold objects_create.
    pose proof (objects_create_at_inserts rows1 rows1 n2 d sem) as H.
    cbv zeta in H. rewrite G2 in H. apply H.
    + unfold rows1. rewrite code_taken_app, F2. unfold s1.
      cbn [subject_code orb]. rewrite !eqb_append_same. reflexivity.
    + unfold rows1. rewrite triple_taken_app.
      rewrite (triple_free_in_empty_pair None n2 _ d sem rows Hempty).
      unfold s1. cbn [name department semester orb].
      rewrite (eqb_neq_false n1 n2 N12). reflexivity.
  - unfold objects_create.
    pose proof (objects_create_at_inserts rows2 rows2 n3 d sem) as H.
    cbv zeta in H. rewrite G3 in H. apply H.
    + unfold rows2, rows1. rewrite !code_taken_app, F3. unfold s1, s2.
      cbn [subject_code orb]. rewrite !eqb_append_same. reflexivity.
    + unfold rows2, rows1. rewrite !triple_taken_app.
      rewrite (triple_free_in_empty_pair None n3 _ d sem rows Hempty).
      unfold s1, s2. cbn [name department semester orb].
      rewrite (eqb_neq_false n1 n3 N13), (eqb_neq_false n2 n3 N23).
      reflexivity.
  - unfold objects_create.
    pose proof (objects_create_at_inserts rows3 rows3 n4 d' sem') as H.
    cbv zeta in H. rewrite G4 in H. apply H.
    + unfold rows3, rows2, rows1. rewrite !code_taken_app, F4.
      unfold s1, s2, s3. cbn [subject_code orb].
      rewrite !Hother by reflexivity. reflexivity.
    + apply triple_free_in_empty_pair. exact Hsel'.
  - unfold s1, s2. cbn [subject_code]. rewrite !compare_append_same.
    reflexivity.
  - unfold s2, s3. cbn [subject_code]. rewrite !compare_append_same.
    reflexivity.
Qed.

Lemma subject_codes_count_up_witness :
  let rows := [mkSubject (Some 1%Z) "Networks" "IT301" "IT" 3] in
  exists rows3 s4,
    objects_create "Algorithms" "CS" 1 rows
      = inr (mkSubject (Some 2%Z) "Algorithms" "CS101" "CS" 1,
             rows ++ [mkSubject (Some 2%Z) "Algorithms" "CS101" "CS" 1]) /\
    objects_create "Circuits" "EE" 1 rows3 = inr (s4, rows3 ++ [s4]) /\
    subject_code s4 = "EE101"%string.
Proof.
  intros rows.
  pose proof (subject_codes_count_up rows "CS" 1 "EE" 1
                "Algorithms" "Databases" "Compilers" "Circuits"
                eq_refl eq_refl) as H.
  do 2 eexists.
  split; [|split].
  - apply H; try reflexivity; try lia; discriminate.
  - apply H; try reflexivity; try lia; discriminate.
  - reflexivity.
Defined.

(** C6, as the code has it. When the code computed for a new subject is
    already in the table at the time of the INSERT - whatever table the
    generator read - the view does not compute another one: it answers 400
    with the integrity error and the tables stay as they were. *)
Theorem duplicate_code_is_surfaced now seen user d db a :
  Users.IsAuthenticated user = true ->
  IsStaffOrReadOnly_write user = true ->
  is_valid d (subjects db) = inr a ->
  code_taken
    (generate_subject_code
       (mkSubject None (a_name a) EmptyString (a_department a) (a_semester a))
       seen)
    (subjects db) = true ->
  SubjectListCreateView_create_at now seen user d db
  = (Response 400 (ErrorOf (Py.IntegrityError "subject_code")), db).
Proof.
  intros Hauth Hstaff Hvalid Hdup.
  unfold SubjectListCreateView_create_at.
  rewrite Hauth, Hstaff, Hvalid. cbn [negb].
  unfold SubjectSerializer_create.
  rewrite (objects_create_at_duplicate _ _ _ _ _ Hdup). reflexivity.
Qed.

Lemma duplicate_code_is_surfaced_witness :
  SubjectListCreateView_create_at 1000 [] (Some Samples.lecturer)
    (mkData (Some "Databases"%string) (Some "CS"%string) (Some 1%Z) None)
    (mkDB [mkSubject (Some 1%Z) "Algorithms" "CS101" "CS" 1] [])
  = (Response 400 (ErrorOf (Py.IntegrityError "subject_code")),
     mkDB [mkSubject (Some 1%Z) "Algorithms" "CS101" "CS" 1] []).
Proof.
  apply (duplicate_code_is_surfaced 1000 [] (Some Samples.lecturer)
           (mkData (Some "Databases"%string) (Some "CS"%string) (Some 1%Z) None)
           (mkDB [mkSubject (Some 1%Z) "Algorithms" "CS101" "CS" 1] [])
           (mkAttrs "Databases" "CS" 1 None));
    reflexivity.
Defined.

(** Two requests for (CS, 1) both read the empty table; the first commits
    CS101; the second then hits the uniqueness constraint and is answered
    400, with no subject stored for it. The same happens without any race
    once CS199 and CS1100 exist, since CS199 is the greatest code. *)
Lemma no_retry_on_duplicate_code :
  let racing := mkData (Some "Databases"%string) (Some "CS"%string) (Some 1%Z) None in
  let after_first := mkDB [mkSubject (Some 1%Z) "Algorithms" "CS101" "CS" 1] [] in
  let crowded := mkDB [mkSubject (Some 1%Z) "Algorithms" "CS199" "CS" 1;
                       mkSubject (Some 2%Z) "Compilers" "CS1100" "CS" 1] [] in
  (code_taken (generate_subject_code (mkSubject None "Databases" "" "CS" 1) [])
              (subjects after_first) = true /\
   SubjectListCreateView_create_at 1000 [] (Some Samples.lecturer) racing after_first
   = (Response 400 (ErrorOf (Py.IntegrityError "subject_code")), after_first) /\
   ~ (exists s db', SubjectListCreateView_create_at 1000 [] (Some Samples.lecturer)
                      racing after_first
                    = (Response 201 (SubjectData s), db'))) /\
  SubjectListCreateView_create 1000 (Some Samples.lecturer) racing crowded
  = (Response 400 (ErrorOf (Py.IntegrityError "subject_code")), crowded).
Proof.
  cbv zeta. split; [split; [|split]|].
  - reflexivity.
  - reflexivity.
  - intros [s [db' H]]. discriminate H.
  - reflexivity.
Qed.

End SyllabusFacts.

(** ** Users: Head-of-Department succession, gates and registration *)

Module UsersFacts.
Import Users Users.HeadOfDepartment Invariants.

(** *** Computations and what they keep *)

Section Keeps.
Context (P : DB -> Prop).

Lemma keeps_ret {A : Type} (a : A) : keeps P (ret a).
Proof. intros db H. exact H. Qed.

Lemma keeps_raise {A : Type} (e : Py.exn) : keeps P (@raise A e).
Proof. intros db H. exact H. Qed.

Lemma keeps_read : keeps P read.
Proof. intros db H. exact H. Qed.

Lemma keeps_bind {A B : Type} (m : M A) (k : A -> M B) :
  keeps P m -> (forall a, keeps P (k a)) -> keeps P (bind m k).
Proof.
  intros Hm Hk db H. unfold bind.
  specialize (Hm db H). destruct (m db) as [[e|a] db1]; cbn [snd] in *.
  - exact Hm.
  - apply Hk. exact Hm.
Qed.

Lemma keeps_run_view (m : M response) :
  keeps P m -> forall db, P db -> P (snd (run_view m db)).
Proof.
  intros Hm db H. unfold run_view. specialize (Hm db H).
  destruct (m db) as [[e|r] db1]; exact Hm.
Qed.

End Keeps.

(** Structural steps of a proof that a computation keeps a property: they
    follow the syntax of the computation and leave its atomic statements. *)
Ltac keeps_step :=
  lazymatch goal with
  | |- keeps _ (bind _ _) => apply keeps_bind; [|intro]
  | |- keeps _ (ret _) => apply keeps_ret
  | |- keeps _ (raise _) => apply keeps_raise
  | |- keeps _ read => apply keeps_read
  | |- keeps _ (match ?x with _ => _ end) => destruct x
  end.

Ltac keeps_structure := repeat keeps_step.

Lemma keeps_write_users Q rows : keeps (on_hods Q) (write_users rows).
Proof. intros db H. exact H. Qed.

Lemma keeps_related_staff P self : keeps P (related_staff self).
Proof. unfold related_staff. keeps_structure. Qed.

Lemma keeps_related_user P st : keeps P (related_user st).
Proof. unfold related_user. keeps_structure. Qed.

Lemma keeps_ensure_staff_role Q self :
  keeps (on_hods Q) (ensure_staff_role self).
Proof.
  unfold ensure_staff_role. keeps_structure;
    auto using keeps_related_staff, keeps_related_user, keeps_write_users.
Qed.

Lemma keeps_models_timezone_today P now : keeps P (models_timezone_today now).
Proof. unfold models_timezone_today. keeps_structure. Qed.

(** *** Counting active rows *)

Lemma count_active_snoc d l r :
  count_active d (l ++ [r])
  = (count_active d l + (if active_in d r then 1 else 0))%nat.
Proof.
  unfold count_active. rewrite filter_app, length_app. cbn [filter].
  destruct (active_in d r); reflexivity.
Qed.

Lemma count_active_cons d r l :
  count_active d (r :: l)
  = ((if active_in d r then 1 else 0) + count_active d l)%nat.
Proof.
  unfold count_active. cbn [filter]. destruct (active_in d r); reflexivity.
Qed.

Lemma count_active_none d l :
  existsb (active_in d) l = false -> count_active d l = 0%nat.
Proof.
  induction l as [|x l IH]; [reflexivity|].
  cbn [existsb]. rewrite orb_false_iff. intros [Hx Hl].
  rewrite count_active_cons, Hx, (IH Hl). reflexivity.
Qed.

Lemma count_active_map_le d (f : t -> t) l :
  (forall h, active_in d (f h) = true -> active_in d h = true) ->
  (count_active d (map f l) <= count_active d l)%nat.
Proof.
  intros Hf. induction l as [|x l IH]; [apply Nat.le_refl|].
  cbn [map]. rewrite !count_active_cons.
  destruct (active_in d (f x)) eqn:E.
  - rewrite (Hf x E). lia.
  - destruct (active_in d x); lia.
Qed.

Lemma count_active_filter_le d (g : t -> bool) l :
  (count_active d (filter g l) <= count_active d l)%nat.
Proof.
  induction l as [|x l IH]; [apply Nat.le_refl|].
  cbn [filter]. destruct (g x); rewrite !count_active_cons;
    destruct (active_in d x); lia.
Qed.

Lemma active_in_own h : is_active h = true -> active_in (department h) h = true.
Proof. intros H. unfold active_in. now rewrite String.eqb_refl, H. Qed.

Lemma active_in_inv d h :
  active_in d h = true -> department h = d /\ is_active h = true.
Proof.
  unfold active_in. rewrite andb_true_iff, String.eqb_eq. tauto.
Qed.

(** A row that passed the constraint check joins at most an empty
    selection of its department. *)
Lemma count_active_checked d r others :
  department_has_active r others = false ->
  active_in d r = true -> count_active d others = 0%nat.
Proof.
  intros Hcheck Hact. apply active_in_inv in Hact. destruct Hact as [<- Hact].
  unfold department_has_active in Hcheck. rewrite Hact in Hcheck.
  apply count_active_none. exact Hcheck.
Qed.

Lemma constraint_error_none h others :
  constraint_error h others = None ->
  staff h <> None /\ start_date h <> None /\ staff_taken h others = false
  /\ department_has_active h others = false.
Proof.
  unfold constraint_error.
  destruct (staff h), (start_date h); cbn [Py.is_none]; try discriminate.
  destruct (staff_taken _ others); [discriminate|].
  destruct (department_has_active _ others); [discriminate|].
  intros _. repeat split; discriminate.
Qed.

(** *** Keys *)

Lemma pk_is_true k h : pk_is k h = true <-> pk h = Some k.
Proof.
  unfold pk_is. destruct (pk h) as [j|]; [|split; discriminate].
  rewrite Z.eqb_eq. split; [now intros -> | now intros [= ->]].
Qed.

Lemma existsb_pk_is k l :
  existsb (pk_is k) l = true <-> In (Some k) (map pk l).
Proof.
  rewrite existsb_exists, in_map_iff. split.
  - intros [x [Hin Hx]]. exists x. split; [now apply pk_is_true | exact Hin].
  - intros [x [Hx Hin]]. exists x. split; [exact Hin | now apply pk_is_true].
Qed.

Lemma next_pk_above l r k :
  In r l -> pk r = Some k -> (k < next_pk l)%Z.
Proof.
  unfold next_pk. induction l as [|x l IH]; [contradiction|].
  intros [-> | Hin] Hk; cbn [fold_right].
  - rewrite Hk. lia.
  - specialize (IH Hin Hk). destruct (pk x); lia.
Qed.

Lemma next_pk_fresh l : ~ In (Some (next_pk l)) (map pk l).
Proof.
  intros Hin. apply in_map_iff in Hin. destruct Hin as [r [Hk Hin]].
  pose proof (next_pk_above l r _ Hin Hk). lia.
Qed.

Lemma NoDup_snoc {A : Type} (l : list A) (x : A) :
  NoDup l -> ~ In x l -> NoDup (l ++ [x]).
Proof.
  intros Hl Hx. induction Hl as [|y l Hy Hl IH]; cbn [app].
  - constructor; [intros [] | constructor].
  - constructor.
    + rewrite in_app_iff. intros [H|[H|[]]]; [contradiction|].
      subst. apply Hx. left. reflexivity.
    + apply IH. intros H. apply Hx. right. exact H.
Qed.

Lemma Keyed_snoc l r k :
  Keyed l -> pk r = Some k -> ~ In (Some k) (map pk l) -> Keyed (l ++ [r]).
Proof.
  intros [Hall Hnd] Hk Hfresh. split.
  - apply Forall_app. split; [exact Hall|].
    constructor; [rewrite Hk; discriminate | constructor].
  - rewrite map_app. cbn [map]. rewrite Hk. apply NoDup_snoc; assumption.
Qed.

Lemma Keyed_map l (f : t -> t) :
  (forall h, In h l -> pk (f h) = pk h) -> Keyed l -> Keyed (map f l).
Proof.
  intros Hf [Hall Hnd].
  assert (Hpk : map pk (map f l) = map pk l).
  { rewrite map_map. apply map_ext_in. exact Hf. }
  split; [|rewrite Hpk; exact Hnd].
  apply Forall_forall. intros x Hx. apply in_map_iff in Hx.
  destruct Hx as [h [<- Hh]]. rewrite (Hf h Hh).
  rewrite Forall_forall in Hall. apply Hall. exact Hh.
Qed.

Lemma replace_row_absent k r l :
  ~ In (Some k) (map pk l) ->
  replace_row k r l = l /\ filter (fun h => negb (pk_is k h)) l = l.
Proof.
  induction l as [|x l IH]; [split; reflexivity|].
  cbn [map In]. intros Hno.
  assert (Hx : pk_is k x = false).
  { destruct (pk_is k x) eqn:E; [|reflexivity].
    apply pk_is_true in E. exfalso. apply Hno. left. exact E. }
  destruct IH as [IH1 IH2]; [intros H; apply Hno; right; exact H|].
  unfold replace_row in *. cbn [map filter]. rewrite Hx. cbn [negb].
  rewrite IH1, IH2. split; reflexivity.
Qed.

Lemma count_active_replace d k r l :
  NoDup (map pk l) ->
  (count_active d (replace_row k r l)
   <= count_active d (filter (fun h => negb (pk_is k h)) l)
      + (if active_in d r then 1 else 0))%nat.
Proof.
  induction l as [|x l IH]; intros Hnd; [cbn; lia|].
  cbn [map] in Hnd. inversion Hnd as [|? ? Hx Hl]; subst.
  unfold replace_row in *. cbn [map filter].
  destruct (pk_is k x) eqn:E; cbn [negb].
  - apply pk_is_true in E. rewrite E in Hx.
    destruct (replace_row_absent k r l Hx) as [H1 H2].
    unfold replace_row in H1. rewrite H1, H2, count_active_cons. lia.
  - rewrite !count_active_cons. specialize (IH Hl).
    destruct (active_in d x); lia.
Qed.

(** *** The statements keep the table consistent *)

Lemma keeps_write_hods_when (Q : list t -> Prop) rows :
  Q rows -> keeps (on_hods Q) (write_hods rows).
Proof. intros H db _. exact H. Qed.

Lemma pk_retire_row e h : pk (retire_row e h) = pk h.
Proof. destruct e; reflexivity. Qed.

Lemma active_in_retire_row d e h : active_in d (retire_row e h) = false.
Proof. unfold active_in. destruct e; cbn; apply andb_false_r. Qed.

Lemma Consistent_deactivate d e rows :
  Consistent rows ->
  Consistent (map (fun h => if active_in d h then retire_row e h else h) rows).
Proof.
  intros [Hk Ho]. split.
  - apply Keyed_map; [|exact Hk]. intros h _.
    destruct (active_in d h); [apply pk_retire_row | reflexivity].
  - intros d'. eapply Nat.le_trans; [|apply (Ho d')].
    apply count_active_map_le. intros h.
    destruct (active_in d h); [|trivial].
    rewrite active_in_retire_row. discriminate.
Qed.

Lemma keeps_deactivate_active d e : keeps Sound (deactivate_active d e).
Proof.
  intros db H. exact (Consistent_deactivate d e (hods db) H).
Qed.

Lemma Consistent_insert rows r k :
  Consistent rows -> pk r = Some k -> ~ In (Some k) (map pk rows) ->
  department_has_active r rows = false ->
  Consistent (rows ++ [r]).
Proof.
  intros [Hk Ho] Hpk Hfresh Hcheck. split.
  - eapply Keyed_snoc; eassumption.
  - intros d. rewrite count_active_snoc.
    destruct (active_in d r) eqn:E.
    + rewrite (count_active_checked d r rows Hcheck E). lia.
    + specialize (Ho d). lia.
Qed.

Lemma Consistent_replace rows r k :
  Consistent rows -> pk r = Some k ->
  department_has_active r (exclude_pk (Some k) rows) = false ->
  Consistent (replace_row k r rows).
Proof.
  intros [Hk Ho] Hpk Hcheck. split.
  - apply Keyed_map; [|exact Hk]. intros h _.
    destruct (pk_is k h) eqn:E; [|reflexivity].
    apply pk_is_true in E. congruence.
  - intros d. pose proof (count_active_replace d k r rows (proj2 Hk)) as Hle.
    destruct (active_in d r) eqn:E.
    + cbn [exclude_pk] in Hcheck.
      rewrite (count_active_checked d r _ Hcheck E) in Hle. lia.
    + pose proof (count_active_filter_le d (fun h => negb (pk_is k h)) rows).
      specialize (Ho d). lia.
Qed.

Lemma department_has_active_stamps r c u others :
  department_has_active (set_stamps c u r) others
  = department_has_active r others.
Proof. reflexivity. Qed.

Lemma keeps_Model_save now self : keeps Sound (Model_save now self).
Proof.
  intros db H. unfold Model_save, bind, read.
  destruct (constraint_error self (exclude_pk (pk self) (hods db))) as [e|] eqn:C;
    [exact H|].
  apply constraint_error_none in C. destruct C as [_ [_ [_ Hact]]].
  destruct (pk self) as [k|] eqn:Hpk.
  - destruct (existsb (pk_is k) (hods db)) eqn:Hex; cbn [snd write_hods ret].
    + apply (Consistent_replace (hods db) _ k H); [exact Hpk | exact Hact].
    + apply (Consistent_insert (hods db) _ k H); [exact Hpk | |].
      * intros Hin. apply existsb_pk_is in Hin. congruence.
      * rewrite department_has_active_stamps.
        cbn [exclude_pk] in Hact. unfold department_has_active in *.
        destruct (is_active self); [|reflexivity]. cbn [andb] in *.
        destruct (existsb (active_in (department self)) (hods db)) eqn:Ex;
          [|reflexivity].
        apply existsb_exists in Ex. destruct Ex as [x [Hin Hx]].
        assert (Hkeep : negb (pk_is k x) = true).
        { destruct (pk_is k x) eqn:Ek; [|reflexivity].
          exfalso. apply pk_is_true in Ek.
          assert (Hc : existsb (pk_is k) (hods db) = true)
            by (apply existsb_pk_is, in_map_iff; exists x; tauto).
          congruence. }
        rewrite <- Hact. symmetry. apply existsb_exists. exists x.
        split; [apply filter_In; split; assumption | exact Hx].
  - cbn [snd write_hods ret exclude_pk] in *.
    apply (Consistent_insert (hods db) _ (next_pk (hods db)) H);
      [reflexivity | apply next_pk_fresh | exact Hact].
Qed.

Lemma keeps_HeadOfDepartment_save now self :
  keeps Sound (HeadOfDepartment_save now self).
Proof.
  unfold HeadOfDepartment_save. keeps_structure;
    auto using keeps_deactivate_active, keeps_Model_save,
               keeps_models_timezone_today;
    apply keeps_ensure_staff_role.
Qed.

Lemma keeps_validate P instance a : keeps P (validate instance a).
Proof.
  unfold validate. keeps_structure;
    auto using keeps_related_staff, keeps_related_user.
Qed.

Lemma keeps_is_valid P partial instance d :
  keeps P (is_valid partial instance d).
Proof.
  intros db H. unfold is_valid.
  destruct (field_errors partial instance d db); [|exact H].
  pose proof (keeps_validate P instance d db H) as Hv.
  destruct (validate instance d db) as [[e|a] db1]; [destruct e|]; exact Hv.
Qed.

Lemma keeps_HeadOfDepartmentSerializer_create now a :
  keeps Sound (HeadOfDepartmentSerializer_create now a).
Proof.
  unfold HeadOfDepartmentSerializer_create. keeps_structure;
    auto using keeps_deactivate_active, keeps_HeadOfDepartment_save.
Qed.

Lemma keeps_HeadOfDepartmentSerializer_update now instance a :
  keeps Sound (HeadOfDepartmentSerializer_update now instance a).
Proof.
  unfold HeadOfDepartmentSerializer_update. keeps_structure;
    auto using keeps_HeadOfDepartment_save.
Qed.

Lemma keeps_admin_gate P user m : keeps P m -> keeps P (admin_gate user m).
Proof. intros Hm. unfold admin_gate. keeps_structure. exact Hm. Qed.

Lemma keeps_post now user d :
  keeps Sound (HeadOfDepartmentListCreateView_post now user d).
Proof.
  unfold HeadOfDepartmentListCreateView_post. apply keeps_admin_gate.
  keeps_structure;
    auto using keeps_is_valid, keeps_HeadOfDepartmentSerializer_create.
Qed.

Lemma keeps_update now user partial id d :
  keeps Sound (HeadOfDepartmentDetailView_update now user partial id d).
Proof.
  unfold HeadOfDepartmentDetailView_update. apply keeps_admin_gate.
  keeps_structure;
    auto using keeps_is_valid, keeps_HeadOfDepartmentSerializer_update.
Qed.

Lemma keeps_delete now user id :
  keeps Sound (HeadOfDepartmentDetailView_delete now user id).
Proof.
  unfold HeadOfDepartmentDetailView_delete, perform_destroy.
  apply keeps_admin_gate.
  keeps_structure; auto using keeps_HeadOfDepartment_save.
Qed.

Lemma Sound_serve now user r db : Sound db -> Sound (snd (serve now user r db)).
Proof.
  intros H. destruct r; cbn [serve]; apply keeps_run_view;
    auto using keeps_post, keeps_update, keeps_delete.
Qed.

Lemma Sound_serve_all history db : Sound db -> Sound (serve_all history db).
Proof.
  revert db. induction history as [|[[now user] r] rest IH]; intros db H;
    cbn [serve_all]; [exact H|].
  apply IH. apply Sound_serve. exact H.
Qed.

(** *** A table that passes the check is consistent *)

Lemma keys_distinct_Keyed rows : keys_distinct rows = true -> Keyed rows.
Proof.
  induction rows as [|r rows IH]; cbn [keys_distinct].
  - intros _. split; constructor.
  - destruct (pk r) as [k|] eqn:Hk; [|discriminate].
    rewrite andb_true_iff, negb_true_iff. intros [Hfresh Hrest].
    destruct (IH Hrest) as [Hall Hnd]. split.
    + constructor; [rewrite Hk; discriminate | exact Hall].
    + cbn [map]. rewrite Hk. constructor; [|exact Hnd].
      intros Hin. apply existsb_pk_is in Hin. congruence.
Qed.

Lemma one_active_each_OneActive rows :
  one_active_each rows = true -> OneActive rows.
Proof.
  induction rows as [|r rows IH]; cbn [one_active_each].
  - intros _ d. cbn. lia.
  - rewrite andb_true_iff, negb_true_iff. intros [Hr Hrest] d.
    rewrite count_active_cons. destruct (active_in d r) eqn:E.
    + rewrite (count_active_checked d r rows Hr E). lia.
    + apply (IH Hrest d).
Qed.

Lemma constraints_hold_Consistent rows :
  constraints_hold rows = true -> Consistent rows.
Proof.
  unfold constraints_hold. rewrite !andb_true_iff.
  intros [[[Hk _] Ho] _]. split;
    [apply keys_distinct_Keyed | apply one_active_each_OneActive]; assumption.
Qed.

(** *** What a successful creation writes *)

Lemma bind_returns {A B : Type} (m : M A) (k : A -> M B) db b db' :
  bind m k db = (inr b, db') ->
  exists a db1, m db = (inr a, db1) /\ k a db1 = (inr b, db').
Proof.
  unfold bind. destruct (m db) as [[e|a] db1]; [discriminate|].
  intros H. exists a, db1. split; [reflexivity | exact H].
Qed.

Lemma hods_ensure_staff_role self db :
  hods (snd (ensure_staff_role self db)) = hods db.
Proof.
  exact (keeps_ensure_staff_role (fun rows => rows = hods db) self db eq_refl).
Qed.

Lemma Model_save_insert now self db h db' :
  pk self = None ->
  Model_save now self db = (inr h, db') ->
  h = set_stamps now now (set_pk (Some (next_pk (hods db))) self)
  /\ hods db' = hods db ++ [h].
Proof.
  intros Hpk. unfold Model_save, bind, read. rewrite Hpk.
  destruct (constraint_error self (exclude_pk None (hods db)));
    [discriminate|].
  cbn. intros [= <- <-]. split; reflexivity.
Qed.

(** [HeadOfDepartment.save] of a new active row: the active rows of the
    department are switched off and the new row is appended. *)
Lemma save_new_active now self db h db' :
  pk self = None -> is_active self = true ->
  HeadOfDepartment_save now self db = (inr h, db') ->
  hods db'
  = map (fun x => if active_in (department self) x then retire_row None x else x)
        (hods db) ++ [h]
  /\ is_active h = true /\ department h = department self.
Proof.
  intros Hpk Hact. unfold HeadOfDepartment_save. rewrite Hpk, Hact.
  cbn [andb negb Py.is_none]. intros H.
  apply bind_returns in H. destruct H as [[] [db1 [H1 H]]].
  apply bind_returns in H. destruct H as [self1 [db2 [H2 H]]].
  apply bind_returns in H. destruct H as [[] [db3 [H3 H]]].
  injection H2 as <- <-.
  apply (Model_save_insert now self db3 h db' Hpk) in H.
  destruct H as [-> Hrows].
  assert (E3 : hods db3 = hods db1).
  { pose proof (hods_ensure_staff_role self db1) as E. rewrite H3 in E.
    exact E. }
  assert (E1 : hods db1
               = map (fun x => if active_in (department self) x
                               then retire_row None x else x) (hods db)).
  { unfold deactivate_active, bind, read, write_hods in H1.
    injection H1 as <-. reflexivity. }
  rewrite Hrows, E3, E1.
  split; [reflexivity | split; [exact Hact | reflexivity]].
Qed.

Lemma deactivate_twice d e rows :
  map (fun x => if active_in d x then retire_row None x else x)
      (map (fun x => if active_in d x then retire_row e x else x) rows)
  = map (fun x => if active_in d x then retire_row e x else x) rows.
Proof.
  rewrite map_map. apply map_ext. intros x.
  destruct (active_in d x) eqn:E; [|rewrite E; reflexivity].
  rewrite active_in_retire_row. reflexivity.
Qed.

(** [HeadOfDepartmentSerializer.create] of an active appointment: the rows
    that were active for the department are inactive and end today, and
    the new row is appended. *)
Lemma create_deactivates now a d db h db' :
  a_department a = Some d -> a_is_active a <> Some false ->
  HeadOfDepartmentSerializer_create now a db = (inr h, db') ->
  hods db'
  = map (fun x => if active_in d x then retire_row (Some (Py.date_of now)) x
                  else x) (hods db) ++ [h]
  /\ is_active h = true /\ department h = d.
Proof.
  intros Hd Hactive. unfold HeadOfDepartmentSerializer_create. rewrite Hd.
  intros H. apply bind_returns in H. destruct H as [[] [db1 [H1 H]]].
  assert (E1 : hods db1
               = map (fun x => if active_in d x
                               then retire_row (Some (Py.date_of now)) x
                               else x) (hods db)).
  { unfold deactivate_active, bind, read, write_hods in H1.
    injection H1 as <-. reflexivity. }
  apply save_new_active in H.
  - destruct H as [Hrows [Hact Hdep]].
    assert (Hdep' : forall s, department (instance_of (with_start_date s a)) = d)
      by (intros s; cbn; rewrite Hd; reflexivity).
    assert (Hdep0 : department (instance_of a) = d)
      by (cbn; rewrite Hd; reflexivity).
    destruct (a_start_date a);
      rewrite ?Hdep', ?Hdep0 in Hrows, Hdep;
      rewrite E1, deactivate_twice in Hrows; repeat split; assumption.
  - destruct (a_start_date a); reflexivity.
  - destruct (a_start_date a); cbn; destruct (a_is_active a) as [[|]|];
      try reflexivity; exfalso; apply Hactive; reflexivity.
Qed.

(** C1. Whatever requests (appointments, updates, retirements) are served
    in whatever order, by whomever, on a table that satisfies its
    constraints, no department has more than one active row after any of
    them. And a successful creation of an active row for a department
    leaves every row that was active for it inactive (with today as end
    date when it goes through the serializer), the new row being the only
    active one. *)
Theorem one_active_hod_per_department :
  (forall db history d,
     constraints_hold (hods db) = true ->
     (count_active d (hods (serve_all history db)) <= 1)%nat) /\
  (forall now a d db h db',
     a_department a = Some d -> a_is_active a <> Some false ->
     HeadOfDepartmentSerializer_create now a db = (inr h, db') ->
     hods db'
     = map (fun x => if active_in d x
                     then retire_row (Some (Py.date_of now)) x else x)
           (hods db) ++ [h]
     /\ is_active h = true /\ department h = d
     /\ (forall r, In r (hods db') -> active_in d r = true -> r = h)) /\
  (forall now self db h db',
     pk self = None -> is_active self = true ->
     HeadOfDepartment_save now self db = (inr h, db') ->
     hods db'
     = map (fun x => if active_in (department self) x
                     then retire_row None x else x) (hods db) ++ [h]
     /\ (forall r, In r (hods db') ->
                   active_in (department self) r = true -> r = h)).
Proof.
  assert (Honly : forall d e rows h r,
            In r (map (fun x => if active_in d x then retire_row e x else x)
                      rows ++ [h]) ->
            active_in d r = true -> r = h).
  { intros d e rows h r Hin Hact. apply in_app_or in Hin.
    destruct Hin as [Hin | [<- | []]]; [|reflexivity].
    apply in_map_iff in Hin. destruct Hin as [x [<- _]].
    destruct (active_in d x) eqn:E; [|congruence].
    rewrite active_in_retire_row in Hact. discriminate. }
  split; [|split].
  - intros db history d Hc.
    apply (Sound_serve_all history db (constraints_hold_Consistent _ Hc)).
  - intros now a d db h db' Hd Ha Hcreate.
    destruct (create_deactivates now a d db h db' Hd Ha Hcreate)
      as [Hrows [Hact Hdep]].
    repeat split; try assumption.
    intros r Hin. rewrite Hrows in Hin. exact (Honly _ _ _ _ _ Hin).
  - intros now self db h db' Hpk Ha Hsave.
    destruct (save_new_active now self db h db' Hpk Ha Hsave)
      as [Hrows _].
    split; [exact Hrows|].
    intros r Hin. rewrite Hrows in Hin. exact (Honly _ _ _ _ _ Hin).
Qed.

Lemma one_active_hod_per_department_witness :
  (count_active "CS"
     (hods (serve_all
              [ (20 * Samples.day, Some Samples.principal,
                 POST_hods (Samples.appointment 2 "CS"));
                (21 * Samples.day, Some Samples.principal,
                 PATCH_hod 1 (mkAttrs (Some 2%Z) None None None (Some false) None));
                (22 * Samples.day, Some Samples.principal,
                 POST_hods (Samples.appointment 3 "CS")) ]%Z
              Samples.college)) <= 1)%nat /\
  exists h db',
    HeadOfDepartmentSerializer_create (30 * Samples.day)
      (Samples.appointment 3 "CS") Samples.college_with_head = (inr h, db') /\
    (forall r, In r (hods db') -> active_in "CS" r = true -> r = h).
Proof.
  split.
  - apply (proj1 one_active_hod_per_department Samples.college). reflexivity.
  - do 2 eexists. split; [vm_compute; reflexivity|].
    apply (proj1 (proj2 one_active_hod_per_department) (30 * Samples.day)%Z
             (Samples.appointment 3 "CS") "CS"%string
             Samples.college_with_head);
      [reflexivity | discriminate | reflexivity].
Defined.

(** *** One row per staff member *)

(** The table refuses a second row for a staff member, active or not. *)
Lemma insert_refused_for_known_staff now self s db :
  pk self = None -> staff self = Some s -> start_date self <> None ->
  existsb (staff_is s) (hods db) = true ->
  Model_save now self db
  = (inl (Py.IntegrityError "UNIQUE head_of_department.staff_id"), db).
Proof.
  intros Hpk Hs Hd Hex. unfold Model_save, bind, read, constraint_error.
  rewrite Hpk, Hs. cbn [exclude_pk Py.is_none].
  destruct (start_date self); [|contradiction]. cbn [Py.is_none].
  unfold staff_taken. rewrite Hs, Hex. reflexivity.
Qed.

Lemma post_refused_for_known_staff now user a s db :
  a_staff a = Some s ->
  existsb (staff_is s) (hods db) = true ->
  forall h, fst (serve now user (POST_hods a) db) <> Response 201 (HodData h).
Proof.
  intros Hs Hex h. cbn [serve]. unfold run_view,
    HeadOfDepartmentListCreateView_post, admin_gate.
  destruct (IsAuthenticated user); cbn [negb]; [|discriminate].
  destruct (IsAdminUser user); cbn [negb]; [|discriminate].
  unfold bind at 1. unfold is_valid, field_errors. rewrite Hs.
  cbn [instance_pk exclude_pk]. rewrite Hex.
  destruct (find_staff s db); cbn [app]; discriminate.
Qed.

(** C3. On the sample college the principal appoints the lecturer head of
    CS. A second appointment of the lecturer, to EE, is refused with a
    validation error while the first is active - and it is refused in the
    same way after the first was retired: the retired row still holds the
    lecturer, and [staff] is a OneToOneField. No request for a staff member
    who has a row, active or not, is answered 201, and the table itself
    would refuse the INSERT. *)
Theorem reappointment_after_retirement_is_refused :
  let boss := Some Samples.principal in
  let first := serve (20 * Samples.day) boss
                     (POST_hods (Samples.appointment 2 "CS")) Samples.college in
  let retired := serve (22 * Samples.day) boss (DELETE_hod 1) (snd first) in
  (exists h, fst first = Response 201 (HodData h) /\ is_active h = true) /\
  fst (serve (21 * Samples.day) boss
             (POST_hods (Samples.appointment 2 "EE")) (snd first))
  = Response 400 (Errors ["staff: This field must be unique."%string]) /\
  fst retired = Response 204 NoContent /\
  count_active "CS" (hods (snd retired)) = 0%nat /\
  serve (23 * Samples.day) boss
        (POST_hods (Samples.appointment 2 "EE")) (snd retired)
  = (Response 400 (Errors ["staff: This field must be unique."%string]),
     snd retired) /\
  (forall now user a s db,
     a_staff a = Some s -> existsb (staff_is s) (hods db) = true ->
     forall h, fst (serve now user (POST_hods a) db) <> Response 201 (HodData h)) /\
  (forall now self s db,
     pk self = None -> staff self = Some s -> start_date self <> None ->
     existsb (staff_is s) (hods db) = true ->
     Model_save now self db
     = (inl (Py.IntegrityError "UNIQUE head_of_department.staff_id"), db)).
Proof.
  cbv zeta. split; [|split; [|split; [|split; [|split; [|split]]]]].
  - eexists. split; vm_compute; reflexivity.
  - vm_compute. reflexivity.
  - vm_compute. reflexivity.
  - vm_compute. reflexivity.
  - vm_compute. reflexivity.
  - exact post_refused_for_known_staff.
  - exact insert_refused_for_known_staff.
Qed.

Lemma reappointment_after_retirement_is_refused_witness :
  a_staff (Samples.appointment 2 "EE") = Some 2%Z /\
  existsb (staff_is 2) (hods Samples.college_with_head) = true /\
  (forall h,
     fst (serve (40 * Samples.day) (Some Samples.principal)
                (POST_hods (Samples.appointment 2 "EE"))
                Samples.college_with_head)
     <> Response 201 (HodData h)).
Proof.
  split; [reflexivity | split; [reflexivity|]].
  apply (proj1 (proj2 (proj2 (proj2 (proj2
           (proj2 reappointment_after_retirement_is_refused)))))
           (40 * Samples.day)%Z (Some Samples.principal)
           (Samples.appointment 2 "EE") 2%Z Samples.college_with_head);
    reflexivity.
Defined.

(** *** Saving an inactive row *)

(** C5, as the code has it. users/models.py does not import [timezone]:
    when an inactive row without end date is saved, the statement that
    should fill in the date raises NameError and nothing is written. A
    POST that creates such a row is answered 500. Rows that are saved
    inactive with an end date keep it. *)
Theorem save_inactive_without_end_date_raises :
  (forall now self db,
     is_active self = false -> end_date self = None ->
     HeadOfDepartment_save now self db = (inl (Py.NameError "timezone"), db)) /\
  serve (20 * Samples.day) (Some Samples.principal)
        (POST_hods (mkAttrs (Some 2%Z) (Some "CS"%string) (Some 10%Z) None
                            (Some false) None)) Samples.college
  = (ServerError (Py.NameError "timezone"), Samples.college) /\
  (forall now self db h db',
     is_active self = false ->
     HeadOfDepartment_save now self db = (inr h, db') ->
     end_date h = end_date self /\ end_date h <> None).
Proof.
  split; [|split].
  - intros now self db Ha He. unfold HeadOfDepartment_save.
    rewrite Ha, He. reflexivity.
  - vm_compute. reflexivity.
  - intros now self db h db' Ha. unfold HeadOfDepartment_save. rewrite Ha.
    cbn [andb negb]. destruct (end_date self) as [e|] eqn:He;
      cbn [Py.is_none]; [|discriminate].
    intros H. apply bind_returns in H. destruct H as [[] [db1 [H1 H]]].
    apply bind_returns in H. destruct H as [self1 [db2 [H2 H]]].
    injection H2 as <- <-.
    apply bind_returns in H. destruct H as [[] [db3 [H3 H]]].
    unfold Model_save, bind, read in H.
    destruct (constraint_error self _); [discriminate|].
    assert (Hh : end_date h = end_date self).
    { destruct (pk self) as [k|];
        [destruct (existsb (pk_is k) (hods db3))|];
        cbn in H; injection H as <- _; reflexivity. }
    rewrite Hh, He. split; [reflexivity | discriminate].
Qed.

Lemma save_inactive_without_end_date_raises_witness :
  HeadOfDepartment_save (20 * Samples.day)
    (mk None (Some 2%Z) "CS" (Some 10%Z) None false None 0 0) Samples.college
  = (inl (Py.NameError "timezone"), Samples.college).
Proof.
  apply (proj1 save_inactive_without_end_date_raises); reflexivity.
Defined.

(** *** Who passes the gates *)

Lemma create_user_returns env now email password first last role staffp db u db' :
  create_user env now email password first last role staffp db = (inr u, db') ->
  u = User.mk (Some (users_next_pk (users db))) (normalize_email env email)
              first last role true staffp false (make_password env password)
              now now
  /\ users db' = users db ++ [u] /\ Users.staff db' = Users.staff db
  /\ hods db' = hods db.
Proof.
  unfold create_user. destruct (negb (Py.truthy email)); [discriminate|].
  unfold bind, read.
  destruct (email_taken (normalize_email env email) (users db));
    [discriminate|].
  cbn. intros [= <- <-]. repeat split.
Qed.

Lemma staff_registration_makes_is_staff env now vd db st db' :
  StaffRegistrationSerializer_create env now vd db = (inr st, db') ->
  exists u, In u (users db') /\ User.pk u = Some (Staff.user st)
            /\ User.role u = "staff"%string /\ User.is_staff u = true.
Proof.
  unfold StaffRegistrationSerializer_create. intros H.
  apply bind_returns in H. destruct H as [u [db1 [Hu H]]].
  apply create_user_returns in Hu. destruct Hu as [Eu [Husers _]].
  unfold bind, read in H. exists u.
  assert (Hpk : User.pk u = Some (users_next_pk (users db)))
    by (rewrite Eu; reflexivity).
  rewrite Hpk in H.
  destruct (existsb _ (Users.staff db1)); [discriminate|].
  injection H as <- <-. cbn [users Staff.user].
  rewrite Husers. repeat split.
  - apply in_or_app. right. left. reflexivity.
  - exact Hpk.
  - rewrite Eu. reflexivity.
  - rewrite Eu. reflexivity.
Qed.

(** C7, as the code has it. The gate of the list, create, update and
    delete views is [IsAdminUser], which reads [is_staff] and not the role:
    two authenticated callers with the same [is_staff] get the same
    answer, a caller without [is_staff] gets 403, and the users that
    [StaffRegistrationSerializer.create] makes have the role 'staff' and
    [is_staff] set - so a staff member is let through, as the lecturer is
    who appoints the reader head of EE. The read by department asks for
    authentication only. *)
Theorem hod_gate_reads_is_staff :
  (forall now u u' r db,
     User.is_staff u = User.is_staff u' ->
     serve now (Some u) r db = serve now (Some u') r db) /\
  (forall u u' q1 q2 db,
     User.is_staff u = User.is_staff u' ->
     run_view (HeadOfDepartmentListCreateView_get (Some u) q1 q2) db
     = run_view (HeadOfDepartmentListCreateView_get (Some u') q1 q2) db) /\
  (forall now u r db,
     User.is_staff u = false ->
     serve now (Some u) r db
     = (Response 403 (Detail "You do not have permission to perform this action."),
        db)) /\
  (forall env now vd db st db',
     StaffRegistrationSerializer_create env now vd db = (inr st, db') ->
     exists u, In u (users db') /\ User.pk u = Some (Staff.user st)
               /\ User.role u = "staff"%string /\ User.is_staff u = true) /\
  (User.role Samples.lecturer = "staff"%string /\
   exists h, fst (serve (20 * Samples.day) (Some Samples.lecturer)
                        (POST_hods (Samples.appointment 3 "EE")) Samples.college)
             = Response 201 (HodData h)) /\
  (forall u u' d db,
     run_view (DepartmentHODView_get (Some u) d) db
     = run_view (DepartmentHODView_get (Some u') d) db) /\
  (forall u d db status detail,
     fst (run_view (DepartmentHODView_get (Some u) d) db)
     = Response status (Detail detail) -> status = 404%Z).
Proof.
  split; [|split; [|split; [|split; [|split; [|split]]]]].
  - intros now u u' r db H. destruct r; cbn [serve];
      unfold HeadOfDepartmentListCreateView_post,
             HeadOfDepartmentDetailView_update,
             HeadOfDepartmentDetailView_delete, admin_gate;
      cbn [IsAuthenticated IsAdminUser negb]; rewrite H; reflexivity.
  - intros u u' q1 q2 db H.
    unfold HeadOfDepartmentListCreateView_get, admin_gate.
    cbn [IsAuthenticated IsAdminUser negb]. rewrite H. reflexivity.
  - intros now u r db H. destruct r; cbn [serve];
      unfold HeadOfDepartmentListCreateView_post,
             HeadOfDepartmentDetailView_update,
             HeadOfDepartmentDetailView_delete, admin_gate;
      cbn [IsAuthenticated IsAdminUser negb]; rewrite H; reflexivity.
  - exact staff_registration_makes_is_staff.
  - split; [reflexivity|]. eexists. vm_compute. reflexivity.
  - intros u u' d db. reflexivity.
  - intros u d db status detail.
    unfold run_view, DepartmentHODView_get, authenticated_gate, bind, read.
    cbn [IsAuthenticated negb].
    destruct (filter (active_in d) (hods db)) as [|x [|y l]]; cbn [fst ret raise];
      intros H; try discriminate.
    injection H as <- _. reflexivity.
Qed.

Lemma hod_gate_reads_is_staff_witness :
  serve (20 * Samples.day) (Some Samples.lecturer)
        (DELETE_hod 1) Samples.college_with_head
  = serve (20 * Samples.day) (Some Samples.principal)
          (DELETE_hod 1) Samples.college_with_head.
Proof.
  apply (proj1 hod_gate_reads_is_staff). reflexivity.
Defined.

(** *** Registration *)

Lemma char_field_truthy label n v value :
  char_field label n v = inr value -> Py.truthy value = true.
Proof.
  unfold char_field. destruct v as [raw|]; [|discriminate].
  destruct (Py.truthy (Py.strip raw)) eqn:E; cbn [negb]; [|discriminate].
  destruct n as [n|].
  - destruct (n <? String.length (Py.strip raw))%nat; [discriminate|].
    intros [= <-]. exact E.
  - intros [= <-]. exact E.
Qed.

Lemma registration_valid_email env d db vd :
  UserRegistrationSerializer_is_valid env d db = inr vd ->
  Py.truthy (v_email vd) = true /\ Py.str_in (v_role vd) ROLE_CHOICES = true
  /\ v_password vd = v_password2 vd
  /\ validate_password env (v_password vd) = true.
Proof.
  unfold UserRegistrationSerializer_is_valid.
  destruct (char_field "email" _ _) as [?|email] eqn:E1; [discriminate|].
  destruct (char_field "first_name" _ _) as [?|fn]; [discriminate|].
  destruct (char_field "last_name" _ _) as [?|ln]; [discriminate|].
  destruct (r_role d) as [role|]; [|discriminate].
  destruct (char_field "password" _ _) as [?|pw]; [discriminate|].
  destruct (char_field "password2" _ _) as [?|pw2]; [discriminate|].
  destruct (email_format_ok env email); cbn [negb]; [|discriminate].
  destruct (email_taken email (users db)); [discriminate|].
  destruct (Py.str_in role ROLE_CHOICES) eqn:Er; cbn [negb]; [|discriminate].
  destruct (validate_password env pw) eqn:Ev; cbn [negb]; [|discriminate].
  destruct (String.eqb pw pw2) eqn:Ep; cbn [negb]; [|discriminate].
  intros [= <-]. cbn. apply String.eqb_eq in Ep.
  repeat split; try assumption. eapply char_field_truthy. exact E1.
Qed.

(** C9. Whoever calls [register_view] - signed in or not - with a body the
    serializer accepts, whose role is 'admin' and whose normalised email is
    not in use, gets 201 with a token pair for a new user that has the
    role 'admin' and [is_staff] set; the caller plays no part in the
    answer. *)
Theorem registration_honours_admin_role env now caller d db vd :
  UserRegistrationSerializer_is_valid env d db = inr vd ->
  v_role vd = "admin"%string ->
  email_taken (normalize_email env (v_email vd)) (users db) = false ->
  exists u,
    run_view (register_view env now caller d) db
    = (Response 201 (Registered u (fst (for_user env u)) (snd (for_user env u))),
       mkDB (users db ++ [u]) (Users.staff db) (hods db))
    /\ User.role u = "admin"%string /\ User.is_staff u = true
    /\ User.is_active u = true
    /\ User.email u = normalize_email env (v_email vd)
    /\ User.password u = make_password env (v_password vd)
    /\ run_view (register_view env now None d) db
       = run_view (register_view env now caller d) db.
Proof.
  intros Hvalid Hrole Hfree.
  destruct (registration_valid_email env d db vd Hvalid) as [Hemail _].
  eexists. split.
  - unfold run_view, register_view. cbn [AllowAny negb].
    unfold bind at 1. cbn [read]. rewrite Hvalid.
    unfold bind at 1. unfold UserRegistrationSerializer_create, create_user.
    rewrite Hemail. cbn [negb]. unfold bind at 1. cbn [read].
    rewrite Hfree. rewrite Hrole. cbn. reflexivity.
  - repeat split.
Qed.

Lemma registration_honours_admin_role_witness :
  exists u,
    run_view (register_view Samples.plain_auth 5000 None
                (mkRegistration (Some "eve@college.example"%string)
                                (Some "Eve"%string) (Some "Moss"%string)
                                (Some "admin"%string)
                                (Some "correct horse"%string)
                                (Some "correct horse"%string)))
             Samples.college
    = (Response 201 (Registered u (fst (for_user Samples.plain_auth u))
                                (snd (for_user Samples.plain_auth u))),
       mkDB (users Samples.college ++ [u]) (Users.staff Samples.college)
            (hods Samples.college))
    /\ User.role u = "admin"%string /\ User.is_staff u = true.
Proof.
  destruct (registration_honours_admin_role Samples.plain_auth 5000 None
              (mkRegistration (Some "eve@college.example"%string)
                              (Some "Eve"%string) (Some "Moss"%string)
                              (Some "admin"%string)
                              (Some "correct horse"%string)
                              (Some "correct horse"%string))
              Samples.college
              (mkRegistrationData "eve@college.example" "Eve" "Moss" "admin"
                                  "correct horse" "correct horse")
              eq_refl eq_refl eq_refl) as [u [H1 [H2 [H3 _]]]].
  exists u. split; [exact H1 | split; [exact H2 | exact H3]].
Defined.

(** *** Retirement *)

Lemma existsb_filter_false {A : Type} (f g : A -> bool) l :
  existsb f l = false -> existsb f (filter g l) = false.
Proof.
  induction l as [|x l IH]; [reflexivity|].
  cbn [existsb filter]. rewrite orb_false_iff. intros [Hx Hl].
  destruct (g x); cbn [existsb]; rewrite ?Hx; auto.
Qed.

(** In a table with distinct keys and distinct staff, no row other than
    the one with key [k] holds its staff member. *)
Lemma staff_free_elsewhere rows i k s :
  keys_distinct rows = true -> staff_distinct rows = true ->
  In i rows -> pk i = Some k -> staff i = Some s ->
  existsb (staff_is s) (filter (fun h => negb (pk_is k h)) rows) = false.
Proof.
  induction rows as [|r rows IH]; [contradiction|].
  cbn [keys_distinct staff_distinct].
  destruct (pk r) as [kr|] eqn:Hkr; [|discriminate].
  destruct (staff r) as [sr|] eqn:Hsr; [|discriminate].
  rewrite !andb_true_iff, !negb_true_iff.
  intros [Hkfresh Hkeys] [Hsfresh Hstaff] [-> | Hin] Hk Hs; cbn [filter].
  - assert (E : pk_is k i = true) by now apply pk_is_true.
    rewrite E. cbn [negb].
    assert (sr = s) by congruence. subst sr.
    apply existsb_filter_false. exact Hsfresh.
  - assert (E : pk_is k r = false).
    { destruct (pk_is k r) eqn:E; [|reflexivity].
      apply pk_is_true in E. assert (kr = k) by congruence. subst kr.
      assert (Hc : existsb (pk_is k) rows = true)
        by (apply existsb_exists; exists i; split;
            [exact Hin | now apply pk_is_true]).
      congruence. }
    rewrite E. cbn [negb existsb].
    rewrite (IH Hkeys Hstaff Hin Hk Hs), orb_false_r.
    unfold staff_is. rewrite Hsr.
    destruct (Z.eqb sr s) eqn:Es; [|reflexivity].
    apply Z.eqb_eq in Es. subst sr.
    assert (Hc : existsb (staff_is s) rows = true).
    { apply existsb_exists. exists i. split; [exact Hin|].
      unfold staff_is. rewrite Hs. apply Z.eqb_refl. }
    congruence.
Qed.

(** Saving an existing row that is inactive and has an end date updates
    that row and nothing else of the table. *)
Lemma save_existing_inactive now self k s st u db :
  pk self = Some k -> is_active self = false -> end_date self <> None ->
  staff self = Some s -> start_date self <> None ->
  find_staff s db = Some st -> find_user (Staff.user st) db = Some u ->
  staff_taken self (exclude_pk (Some k) (hods db)) = false ->
  existsb (pk_is k) (hods db) = true ->
  exists users1,
    HeadOfDepartment_save now self db
    = (inr (set_stamps (created_at self) now self),
       mkDB users1 (Users.staff db)
            (replace_row k (set_stamps (created_at self) now self) (hods db))).
Proof.
  intros Hpk Hact Hend Hs Hstart Hst Hu Hfree Hex.
  unfold HeadOfDepartment_save. rewrite Hact. cbn [andb negb].
  destruct (end_date self) as [e|] eqn:He; [|contradiction].
  cbn [Py.is_none].
  assert (Hsave : forall users1,
            Model_save now self (mkDB users1 (Users.staff db) (hods db))
            = (inr (set_stamps (created_at self) now self),
               mkDB users1 (Users.staff db)
                    (replace_row k (set_stamps (created_at self) now self)
                                 (hods db)))).
  { intros users1. unfold Model_save, bind, read. cbn [hods].
    unfold constraint_error. rewrite Hpk, Hs.
    destruct (start_date self); [|contradiction].
    cbn [Py.is_none]. rewrite Hfree.
    unfold department_has_active. rewrite Hact. cbn [andb].
    rewrite Hex. reflexivity. }
  unfold bind at 1. cbn [ret]. unfold bind at 1. cbn [ret].
  unfold bind at 1. unfold ensure_staff_role.
  unfold bind at 1. unfold related_staff, bind at 1. cbn [read].
  rewrite Hs, Hst. cbn [ret].
  unfold bind at 1. unfold related_user, bind at 1. cbn [read].
  rewrite Hu. cbn [ret].
  destruct (negb (String.eqb (User.role u) "staff")).
  - eexists. unfold bind at 1. cbn [read write_users].
    apply Hsave.
  - exists (users db). cbn [ret]. destruct db as [us sf hs]. apply Hsave.
Qed.

Lemma no_active_after_replace d k r rows :
  active_in d r = false ->
  existsb (active_in d) (exclude_pk (Some k) rows) = false ->
  filter (active_in d) (replace_row k r rows) = [].
Proof.
  intros Hr. unfold replace_row. cbn [exclude_pk].
  induction rows as [|x rows IH]; [reflexivity|].
  cbn [filter map]. destruct (pk_is k x); cbn [negb].
  - intros H. rewrite Hr. apply IH. exact H.
  - cbn [existsb]. rewrite orb_false_iff. intros [Hx H].
    rewrite Hx. apply IH. exact H.
Qed.

Lemma replace_row_keeps_others k r rows x :
  In x rows -> pk x <> Some k -> In x (replace_row k r rows).
Proof.
  intros Hin Hk. unfold replace_row. apply in_map_iff. exists x.
  split; [|exact Hin].
  destruct (pk_is k x) eqn:E; [|reflexivity].
  apply pk_is_true in E. contradiction.
Qed.

Lemma replace_row_holds k r rows :
  existsb (pk_is k) rows = true -> In r (replace_row k r rows).
Proof.
  intros Hex. apply existsb_exists in Hex. destruct Hex as [x [Hin Hx]].
  unfold replace_row. apply in_map_iff. exists x. rewrite Hx. tauto.
Qed.

(** C4. An authenticated caller who passes the gate deletes the
    appointment [id] of a table that satisfies its constraints: the answer
    is 204, the table has as many rows as before, the row of [id] is still
    there with [is_active] false and today as end date, its key, staff,
    department, start date, notes and creation stamp unchanged (the
    [auto_now] stamp [updated_at] is the time of the request), every other
    row is untouched, and if no other row of the department is active, the
    read of the department's head answers 404. *)
Theorem retire_keeps_the_row now user id db instance s st u :
  IsAuthenticated user = true -> IsAdminUser user = true ->
  constraints_hold (hods db) = true ->
  get_object id db = Some instance ->
  staff instance = Some s ->
  find_staff s db = Some st -> find_user (Staff.user st) db = Some u ->
  let retired :=
    mk (pk instance) (staff instance) (department instance)
       (start_date instance) (Some (Py.date_of now)) false
       (additional_responsibilities instance) (created_at instance) now in
  let after :=
    snd (run_view (HeadOfDepartmentDetailView_delete now user id) db) in
  fst (run_view (HeadOfDepartmentDetailView_delete now user id) db)
  = Response 204 NoContent /\
  hods after = replace_row id retired (hods db) /\
  List.length (hods after) = List.length (hods db) /\
  In retired (hods after) /\ pk retired = Some id /\
  (forall r, In r (hods db) -> pk r <> Some id -> In r (hods after)) /\
  Users.staff after = Users.staff db /\
  (existsb (active_in (department instance))
           (exclude_pk (Some id) (hods db)) = false ->
   forall reader, IsAuthenticated reader = true ->
     fst (run_view (DepartmentHODView_get reader (department instance)) after)
     = Response 404
         (Detail (String.append "No active HOD found for "
                    (String.append (department instance) " department")))).
Proof.
  intros Hauth Hadmin Hc Hget Hs Hst Hu retired after.
  unfold constraints_hold in Hc. rewrite !andb_true_iff in Hc.
  destruct Hc as [[[Hkeys Hstaff] _] Hdates].
  unfold get_object in Hget. apply find_some in Hget.
  destruct Hget as [Hin Hid].
  pose proof (proj1 (pk_is_true id instance) Hid) as Hpk.
  assert (Hex : existsb (pk_is id) (hods db) = true)
    by (apply existsb_exists; exists instance; tauto).
  assert (Hstart : start_date instance <> None).
  { rewrite forallb_forall in Hdates. specialize (Hdates instance Hin).
    destruct (start_date instance); [discriminate | discriminate Hdates]. }
  assert (Hfree : staff_taken
                    (set_end_date (Some (Py.date_of now))
                                  (set_is_active false instance))
                    (exclude_pk (Some id) (hods db)) = false).
  { unfold staff_taken. cbn [staff set_end_date set_is_active]. rewrite Hs.
    apply (staff_free_elsewhere (hods db) instance id s); assumption. }
  destruct (save_existing_inactive now
              (set_end_date (Some (Py.date_of now))
                            (set_is_active false instance))
              id s st u db Hpk eq_refl ltac:(discriminate) Hs Hstart Hst Hu
              Hfree Hex) as [users1 Hsave].
  assert (Hrun : run_view (HeadOfDepartmentDetailView_delete now user id) db
                 = (Response 204 NoContent,
                    mkDB users1 (Users.staff db)
                         (replace_row id retired (hods db)))).
  { unfold run_view, HeadOfDepartmentDetailView_delete, admin_gate.
    rewrite Hauth, Hadmin. cbn [negb]. unfold bind at 1. cbn [read].
    unfold get_object.
    destruct (find (pk_is id) (hods db)) as [i|] eqn:Hfind.
    - assert (i = instance).
      { apply find_some in Hfind. destruct Hfind as [Hi Hki].
        apply pk_is_true in Hki.
        destruct (keys_distinct_Keyed _ Hkeys) as [_ Hnd].
        clear - Hi Hki Hin Hpk Hnd.
        induction (hods db) as [|x l IH]; [contradiction|].
        cbn [map] in Hnd. inversion Hnd as [|? ? Hx Hl]; subst.
        destruct Hi as [-> | Hi], Hin as [-> | Hin]; try reflexivity.
        - exfalso. apply Hx. rewrite Hki, <- Hpk. apply in_map. exact Hin.
        - exfalso. apply Hx. rewrite Hpk, <- Hki. apply in_map. exact Hi.
        - apply IH; assumption. }
      subst i. unfold perform_destroy. unfold bind at 1.
      rewrite Hsave. reflexivity.
    - pose proof (find_none _ _ Hfind instance Hin). congruence. }
  subst after. rewrite Hrun. cbn [fst snd hods Users.staff].
  repeat split.
  - unfold replace_row. apply length_map.
  - apply replace_row_holds. exact Hex.
  - exact Hpk.
  - intros r Hr Hk. apply replace_row_keeps_others; assumption.
  - intros Hnone reader Hreader.
    unfold run_view, DepartmentHODView_get, authenticated_gate.
    rewrite Hreader. cbn [negb]. unfold bind at 1. cbn [read hods].
    rewrite (no_active_after_replace (department instance) id retired);
      [reflexivity | apply andb_false_r | exact Hnone].
Qed.

Lemma retire_keeps_the_row_witness :
  hods (snd (run_view (HeadOfDepartmentDetailView_delete (30 * Samples.day)
                         (Some Samples.principal) 1)
                      Samples.college_with_head))
  = [mk (Some 1%Z) (Some 2%Z) "CS" (Some 10%Z) (Some 30%Z) false None 100
        (30 * Samples.day)].
Proof.
  apply (proj1 (proj2 (retire_keeps_the_row (30 * Samples.day)
                  (Some Samples.principal) 1 Samples.college_with_head
                  (mk (Some 1%Z) (Some 2%Z) "CS" (Some 10%Z) None true None
                      100 100)
                  2 Samples.lecturer_profile Samples.lecturer
                  eq_refl eq_refl eq_refl eq_refl eq_refl eq_refl eq_refl))).
Defined.

End UsersFacts.

(** ** Head-of-Department requests: refusals, failures and round trips *)

Module HodFacts.
Import Users Users.HeadOfDepartment Invariants TableLaws UsersFacts.

Lemma run_view_bind {A : Type} (m : M A) (k : A -> M response) db :
  run_view (bind m k) db
  = match m db with
    | (inr a, db1) => run_view (k a) db1
    | (inl e, db1) => (ServerError e, db1)
    end.
Proof. unfold run_view, bind. destruct (m db) as [[e|a] db1]; reflexivity. Qed.

Lemma bind_raises {A B : Type} (m : M A) (k : A -> M B) db :
  (forall a db1, m db = (inr a, db1) -> exists e db2, k a db1 = (inl e, db2)) ->
  exists e db2, bind m k db = (inl e, db2).
Proof.
  intros Hk. unfold bind. destruct (m db) as [[e|a] db1]; [eauto|].
  apply Hk. reflexivity.
Qed.

(** Validation reads and never writes, and hands back what it was given. *)
Lemma validate_pure instance a db : snd (validate instance a db) = db.
Proof. exact (keeps_validate (fun x => x = db) instance a db eq_refl). Qed.

Lemma validate_returns instance a db a' db' :
  validate instance a db = (inr a', db') -> a' = a.
Proof.
  unfold validate, bind, read.
  destruct (a_staff a) as [s|]; [|discriminate].
  destruct (related_staff (instance_of a) db) as [[e|st] db1]; [discriminate|].
  destruct (related_user st db1) as [[e|u] db2]; [discriminate|].
  destruct (negb (User.is_active u)); [discriminate|].
  destruct (find _ (exclude_pk (instance_pk instance) (hods db)));
    [discriminate|].
  destruct (a_department a) as [dep|]; [|now intros [= <- _]].
  destruct (find (active_in dep) _) as [x|]; [|now intros [= <- _]].
  destruct (related_staff x db2) as [[e|st'] db3]; [discriminate|].
  destruct (related_user st' db3) as [[e|u'] db4]; discriminate.
Qed.

Lemma is_valid_pure partial instance d db :
  snd (is_valid partial instance d db) = db.
Proof. exact (keeps_is_valid (fun x => x = db) partial instance d db eq_refl). Qed.

Lemma is_valid_returns partial instance d db a db' :
  is_valid partial instance d db = (inr (Valid a), db') ->
  a = d /\ db' = db /\ field_errors partial instance d db = [].
Proof.
  intros H. pose proof (is_valid_pure partial instance d db) as Hp.
  rewrite H in Hp. cbn [snd] in Hp. unfold is_valid in H.
  destruct (field_errors partial instance d db); [|discriminate].
  destruct (validate instance d db) as [[e|a'] db1] eqn:Hv.
  - destruct e; discriminate.
  - injection H as <- _. apply validate_returns in Hv. auto.
Qed.

(** *** A change of department *)

Lemma save_without_start_date_raises now self db :
  pk self = None -> start_date self = None ->
  exists e db', HeadOfDepartment_save now self db = (inl e, db').
Proof.
  intros Hpk Hstart. unfold HeadOfDepartment_save.
  apply bind_raises. intros _ db1 _.
  apply bind_raises. intros self1 db2 Hself1.
  assert (Hsame : pk self1 = None /\ start_date self1 = None).
  { destruct (negb (is_active self) && Py.is_none (end_date self)).
    - discriminate Hself1.
    - injection Hself1 as <- _. auto. }
  destruct Hsame as [Hpk1 Hstart1].
  apply bind_raises. intros _ db3 _.
  unfold Model_save, bind, read, constraint_error.
  rewrite Hpk1, Hstart1. cbn [exclude_pk Py.is_none].
  destruct (staff self1); cbn [Py.is_none]; do 2 eexists; reflexivity.
Qed.

(** X1. An update that changes the department never succeeds: after the
    edited appointment is saved as ended, the new appointment is built
    without start date ([pop('start_date')]) and its INSERT fails; the
    update view therefore never answers 200 to such a request. *)
Theorem department_change_never_succeeds :
  (forall now instance vd d db,
     a_department vd = Some d -> department instance <> d ->
     exists e db',
       HeadOfDepartmentSerializer_update now instance vd db = (inl e, db')) /\
  (forall now user partial id data d db instance content,
     get_object id db = Some instance ->
     a_department data = Some d -> department instance <> d ->
     fst (run_view (HeadOfDepartmentDetailView_update now user partial id data) db)
     <> Response 200 content).
Proof.
  assert (Hupdate : forall now instance vd d db,
            a_department vd = Some d -> department instance <> d ->
            exists e db',
              HeadOfDepartmentSerializer_update now instance vd db = (inl e, db')).
  { intros now instance vd d db Hd Hne.
    unfold HeadOfDepartmentSerializer_update. rewrite Hd.
    apply String.eqb_neq in Hne. rewrite Hne. cbn [negb].
    apply bind_raises. intros _ db1 _.
    apply save_without_start_date_raises; reflexivity. }
  split; [exact Hupdate|].
  intros now user partial id data d db instance content Hget Hd Hne.
  unfold HeadOfDepartmentDetailView_update, admin_gate.
  destruct (IsAuthenticated user); cbn [negb]; [|discriminate].
  destruct (IsAdminUser user); cbn [negb]; [|discriminate].
  rewrite run_view_bind. cbn [read]. rewrite Hget, run_view_bind.
  destruct (is_valid partial (Some instance) data db) as [[e|[a|errors]] db1]
    eqn:Hv; [discriminate | | discriminate].
  apply is_valid_returns in Hv. destruct Hv as [-> [-> _]].
  rewrite run_view_bind.
  match goal with
  | |- context [HeadOfDepartmentSerializer_update now instance ?vd db] =>
      destruct (Hupdate now instance vd d db) as [e [db2 He]];
        [destruct (a_is_active data) as [[|]|]; exact Hd | exact Hne |];
        rewrite He
  end.
  discriminate.
Qed.

Lemma department_change_never_succeeds_witness :
  get_object 1 Samples.college_with_head
  = Some (mk (Some 1%Z) (Some 2%Z) "CS" (Some 10%Z) None true None 100 100) /\
  (forall content,
     fst (run_view (HeadOfDepartmentDetailView_update (30 * Samples.day)
                      (Some Samples.principal) true 1
                      (mkAttrs (Some 2%Z) (Some "EE"%string) None None None None))
                   Samples.college_with_head)
     <> Response 200 content).
Proof.
  split; [reflexivity|]. intros content.
  apply (proj2 department_change_never_succeeds (30 * Samples.day)%Z
           (Some Samples.principal) true 1%Z
           (mkAttrs (Some 2%Z) (Some "EE"%string) None None None None)
           "EE"%string Samples.college_with_head
           (mk (Some 1%Z) (Some 2%Z) "CS" (Some 10%Z) None true None 100 100));
    [reflexivity | reflexivity | discriminate].
Defined.

(** *** A partial update without staff *)

(** X2. A PATCH that passes the gate and the field checks but carries no
    [staff] is answered 500: [validate] reads [staff.user] of [None]. The
    tables are untouched - so an appointment cannot be ended by
    PATCH [{is_active: false}] alone. *)
Theorem patch_without_staff_is_a_server_error now user id data db instance :
  IsAuthenticated user = true -> IsAdminUser user = true ->
  get_object id db = Some instance ->
  a_staff data = None ->
  field_errors true (Some instance) data db = [] ->
  serve now user (PATCH_hod id data) db
  = (ServerError (Py.AttributeError "'NoneType' object has no attribute 'user'"),
     db).
Proof.
  intros Hauth Hadmin Hget Hstaff Hfields. cbn [serve].
  unfold HeadOfDepartmentDetailView_update, admin_gate.
  rewrite Hauth, Hadmin. cbn [negb].
  rewrite run_view_bind. cbn [read]. rewrite Hget, run_view_bind.
  unfold is_valid. rewrite Hfields. unfold validate, bind, read.
  rewrite Hstaff. reflexivity.
Qed.

Lemma patch_without_staff_is_a_server_error_witness :
  serve (30 * Samples.day) (Some Samples.principal)
        (PATCH_hod 1 (mkAttrs None None None None (Some false) None))
        Samples.college_with_head
  = (ServerError (Py.AttributeError "'NoneType' object has no attribute 'user'"),
     Samples.college_with_head).
Proof.
  apply (patch_without_staff_is_a_server_error (30 * Samples.day)%Z
           (Some Samples.principal) 1%Z
           (mkAttrs None None None None (Some false) None)
           Samples.college_with_head
           (mk (Some 1%Z) (Some 2%Z) "CS" (Some 10%Z) None true None 100 100));
    reflexivity.
Defined.

(** *** Refusals *)

Lemma gate_refusal_or_pass user (m : M response) db :
  run_view (admin_gate user m) db = run_view m db
  \/ (exists status msg,
        (status = 401 \/ status = 403)%Z /\
        run_view (admin_gate user m) db = (Response status (Detail msg), db)).
Proof.
  unfold admin_gate.
  destruct (IsAuthenticated user); cbn [negb];
    [|right; do 2 eexists; split; [left; reflexivity | reflexivity]].
  destruct (IsAdminUser user); cbn [negb];
    [left; reflexivity
    |right; do 2 eexists; split; [right; reflexivity | reflexivity]].
Qed.

(** X3. A request that is answered 400, 401, 403 or 404 has changed
    nothing: the gate, [get_object] and the validation come before every
    write. (A request answered 500 may have written.) *)
Theorem refused_requests_change_nothing now user r db status content :
  fst (serve now user r db) = Response status content ->
  (status = 400 \/ status = 401 \/ status = 403 \/ status = 404)%Z ->
  snd (serve now user r db) = db.
Proof.
  intros Hresp Hstatus.
  assert (Hstep : forall partial instance d (k : validation -> M response),
            (forall a db1, k (Invalid a) db1
                           = (inr (Response 400 (Errors a)), db1)) ->
            (forall a, exists m : M t, exists ok,
                 ok <> 400%Z /\ ok <> 401%Z /\ ok <> 403%Z /\ ok <> 404%Z /\
                 k (Valid a) = bind m (fun h => ret (Response ok (HodData h)))) ->
            fst (run_view (bind (is_valid partial instance d) k) db)
            = Response status content ->
            snd (run_view (bind (is_valid partial instance d) k) db) = db).
  { intros partial instance d k Hinvalid Hvalid.
    rewrite run_view_bind.
    pose proof (is_valid_pure partial instance d db) as Hp.
    destruct (is_valid partial instance d db) as [[e|[a|errors]] db1];
      cbn [snd] in Hp; subst db1.
    - discriminate.
    - destruct (Hvalid a) as [m [ok [H0 [H1 [H3 [H4 Hk]]]]]]. rewrite Hk.
      rewrite run_view_bind. destruct (m db) as [[e|h] db2]; [discriminate|].
      unfold run_view, ret. cbn [fst]. intros [= <- _]. lia.
    - unfold run_view. rewrite Hinvalid. reflexivity. }
  destruct r as [d | id d | id d | id]; cbn [serve] in *.
  - unfold HeadOfDepartmentListCreateView_post in *.
    destruct (gate_refusal_or_pass user
                (v <- is_valid false None d;;
                 match v with
                 | Valid validated_data =>
                     h <- HeadOfDepartmentSerializer_create now
                            match a_start_date validated_data with
                            | Some _ => validated_data
                            | None => with_start_date (Some (Py.date_of now))
                                                      validated_data
                            end;;
                     ret (Response 201 (HodData h))
                 | Invalid errors => ret (Response 400 (Errors errors))
                 end) db) as [Hpass | [s [msg [_ Hrefused]]]].
    + rewrite Hpass in *. revert Hresp. apply Hstep.
      * reflexivity.
      * intros a. eexists. exists 201%Z. repeat split; try discriminate.
    + rewrite Hrefused. reflexivity.
  - unfold HeadOfDepartmentDetailView_update in *.
    match goal with
    | |- snd (run_view (admin_gate user ?m) db) = db =>
        destruct (gate_refusal_or_pass user m db)
          as [Hpass | [s [msg [_ Hrefused]]]]
    end.
    + rewrite Hpass in *. rewrite run_view_bind in *. cbn [read] in *.
      destruct (get_object id db) as [instance|]; [|reflexivity].
      revert Hresp. apply Hstep.
      * reflexivity.
      * intros a. eexists. exists 200%Z. repeat split; try discriminate.
    + rewrite Hrefused. reflexivity.
  - unfold HeadOfDepartmentDetailView_update in *.
    match goal with
    | |- snd (run_view (admin_gate user ?m) db) = db =>
        destruct (gate_refusal_or_pass user m db)
          as [Hpass | [s [msg [_ Hrefused]]]]
    end.
    + rewrite Hpass in *. rewrite run_view_bind in *. cbn [read] in *.
      destruct (get_object id db) as [instance|]; [|reflexivity].
      revert Hresp. apply Hstep.
      * reflexivity.
      * intros a. eexists. exists 200%Z. repeat split; try discriminate.
    + rewrite Hrefused. reflexivity.
  - unfold HeadOfDepartmentDetailView_delete in *.
    match goal with
    | |- snd (run_view (admin_gate user ?m) db) = db =>
        destruct (gate_refusal_or_pass user m db)
          as [Hpass | [s [msg [_ Hrefused]]]]
    end.
    + rewrite Hpass in *. rewrite run_view_bind in *. cbn [read] in *.
      destruct (get_object id db) as [instance|]; [|reflexivity].
      rewrite run_view_bind in *.
      destruct (perform_destroy now instance db) as [[e|h] db1];
        [discriminate|].
      unfold run_view, ret in Hresp. cbn [fst] in Hresp.
      injection Hresp as <- _. lia.
    + rewrite Hrefused. reflexivity.
Qed.

Lemma refused_requests_change_nothing_witness :
  fst (serve (30 * Samples.day) (Some Samples.principal)
             (POST_hods (Samples.appointment 3 "CS")) Samples.college_with_head)
  = Response 400 (Errors ["Lee Ng is already the HOD of Computer Science department."%string])
  /\ snd (serve (30 * Samples.day) (Some Samples.principal)
                (POST_hods (Samples.appointment 3 "CS")) Samples.college_with_head)
     = Samples.college_with_head.
Proof.
  split; [reflexivity|].
  apply (refused_requests_change_nothing (30 * Samples.day)%Z
           (Some Samples.principal) (POST_hods (Samples.appointment 3 "CS"))
           Samples.college_with_head 400%Z
           (Errors ["Lee Ng is already the HOD of Computer Science department."%string]));
    [reflexivity | left; reflexivity].
Defined.

(** *** Appointments that succeed *)

Lemma deactivate_none d e rows :
  existsb (active_in d) rows = false ->
  map (fun x => if active_in d x then retire_row e x else x) rows = rows.
Proof.
  induction rows as [|x rows IH]; [reflexivity|].
  cbn [existsb map]. rewrite orb_false_iff. intros [Hx Hrows].
  rewrite Hx, (IH Hrows). reflexivity.
Qed.

Lemma find_none_existsb {A : Type} (f : A -> bool) l :
  find f l = None <-> existsb f l = false.
Proof.
  induction l as [|x l IH]; [split; reflexivity|].
  cbn [find existsb]. destruct (f x); cbn [orb]; [split; discriminate|].
  exact IH.
Qed.

Lemma staff_ensure_staff_role self db :
  Users.staff (snd (ensure_staff_role self db)) = Users.staff db.
Proof.
  assert (H : keeps (fun x => Users.staff x = Users.staff db)
                    (ensure_staff_role self)).
  { unfold ensure_staff_role. keeps_structure;
      auto using keeps_related_staff, keeps_related_user.
    intros db0 H0. exact H0. }
  apply H. reflexivity.
Qed.

(** What [HeadOfDepartment.save] of a new row leaves in the table. *)
Lemma save_new_rows now self db h db' :
  pk self = None ->
  HeadOfDepartment_save now self db = (inr h, db') ->
  hods db'
  = (if is_active self
     then map (fun x => if active_in (department self) x
                        then retire_row None x else x) (hods db)
     else hods db) ++ [h]
  /\ department h = department self /\ staff h = staff self
  /\ Users.staff db' = Users.staff db.
Proof.
  intros Hpk H. unfold HeadOfDepartment_save in H. rewrite Hpk in H.
  cbn [Py.is_none] in H. rewrite andb_true_r in H.
  apply bind_returns in H. destruct H as [[] [db1 [H1 H]]].
  apply bind_returns in H. destruct H as [self1 [db2 [H2 H]]].
  apply bind_returns in H. destruct H as [[] [db3 [H3 H]]].
  assert (Hself1 : pk self1 = None /\ department self1 = department self
                   /\ staff self1 = staff self /\ db2 = db1).
  { destruct (negb (is_active self) && Py.is_none (end_date self)).
    - discriminate H2.
    - injection H2 as <- <-. auto. }
  destruct Hself1 as [Hpk1 [Hdep1 [Hstaff1 ->]]].
  apply (Model_save_insert now self1 db3 h db' Hpk1) in H as Hins.
  destruct Hins as [Hh Hrows].
  assert (E3 : hods db3 = hods db1 /\ Users.staff db3 = Users.staff db1).
  { pose proof (keeps_ensure_staff_role (fun rows => rows = hods db1) self1 db1
                  eq_refl) as E.
    pose proof (staff_ensure_staff_role self1 db1) as E'.
    rewrite H3 in E, E'. split; [exact E | exact E']. }
  destruct E3 as [E3 E3'].
  assert (E1 : hods db1
               = (if is_active self
                  then map (fun x => if active_in (department self) x
                                     then retire_row None x else x) (hods db)
                  else hods db)
               /\ Users.staff db1 = Users.staff db).
  { destruct (is_active self).
    - unfold deactivate_active, bind, read, write_hods in H1.
      injection H1 as <-. split; reflexivity.
    - injection H1 as <-. split; reflexivity. }
  destruct E1 as [E1 E1'].
  assert (E4 : Users.staff db' = Users.staff db3).
  { clear - H Hpk1. unfold Model_save, bind, read in H. rewrite Hpk1 in H.
    destruct (constraint_error self1 _); [discriminate|].
    cbn in H. injection H as _ <-. reflexivity. }
  rewrite Hrows, E3, E1, E4, E3', E1'. rewrite Hh.
  cbn [department staff set_stamps set_pk]. auto.
Qed.

(** A new row whose staff member has no row yet, for a department without
    active head, is inserted. *)
Lemma save_new_succeeds now self s st u db :
  pk self = None -> staff self = Some s -> start_date self <> None ->
  is_active self = true \/ end_date self <> None ->
  find_staff s db = Some st -> find_user (Staff.user st) db = Some u ->
  existsb (staff_is s) (hods db) = false ->
  existsb (active_in (department self)) (hods db) = false ->
  exists users1,
    HeadOfDepartment_save now self db
    = (inr (set_stamps now now (set_pk (Some (next_pk (hods db))) self)),
       mkDB users1 (Users.staff db)
            (hods db ++ [set_stamps now now
                           (set_pk (Some (next_pk (hods db))) self)])).
Proof.
  intros Hpk Hs Hstart Hend Hst Hu Hfree Hvacant.
  assert (Hsave : forall users1,
            Model_save now self (mkDB users1 (Users.staff db) (hods db))
            = (inr (set_stamps now now (set_pk (Some (next_pk (hods db))) self)),
               mkDB users1 (Users.staff db)
                    (hods db ++ [set_stamps now now
                                   (set_pk (Some (next_pk (hods db))) self)]))).
  { intros users1. unfold Model_save, bind, read. cbn [hods].
    unfold constraint_error. rewrite Hpk, Hs. cbn [exclude_pk Py.is_none].
    destruct (start_date self); [|contradiction]. cbn [Py.is_none].
    unfold staff_taken, department_has_active. rewrite Hs, Hfree, Hvacant.
    rewrite andb_false_r. reflexivity. }
  assert (Hrole : forall db0,
            Users.staff db0 = Users.staff db -> users db0 = users db ->
            hods db0 = hods db ->
            exists users1,
              ensure_staff_role self db0
              = (inr tt, mkDB users1 (Users.staff db) (hods db))).
  { intros db0 Hsf Hus Hhs.
    assert (Hst0 : find_staff s db0 = Some st)
      by (unfold find_staff in *; rewrite Hsf; exact Hst).
    assert (Hu0 : find_user (Staff.user st) db0 = Some u)
      by (unfold find_user in *; rewrite Hus; exact Hu).
    unfold ensure_staff_role, related_staff, related_user, bind, read.
    cbv beta iota. rewrite Hs, Hst0. cbv beta iota delta [ret].
    rewrite Hu0. cbv beta iota.
    destruct (negb (String.eqb (User.role u) "staff")).
    - eexists. unfold write_users. rewrite Hsf, Hhs. reflexivity.
    - exists (users db0). unfold ret. destruct db0 as [us sf hs].
      cbn [users Users.staff hods] in *. subst. reflexivity. }
  unfold HeadOfDepartment_save. rewrite Hpk. cbn [Py.is_none].
  rewrite andb_true_r.
  destruct (is_active self) eqn:Hact; cbn [negb andb].
  - unfold bind at 1. unfold deactivate_active, bind at 1.
    cbn [read write_hods]. rewrite (deactivate_none _ _ _ Hvacant).
    unfold bind at 1. cbn [ret].
    destruct (Hrole (mkDB (users db) (Users.staff db) (hods db))
                eq_refl eq_refl eq_refl) as [users1 Hr].
    unfold bind at 1. rewrite Hr. exists users1. apply Hsave.
  - destruct Hend as [Hend|Hend]; [discriminate|].
    destruct (end_date self) as [e|] eqn:He; [|contradiction].
    cbn [Py.is_none]. unfold bind at 1. cbn [ret].
    unfold bind at 1. cbn [ret].
    destruct (Hrole db eq_refl eq_refl eq_refl) as [users1 Hr].
    unfold bind at 1. rewrite Hr. exists users1. apply Hsave.
Qed.

Lemma deactivate_active_vacant d e db :
  existsb (active_in d) (hods db) = false ->
  deactivate_active d e db = (inr tt, db).
Proof.
  intros H. unfold deactivate_active, bind, read, write_hods.
  rewrite (deactivate_none d e _ H). destruct db; reflexivity.
Qed.

Lemma field_errors_post_nil d db :
  field_errors false None d db = [] ->
  exists s dep sd,
    a_staff d = Some s /\ find_staff s db <> None
    /\ existsb (staff_is s) (hods db) = false
    /\ a_department d = Some dep /\ a_start_date d = Some sd.
Proof.
  unfold field_errors. cbn [instance_pk exclude_pk].
  destruct (a_staff d) as [s|]; [|discriminate].
  destruct (find_staff s db) as [st|] eqn:Hst; [|discriminate].
  destruct (existsb (staff_is s) (hods db)) eqn:Hfree; [discriminate|].
  destruct (a_department d) as [dep|]; [|discriminate].
  destruct (a_start_date d) as [sd|];
    [|destruct (existsb _ DEPARTMENT_CHOICES); discriminate].
  intros _. exists s, dep, sd. repeat split; congruence.
Qed.

Lemma validate_vacant instance a db a' db' dep :
  validate instance a db = (inr a', db') ->
  a_department a = Some dep ->
  existsb (active_in dep) (exclude_pk (instance_pk instance) (hods db)) = false.
Proof.
  unfold validate, bind, read. intros H Hdep. rewrite Hdep in H.
  destruct (a_staff a) as [s|]; [|discriminate].
  destruct (related_staff (instance_of a) db) as [[e|st] db1]; [discriminate|].
  destruct (related_user st db1) as [[e|u] db2]; [discriminate|].
  destruct (negb (User.is_active u)); [discriminate|].
  destruct (find _ (exclude_pk (instance_pk instance) (hods db)));
    [discriminate|].
  destruct (find (active_in dep) _) as [x|] eqn:Hfind.
  - destruct (related_staff x db2) as [[e|st'] db3]; [discriminate|].
    destruct (related_user st' db3) as [[e|u'] db4]; discriminate.
  - apply find_none_existsb. exact Hfind.
Qed.

Lemma is_valid_validated partial instance d db a db' :
  is_valid partial instance d db = (inr (Valid a), db') ->
  validate instance d db = (inr d, db).
Proof.
  intros H. pose proof (validate_pure instance d db) as Hp.
  unfold is_valid in H.
  destruct (field_errors partial instance d db); [|discriminate].
  destruct (validate instance d db) as [[e|a'] db1] eqn:Hv.
  - destruct e; discriminate.
  - cbn [snd] in Hp. subst db1. apply validate_returns in Hv as ->.
    reflexivity.
Qed.

(** X4. A POST to hods/ that is answered 201 found the department without
    active head and the staff member without any row: the table grew by
    the new row and nothing else changed in it - the deactivation of a
    sitting head in [HeadOfDepartmentSerializer.create] and in
    [HeadOfDepartment.save] is never reached through this view. *)
Theorem created_only_when_vacant now user d db h db' :
  serve now user (POST_hods d) db = (Response 201 (HodData h), db') ->
  hods db' = hods db ++ [h]
  /\ existsb (active_in (department h)) (hods db) = false
  /\ (exists s, staff h = Some s /\ existsb (staff_is s) (hods db) = false)
  /\ IsAdminUser user = true
  /\ Users.staff db' = Users.staff db.
Proof.
  cbn [serve]. unfold HeadOfDepartmentListCreateView_post, admin_gate.
  destruct (IsAuthenticated user); cbn [negb]; [|discriminate].
  destruct (IsAdminUser user); cbn [negb]; [|discriminate].
  rewrite run_view_bind.
  destruct (is_valid false None d db) as [[e|[a|errors]] db1] eqn:Hv;
    [discriminate | | discriminate].
  pose proof (is_valid_validated _ _ _ _ _ _ Hv) as Hval.
  apply is_valid_returns in Hv. destruct Hv as [-> [-> Hfields]].
  destruct (field_errors_post_nil d db Hfields)
    as [s [dep [sd [Hs [_ [Hfree [Hdep Hsd]]]]]]].
  pose proof (validate_vacant None d db d db dep Hval Hdep) as Hvacant.
  cbn [instance_pk exclude_pk] in Hvacant.
  rewrite Hsd, run_view_bind.
  unfold HeadOfDepartmentSerializer_create. rewrite Hdep, Hsd.
  unfold bind at 1. rewrite (deactivate_active_vacant dep _ db Hvacant).
  destruct (HeadOfDepartment_save now (instance_of d) db) as [[e|h0] db2]
    eqn:Hsave; [discriminate|].
  unfold run_view, ret. intros [= <- <-].
  apply save_new_rows in Hsave; [|reflexivity].
  destruct Hsave as [Hrows [Hdept [Hstaff Hsame]]].
  assert (Hd : department (instance_of d) = dep)
    by (cbn; rewrite Hdep; reflexivity).
  rewrite Hd in *. rewrite (deactivate_none dep None _ Hvacant) in Hrows.
  repeat split.
  - destruct (is_active (instance_of d)); exact Hrows.
  - rewrite Hdept. exact Hvacant.
  - exists s. split; [rewrite Hstaff; cbn; exact Hs | exact Hfree].
  - exact Hsame.
Qed.

Lemma created_only_when_vacant_witness :
  exists h db',
    serve (20 * Samples.day) (Some Samples.principal)
          (POST_hods (Samples.appointment 3 "EE")) Samples.college_with_head
    = (Response 201 (HodData h), db')
    /\ hods db' = hods Samples.college_with_head ++ [h].
Proof.
  do 2 eexists. split; [vm_compute; reflexivity|].
  apply (created_only_when_vacant (20 * Samples.day)%Z
           (Some Samples.principal) (Samples.appointment 3 "EE")
           Samples.college_with_head).
  vm_compute. reflexivity.
Defined.

Lemma is_valid_accepts d db s st u dep sd :
  a_staff d = Some s -> find_staff s db = Some st ->
  find_user (Staff.user st) db = Some u -> User.is_active u = true ->
  existsb (staff_is s) (hods db) = false ->
  a_department d = Some dep ->
  existsb (fun c => String.eqb (fst c) dep) DEPARTMENT_CHOICES = true ->
  existsb (active_in dep) (hods db) = false ->
  a_start_date d = Some sd ->
  is_valid false None d db = (inr (Valid d), db).
Proof.
  intros Hs Hst Hu Hactive Hfree Hdep Hchoice Hvacant Hsd.
  unfold is_valid, field_errors. cbn [instance_pk exclude_pk].
  rewrite Hs, Hst, Hfree, Hdep, Hchoice, Hsd. cbn [app].
  unfold validate, related_staff, related_user, bind, read.
  cbv beta iota. rewrite Hs. cbn [instance_of staff].
  rewrite Hs, Hst. cbv beta iota delta [ret]. rewrite Hu. cbv beta iota.
  rewrite Hactive. cbn [negb instance_pk exclude_pk].
  assert (Hnone : find (fun h => staff_is s h && is_active h) (hods db) = None).
  { apply find_none_existsb. clear - Hfree.
    induction (hods db) as [|x l IH]; [reflexivity|].
    cbn [existsb] in *. apply orb_false_iff in Hfree. destruct Hfree as [Hx Hl].
    rewrite Hx, (IH Hl). reflexivity. }
  rewrite Hnone, Hdep.
  rewrite (proj2 (find_none_existsb (active_in dep) (hods db)) Hvacant).
  reflexivity.
Qed.

(** X5. An appointment and its read. When a caller who passes the gate
    posts an appointment for an existing staff member whose user is active
    and who has no row yet, to a department of the choices that has no
    active head, with a start date and not marked inactive, the answer is
    201, the row is appended under the next key, and the read of the
    department's head by any authenticated user returns exactly that
    row. *)
Theorem appointment_round_trip now user d db s st u dep sd :
  IsAuthenticated user = true -> IsAdminUser user = true ->
  a_staff d = Some s -> find_staff s db = Some st ->
  find_user (Staff.user st) db = Some u -> User.is_active u = true ->
  existsb (staff_is s) (hods db) = false ->
  a_department d = Some dep ->
  existsb (fun c => String.eqb (fst c) dep) DEPARTMENT_CHOICES = true ->
  existsb (active_in dep) (hods db) = false ->
  a_start_date d = Some sd ->
  a_is_active d <> Some false ->
  let h := mk (Some (next_pk (hods db))) (Some s) dep (Some sd)
              (or_default (a_end_date d) None) true
              (or_default (a_additional_responsibilities d) None) now now in
  exists users1,
    serve now user (POST_hods d) db
    = (Response 201 (HodData h),
       mkDB users1 (Users.staff db) (hods db ++ [h]))
    /\ forall reader,
         IsAuthenticated reader = true ->
         run_view (DepartmentHODView_get reader dep)
                  (mkDB users1 (Users.staff db) (hods db ++ [h]))
         = (Response 200 (HodData h),
            mkDB users1 (Users.staff db) (hods db ++ [h])).
Proof.
  intros Hauth Hadmin Hs Hst Hu Hactive Hfree Hdep Hchoice Hvacant Hsd Hon h.
  assert (Hinst : instance_of d
                  = mk None (Some s) dep (Some sd)
                       (or_default (a_end_date d) None) true
                       (or_default (a_additional_responsibilities d) None) 0 0).
  { unfold instance_of. rewrite Hs, Hdep, Hsd.
    destruct (a_is_active d) as [[|]|]; try reflexivity.
    exfalso. apply Hon. reflexivity. }
  assert (Hsave : exists users1,
            HeadOfDepartment_save now (instance_of d) db
            = (inr (set_stamps now now
                      (set_pk (Some (next_pk (hods db))) (instance_of d))),
               mkDB users1 (Users.staff db)
                    (hods db ++ [set_stamps now now
                                   (set_pk (Some (next_pk (hods db)))
                                           (instance_of d))]))).
  { apply (save_new_succeeds now (instance_of d) s st u db);
      try assumption; rewrite Hinst; cbn [pk staff start_date is_active
                                           department];
      first [reflexivity | discriminate | left; reflexivity | assumption]. }
  destruct Hsave as [users1 Hsave].
  exists users1. split.
  - cbn [serve]. unfold HeadOfDepartmentListCreateView_post, admin_gate.
    rewrite Hauth, Hadmin. cbn [negb]. rewrite run_view_bind.
    rewrite (is_valid_accepts d db s st u dep sd) by assumption.
    rewrite Hsd, run_view_bind.
    unfold HeadOfDepartmentSerializer_create. rewrite Hdep, Hsd.
    unfold bind at 1. rewrite (deactivate_active_vacant dep _ db Hvacant).
    rewrite Hsave, Hinst. reflexivity.
  - intros reader Hreader.
    unfold DepartmentHODView_get, authenticated_gate. rewrite Hreader.
    cbn [negb]. rewrite run_view_bind. cbn [read hods].
    rewrite filter_app.
    assert (Hnone : filter (active_in dep) (hods db) = []).
    { clear - Hvacant. induction (hods db) as [|x l IH]; [reflexivity|].
      cbn [existsb filter] in *. apply orb_false_iff in Hvacant.
      destruct Hvacant as [Hx Hl]. rewrite Hx. exact (IH Hl). }
    rewrite Hnone. cbn [filter app]. unfold active_in, h.
    cbn [department is_active]. rewrite String.eqb_refl. reflexivity.
Qed.

Lemma appointment_round_trip_witness :
  exists users1,
    serve (20 * Samples.day) (Some Samples.principal)
          (POST_hods (Samples.appointment 3 "EE")) Samples.college_with_head
    = (Response 201
         (HodData (mk (Some 2%Z) (Some 3%Z) "EE" (Some 10%Z) None true None
                      (20 * Samples.day) (20 * Samples.day))),
       mkDB users1 (Users.staff Samples.college_with_head)
            (hods Samples.college_with_head
             ++ [mk (Some 2%Z) (Some 3%Z) "EE" (Some 10%Z) None true None
                    (20 * Samples.day) (20 * Samples.day)])).
Proof.
  destruct (appointment_round_trip (20 * Samples.day)%Z
              (Some Samples.principal) (Samples.appointment 3 "EE")
              Samples.college_with_head 3%Z Samples.reader_profile
              Samples.reader "EE"%string 10%Z
              eq_refl eq_refl eq_refl eq_refl eq_refl eq_refl eq_refl eq_refl
              eq_refl eq_refl eq_refl ltac:(discriminate))
    as [users1 [H _]].
  exists users1. exact H.
Defined.

(** *** Every constraint of the table is an invariant *)

Section Generic.
Context (Q : list t -> Prop).
Hypothesis Q_deactivate : forall d e, keeps (on_hods Q) (deactivate_active d e).
Hypothesis Q_Model_save : forall now self, keeps (on_hods Q) (Model_save now self).

Lemma generic_save now self : keeps (on_hods Q) (HeadOfDepartment_save now self).
Proof.
  unfold HeadOfDepartment_save. keeps_structure;
    auto using keeps_models_timezone_today; apply keeps_ensure_staff_role.
Qed.

Lemma generic_create now a :
  keeps (on_hods Q) (HeadOfDepartmentSerializer_create now a).
Proof.
  unfold HeadOfDepartmentSerializer_create. keeps_structure;
    auto using generic_save.
Qed.

Lemma generic_update now instance a :
  keeps (on_hods Q) (HeadOfDepartmentSerializer_update now instance a).
Proof.
  unfold HeadOfDepartmentSerializer_update. keeps_structure;
    auto using generic_save.
Qed.

Lemma generic_serve now user r db :
  on_hods Q db -> on_hods Q (snd (serve now user r db)).
Proof.
  intros H. destruct r; cbn [serve]; apply keeps_run_view; try exact H.
  - unfold HeadOfDepartmentListCreateView_post. apply keeps_admin_gate.
    keeps_structure; auto using keeps_is_valid, generic_create.
  - unfold HeadOfDepartmentDetailView_update. apply keeps_admin_gate.
    keeps_structure; auto using keeps_is_valid, generic_update.
  - unfold HeadOfDepartmentDetailView_update. apply keeps_admin_gate.
    keeps_structure; auto using keeps_is_valid, generic_update.
  - unfold HeadOfDepartmentDetailView_delete, perform_destroy.
    apply keeps_admin_gate. keeps_structure; auto using generic_save.
Qed.

Lemma generic_serve_all history db :
  on_hods Q db -> on_hods Q (serve_all history db).
Proof.
  revert db. induction history as [|[[now user] r] rest IH]; intros db H;
    cbn [serve_all]; [exact H|].
  apply IH. apply generic_serve. exact H.
Qed.

End Generic.

Lemma staff_is_true s h : staff_is s h = true <-> staff h = Some s.
Proof.
  unfold staff_is. destruct (staff h) as [j|]; [|split; discriminate].
  rewrite Z.eqb_eq. split; [now intros -> | now intros [= ->]].
Qed.

Lemma existsb_staff_is s l :
  existsb (staff_is s) l = true <-> In (Some s) (map staff l).
Proof.
  rewrite existsb_exists, in_map_iff. split.
  - intros [x [Hin Hx]]. exists x. split; [now apply staff_is_true | exact Hin].
  - intros [x [Hx Hin]]. exists x. split; [exact Hin | now apply staff_is_true].
Qed.

Lemma staff_retire_row e h : staff (retire_row e h) = staff h.
Proof. destruct e; reflexivity. Qed.

Lemma start_date_retire_row e h : start_date (retire_row e h) = start_date h.
Proof. destruct e; reflexivity. Qed.

Lemma StaffKeyed_map l (f : t -> t) :
  (forall h, staff (f h) = staff h) -> StaffKeyed l -> StaffKeyed (map f l).
Proof.
  intros Hf [Hall Hnd].
  assert (Hs : map staff (map f l) = map staff l)
    by (rewrite map_map; apply map_ext; exact Hf).
  split; [|rewrite Hs; exact Hnd].
  apply Forall_forall. intros x Hx. apply in_map_iff in Hx.
  destruct Hx as [h [<- Hh]]. rewrite Hf.
  rewrite Forall_forall in Hall. apply Hall. exact Hh.
Qed.

Lemma Dated_map l (f : t -> t) :
  (forall h, start_date (f h) = start_date h) -> Dated l -> Dated (map f l).
Proof.
  intros Hf Hall. apply Forall_forall. intros x Hx. apply in_map_iff in Hx.
  destruct Hx as [h [<- Hh]]. rewrite Hf.
  unfold Dated in Hall. rewrite Forall_forall in Hall. apply Hall. exact Hh.
Qed.

Lemma Lawful_deactivate d e rows :
  Lawful rows ->
  Lawful (map (fun h => if active_in d h then retire_row e h else h) rows).
Proof.
  intros [Hc [Hs Hd]]. split; [|split].
  - apply Consistent_deactivate. exact Hc.
  - apply StaffKeyed_map; [|exact Hs]. intros h.
    destruct (active_in d h); [apply staff_retire_row | reflexivity].
  - apply Dated_map; [|exact Hd]. intros h.
    destruct (active_in d h); [apply start_date_retire_row | reflexivity].
Qed.

Lemma StaffKeyed_snoc l r s :
  StaffKeyed l -> staff r = Some s -> existsb (staff_is s) l = false ->
  StaffKeyed (l ++ [r]).
Proof.
  intros [Hall Hnd] Hs Hfree. split.
  - apply Forall_app. split; [exact Hall|].
    constructor; [rewrite Hs; discriminate | constructor].
  - rewrite map_app. cbn [map]. rewrite Hs. apply NoDup_snoc; [exact Hnd|].
    intros Hin. apply existsb_staff_is in Hin. congruence.
Qed.

Lemma Dated_snoc l r : Dated l -> start_date r <> None -> Dated (l ++ [r]).
Proof.
  intros Hall Hr. apply Forall_app. split; [exact Hall|].
  constructor; [exact Hr | constructor].
Qed.

Lemma In_replace_row k r rows x :
  In x (replace_row k r rows) -> x = r \/ (In x rows /\ pk_is k x = false).
Proof.
  unfold replace_row. rewrite in_map_iff. intros [y [Hy Hin]].
  destruct (pk_is k y) eqn:E; [left; congruence|].
  right. subst. auto.
Qed.

Lemma StaffKeyed_replace rows r k s :
  NoDup (map pk rows) -> StaffKeyed rows -> staff r = Some s ->
  existsb (staff_is s) (filter (fun h => negb (pk_is k h)) rows) = false ->
  StaffKeyed (replace_row k r rows).
Proof.
  intros Hkeys [Hall Hnd] Hs Hfree. split.
  - apply Forall_forall. intros x Hx. apply In_replace_row in Hx.
    destruct Hx as [-> | [Hx _]]; [rewrite Hs; discriminate|].
    rewrite Forall_forall in Hall. apply Hall. exact Hx.
  - clear Hall. induction rows as [|x rows IH]; [constructor|].
    cbn [map] in Hkeys, Hnd.
    inversion Hkeys as [|? ? Hkx Hkrest]; subst.
    inversion Hnd as [|? ? Hsx Hsrest]; subst.
    unfold replace_row in *. cbn [map filter] in *.
    destruct (pk_is k x) eqn:E; cbn [negb] in Hfree.
    + apply pk_is_true in E. rewrite E in Hkx.
      destruct (replace_row_absent k r rows Hkx) as [H1 H2].
      unfold replace_row in H1. rewrite H1. rewrite H2 in Hfree.
      rewrite Hs. constructor; [|exact Hsrest].
      intros Hin. apply existsb_staff_is in Hin. congruence.
    + cbn [existsb] in Hfree. apply orb_false_iff in Hfree.
      destruct Hfree as [Hx Hfree].
      constructor; [|apply IH; assumption].
      intros Hin. apply in_map_iff in Hin. destruct Hin as [y [Hy Hin]].
      apply In_replace_row in Hin. destruct Hin as [-> | [Hin _]].
      * rewrite Hs in Hy. symmetry in Hy. apply staff_is_true in Hy.
        congruence.
      * apply Hsx. rewrite <- Hy. apply in_map. exact Hin.
Qed.

Lemma Dated_replace rows r k :
  Dated rows -> start_date r <> None -> Dated (replace_row k r rows).
Proof.
  intros Hall Hr. apply Forall_forall. intros x Hx.
  apply In_replace_row in Hx. destruct Hx as [-> | [Hx _]]; [exact Hr|].
  unfold Dated in Hall. rewrite Forall_forall in Hall. apply Hall. exact Hx.
Qed.

Lemma filter_absent_key k rows :
  existsb (pk_is k) rows = false ->
  filter (fun h => negb (pk_is k h)) rows = rows.
Proof.
  induction rows as [|x rows IH]; [reflexivity|].
  cbn [existsb filter]. rewrite orb_false_iff. intros [Hx Hrows].
  rewrite Hx, (IH Hrows). reflexivity.
Qed.

Lemma keeps_Lawful_Model_save now self :
  keeps (on_hods Lawful) (Model_save now self).
Proof.
  intros db [Hc [Hs Hd]].
  pose proof (keeps_Model_save now self db Hc) as Hc'.
  unfold on_hods. split; [exact Hc'|]. clear Hc'.
  unfold Model_save, bind, read.
  destruct (constraint_error self (exclude_pk (pk self) (hods db))) as [e|] eqn:C;
    [split; assumption|].
  apply constraint_error_none in C.
  destruct C as [Hstaff [Hstart [Hfree _]]].
  destruct (staff self) as [s|] eqn:Es; [|contradiction].
  unfold staff_taken in Hfree. rewrite Es in Hfree.
  destruct (pk self) as [k|] eqn:Hpk.
  - destruct (existsb (pk_is k) (hods db)) eqn:Hex; cbn [snd write_hods ret hods].
    + split.
      * exact (StaffKeyed_replace (hods db)
                 (set_stamps (created_at self) now self) k s
                 (proj2 (proj1 Hc)) Hs Es Hfree).
      * apply Dated_replace; assumption.
    + cbn [exclude_pk] in Hfree. rewrite (filter_absent_key k _ Hex) in Hfree.
      split.
      * exact (StaffKeyed_snoc (hods db)
                 (set_stamps (created_at self) now self) s Hs Es Hfree).
      * apply Dated_snoc; assumption.
  - cbn [snd write_hods ret hods exclude_pk] in *. split.
    + exact (StaffKeyed_snoc (hods db)
               (set_stamps now now (set_pk (Some (next_pk (hods db))) self))
               s Hs Es Hfree).
    + apply Dated_snoc; assumption.
Qed.

Lemma keeps_Lawful_deactivate d e :
  keeps (on_hods Lawful) (deactivate_active d e).
Proof. intros db H. exact (Lawful_deactivate d e (hods db) H). Qed.

Lemma staff_distinct_StaffKeyed rows :
  staff_distinct rows = true -> StaffKeyed rows.
Proof.
  induction rows as [|r rows IH]; cbn [staff_distinct].
  - intros _. split; constructor.
  - destruct (staff r) as [s|] eqn:Hs; [|discriminate].
    rewrite andb_true_iff, negb_true_iff. intros [Hfresh Hrest].
    destruct (IH Hrest) as [Hall Hnd]. split.
    + constructor; [rewrite Hs; discriminate | exact Hall].
    + cbn [map]. rewrite Hs. constructor; [|exact Hnd].
      intros Hin. apply existsb_staff_is in Hin. congruence.
Qed.

Lemma constraints_hold_Lawful rows :
  constraints_hold rows = true -> Lawful rows.
Proof.
  intros H. split; [apply constraints_hold_Consistent; exact H|].
  unfold constraints_hold in H. rewrite !andb_true_iff in H.
  destruct H as [[[_ Hs] _] Hd]. split.
  - apply staff_distinct_StaffKeyed. exact Hs.
  - apply Forall_forall. intros r Hr. rewrite forallb_forall in Hd.
    specialize (Hd r Hr). destruct (start_date r); [discriminate|].
    discriminate Hd.
Qed.

Lemma existsb_false_not_in_pk k rows :
  ~ In (Some k) (map pk rows) -> existsb (pk_is k) rows = false.
Proof.
  intros H. destruct (existsb (pk_is k) rows) eqn:E; [|reflexivity].
  apply existsb_pk_is in E. contradiction.
Qed.

Lemma Lawful_constraints_hold rows :
  Lawful rows -> constraints_hold rows = true.
Proof.
  intros [[[Hkall Hknd] Hone] [[Hsall Hsnd] Hd]].
  unfold constraints_hold. rewrite !andb_true_iff. repeat split.
  - clear - Hkall Hknd. induction rows as [|r rows IH]; [reflexivity|].
    inversion Hkall as [|? ? Hr Hrest]; subst. cbn [map] in Hknd.
    inversion Hknd as [|? ? Hfresh Hnd]; subst. cbn [keys_distinct].
    destruct (pk r) as [k|]; [|contradiction].
    rewrite (existsb_false_not_in_pk k rows Hfresh). cbn [negb andb].
    apply IH; assumption.
  - clear - Hsall Hsnd. induction rows as [|r rows IH]; [reflexivity|].
    inversion Hsall as [|? ? Hr Hrest]; subst. cbn [map] in Hsnd.
    inversion Hsnd as [|? ? Hfresh Hnd]; subst. cbn [staff_distinct].
    destruct (staff r) as [s|]; [|contradiction].
    assert (E : existsb (staff_is s) rows = false).
    { destruct (existsb (staff_is s) rows) eqn:E; [|reflexivity].
      apply existsb_staff_is in E. contradiction. }
    rewrite E. cbn [negb andb]. apply IH; assumption.
  - clear - Hone. induction rows as [|r rows IH]; [reflexivity|].
    cbn [one_active_each]. rewrite andb_true_iff, negb_true_iff. split.
    + unfold department_has_active. destruct (is_active r) eqn:Ha;
        [|reflexivity]. cbn [andb].
      specialize (Hone (department r)). rewrite count_active_cons in Hone.
      rewrite (active_in_own r Ha) in Hone.
      destruct (existsb (active_in (department r)) rows) eqn:E; [|reflexivity].
      apply existsb_exists in E. destruct E as [x [Hin Hx]].
      exfalso. clear - Hone Hin Hx. unfold count_active in Hone.
      assert (Hmem : In x (filter (active_in (department r)) rows))
        by (apply filter_In; auto).
      destruct (filter (active_in (department r)) rows); [contradiction|].
      cbn [List.length] in Hone. lia.
    + apply IH. intros d. specialize (Hone d).
      rewrite count_active_cons in Hone. lia.
  - apply forallb_forall. intros r Hr. unfold Dated in Hd.
    rewrite Forall_forall in Hd. specialize (Hd r Hr).
    destruct (start_date r); [reflexivity | contradiction].
Qed.

Lemma staff_rows_at_most_one rows s :
  staff_distinct rows = true ->
  (List.length (filter (staff_is s) rows) <= 1)%nat.
Proof.
  induction rows as [|r rows IH]; [cbn; lia|].
  cbn [staff_distinct filter].
  destruct (staff r) as [sr|] eqn:Hsr; [|discriminate].
  rewrite andb_true_iff, negb_true_iff. intros [Hfresh Hrest].
  destruct (staff_is s r) eqn:E; [|exact (IH Hrest)].
  apply staff_is_true in E. assert (sr = s) by congruence. subst sr.
  assert (Hnone : filter (staff_is s) rows = []).
  { clear - Hfresh. induction rows as [|x l IH]; [reflexivity|].
    cbn [existsb filter] in *. apply orb_false_iff in Hfresh.
    destruct Hfresh as [Hx Hl]. rewrite Hx. exact (IH Hl). }
  cbn [List.length]. rewrite Hnone. cbn. lia.
Qed.

(** X6. Every constraint of the Head-of-Department table is an invariant
    of the views: on a table with distinct keys, one row per staff member,
    a start date in every row and at most one active row per department,
    any history of POST, PUT, PATCH and DELETE requests leaves a table with
    the same properties - in particular no staff member ever has two
    rows, so nobody heads two departments. *)
Theorem all_constraints_are_invariant db history :
  constraints_hold (hods db) = true ->
  constraints_hold (hods (serve_all history db)) = true
  /\ forall s,
       (List.length (filter (staff_is s) (hods (serve_all history db))) <= 1)%nat.
Proof.
  intros H.
  assert (Hafter : constraints_hold (hods (serve_all history db)) = true).
  { apply Lawful_constraints_hold.
    apply (generic_serve_all Lawful keeps_Lawful_deactivate
             keeps_Lawful_Model_save).
    apply constraints_hold_Lawful. exact H. }
  split; [exact Hafter|].
  intros s. apply staff_rows_at_most_one.
  unfold constraints_hold in Hafter. rewrite !andb_true_iff in Hafter.
  tauto.
Qed.

Lemma all_constraints_are_invariant_witness :
  constraints_hold
    (hods (serve_all
             [ (20 * Samples.day, Some Samples.principal,
                POST_hods (Samples.appointment 3 "EE"));
               (21 * Samples.day, Some Samples.principal,
                PATCH_hod 1 (mkAttrs (Some 2%Z) (Some "ME"%string) None None
                                     None None));
               (22 * Samples.day, Some Samples.lecturer, DELETE_hod 2) ]%Z
             Samples.college_with_head)) = true.
Proof.
  apply (all_constraints_are_invariant Samples.college_with_head).
  reflexivity.
Defined.

(** *** The role of the appointed *)

Lemma find_user_after_role_fix k l :
  find (user_pk_is k)
       (map (fun x => if user_pk_is k x then set_role "staff" x else x) l)
  = option_map (set_role "staff") (find (user_pk_is k) l).
Proof.
  induction l as [|x l IH]; [reflexivity|].
  cbn [map find]. destruct (user_pk_is k x) eqn:E.
  - unfold user_pk_is in *. cbn [set_role User.pk]. rewrite E. reflexivity.
  - rewrite E. exact IH.
Qed.

Lemma find_other_user_after_role_fix k j l :
  j <> k ->
  find (user_pk_is j)
       (map (fun x => if user_pk_is k x then set_role "staff" x else x) l)
  = find (user_pk_is j) l.
Proof.
  intros Hne. induction l as [|x l IH]; [reflexivity|].
  cbn [map find]. destruct (user_pk_is k x) eqn:E.
  - assert (Ej : user_pk_is j x = false).
    { unfold user_pk_is in *. destruct (User.pk x) as [p|]; [|reflexivity].
      apply Z.eqb_eq in E. subst p. apply Z.eqb_neq. congruence. }
    unfold user_pk_is at 1. cbn [set_role User.pk].
    fold (user_pk_is j x). rewrite Ej. exact IH.
  - destruct (user_pk_is j x); [reflexivity | exact IH].
Qed.

Lemma set_role_same u : User.role u = "staff"%string -> set_role "staff" u = u.
Proof. destruct u. cbn. intros ->. reflexivity. Qed.

Lemma Model_save_users now self db :
  users (snd (Model_save now self db)) = users db
  /\ Users.staff (snd (Model_save now self db)) = Users.staff db.
Proof.
  unfold Model_save, bind, read.
  destruct (constraint_error self _); [split; reflexivity|].
  destruct (pk self) as [k|]; [destruct (existsb (pk_is k) (hods db))|];
    split; reflexivity.
Qed.

(** X7. A successful [HeadOfDepartment.save] leaves the user of the row's
    staff member with the role 'staff', whatever the role was - an admin
    with a staff profile is an admin no longer - and with nothing else
    changed; the role of every other user is as before. *)
Theorem save_rewrites_the_role now self db h db' :
  HeadOfDepartment_save now self db = (inr h, db') ->
  exists s st u,
    staff self = Some s /\ find_staff s db = Some st
    /\ find_user (Staff.user st) db = Some u
    /\ find_user (Staff.user st) db' = Some (set_role "staff" u)
    /\ forall j, j <> Staff.user st -> find_user j db' = find_user j db.
Proof.
  intros H. unfold HeadOfDepartment_save in H.
  apply bind_returns in H. destruct H as [[] [db1 [H1 H]]].
  apply bind_returns in H. destruct H as [self1 [db2 [H2 H]]].
  apply bind_returns in H. destruct H as [[] [db3 [H3 H]]].
  assert (E1 : users db1 = users db /\ Users.staff db1 = Users.staff db).
  { destruct (is_active self && Py.is_none (pk self)).
    - unfold deactivate_active, bind, read, write_hods in H1.
      injection H1 as <-. split; reflexivity.
    - injection H1 as <-. split; reflexivity. }
  assert (E2 : staff self1 = staff self /\ db2 = db1).
  { destruct (negb (is_active self) && Py.is_none (end_date self)).
    - discriminate H2.
    - injection H2 as <- <-. auto. }
  destruct E1 as [Eu1 Es1]. destruct E2 as [Est ->].
  pose proof (Model_save_users now self1 db3) as [Eu4 _]. rewrite H in Eu4.
  cbn [snd] in Eu4.
  unfold ensure_staff_role, related_staff, related_user, bind, read in H3.
  cbv beta iota in H3.
  destruct (staff self1) as [s|] eqn:Hs; [|discriminate].
  destruct (find_staff s db1) as [st|] eqn:Hst; [|discriminate].
  cbv beta iota delta [ret] in H3.
  destruct (find_user (Staff.user st) db1) as [u|] eqn:Hu; [|discriminate].
  cbv beta iota in H3.
  exists s, st, u.
  assert (Hst0 : find_staff s db = Some st)
    by (unfold find_staff in *; rewrite <- Es1; exact Hst).
  assert (Hu0 : find_user (Staff.user st) db = Some u)
    by (unfold find_user in *; rewrite <- Eu1; exact Hu).
  split; [congruence|]. split; [exact Hst0|]. split; [exact Hu0|].
  destruct (negb (String.eqb (User.role u) "staff")) eqn:Hrole.
  - unfold write_users in H3. injection H3 as <-. cbn [users] in Eu4.
    unfold find_user. rewrite Eu4. split.
    + rewrite find_user_after_role_fix. unfold find_user in Hu.
      rewrite Hu. reflexivity.
    + intros j Hj. rewrite (find_other_user_after_role_fix _ j _ Hj).
      rewrite Eu1. reflexivity.
  - injection H3 as <-. apply negb_false_iff, String.eqb_eq in Hrole.
    unfold find_user in *. rewrite Eu4, Eu1. split.
    + rewrite (set_role_same u Hrole). rewrite <- Eu1. exact Hu.
    + reflexivity.
Qed.

Lemma save_rewrites_the_role_witness :
  option_map User.role
    (find_user 1
       (snd (HeadOfDepartment_save (20 * Samples.day)
               (mk None (Some 1%Z) "IT" (Some 10%Z) None true None 0 0)
               (mkDB (users Samples.college)
                     (Staff.mk 1 "S000" None None None 0
                        :: Users.staff Samples.college) []))))
  = Some "staff"%string.
Proof.
  assert (E : HeadOfDepartment_save (20 * Samples.day)
                (mk None (Some 1%Z) "IT" (Some 10%Z) None true None 0 0)
                (mkDB (users Samples.college)
                      (Staff.mk 1 "S000" None None None 0
                         :: Users.staff Samples.college) [])
              = (inr (mk (Some 1%Z) (Some 1%Z) "IT" (Some 10%Z) None true None
                         (20 * Samples.day) (20 * Samples.day)),
                 snd (HeadOfDepartment_save (20 * Samples.day)
                        (mk None (Some 1%Z) "IT" (Some 10%Z) None true None 0 0)
                        (mkDB (users Samples.college)
                              (Staff.mk 1 "S000" None None None 0
                                 :: Users.staff Samples.college) []))))
    by (vm_compute; reflexivity).
  remember (snd (HeadOfDepartment_save (20 * Samples.day)
                   (mk None (Some 1%Z) "IT" (Some 10%Z) None true None 0 0)
                   (mkDB (users Samples.college)
                         (Staff.mk 1 "S000" None None None 0
                            :: Users.staff Samples.college) []))) as db'.
  destruct (save_rewrites_the_role _ _ _ _ _ E)
    as [s [st [u [Hs [Hst [_ [Hu _]]]]]]].
  cbn [staff] in Hs. injection Hs as <-.
  vm_compute in Hst. injection Hst as <-. cbn [Staff.user] in Hu.
  rewrite Hu. reflexivity.
Defined.

End HodFacts.

(** ** Accounts: registration and login *)

Module AccountFacts.
Import Users Accounts Invariants UsersFacts HodFacts.

(** X8. The three outcomes of [register_view]. A body the serializer
    refuses is answered 400 with its errors; an accepted body whose
    normalised email is in use is answered 500 (the INSERT fails after the
    serializer's own uniqueness check passed on the spelling as sent); and
    otherwise the answer is 201 and one user is appended, with the role as
    sent, [is_staff] exactly for the roles 'admin' and 'staff', the hashed
    password, active. In the first two cases the tables are as before, and
    in no case does the caller matter. *)
Theorem register_view_outcomes env now caller d db :
  (forall errors,
     UserRegistrationSerializer_is_valid env d db = inl errors ->
     run_view (register_view env now caller d) db
     = (Response 400 (Errors errors), db)) /\
  (forall vd,
     UserRegistrationSerializer_is_valid env d db = inr vd ->
     email_taken (normalize_email env (v_email vd)) (users db) = true ->
     run_view (register_view env now caller d) db
     = (ServerError (Py.IntegrityError "UNIQUE users.email"), db)) /\
  (forall vd,
     UserRegistrationSerializer_is_valid env d db = inr vd ->
     email_taken (normalize_email env (v_email vd)) (users db) = false ->
     let u := User.mk (Some (users_next_pk (users db)))
                      (normalize_email env (v_email vd)) (v_first_name vd)
                      (v_last_name vd) (v_role vd) true
                      (Py.str_in (v_role vd) ["admin"; "staff"]%string) false
                      (make_password env (v_password vd)) now now in
     run_view (register_view env now caller d) db
     = (Response 201 (Registered u (fst (for_user env u)) (snd (for_user env u))),
        mkDB (users db ++ [u]) (Users.staff db) (hods db))
     /\ Py.str_in (v_role vd) ROLE_CHOICES = true).
Proof.
  split; [|split].
  - intros errors Hv. unfold register_view. cbn [AllowAny negb].
    rewrite run_view_bind. cbn [read]. rewrite Hv. reflexivity.
  - intros vd Hv Htaken.
    destruct (registration_valid_email env d db vd Hv) as [Hemail _].
    unfold register_view. cbn [AllowAny negb].
    rewrite run_view_bind. cbn [read]. rewrite Hv, run_view_bind.
    unfold UserRegistrationSerializer_create, create_user.
    rewrite Hemail. cbn [negb]. unfold bind, read. rewrite Htaken.
    reflexivity.
  - intros vd Hv Hfree u.
    destruct (registration_valid_email env d db vd Hv) as [Hemail [Hrole _]].
    split; [|exact Hrole].
    unfold register_view. cbn [AllowAny negb].
    rewrite run_view_bind. cbn [read]. rewrite Hv, run_view_bind.
    unfold UserRegistrationSerializer_create, create_user.
    rewrite Hemail. cbn [negb]. unfold bind at 1. cbn [read].
    rewrite Hfree. reflexivity.
Qed.

Lemma register_view_outcomes_witness :
  run_view (register_view Samples.plain_auth 5000 None
              (mkRegistration (Some "lee@college.example"%string)
                              (Some "Lee"%string) (Some "Twin"%string)
                              (Some "student"%string)
                              (Some "correct horse"%string)
                              (Some "correct horse"%string)))
           Samples.college
  = (Response 400 (Errors ["email: user with this email already exists."%string]),
     Samples.college).
Proof.
  apply (proj1 (register_view_outcomes Samples.plain_auth 5000 None
                  (mkRegistration (Some "lee@college.example"%string)
                                  (Some "Lee"%string) (Some "Twin"%string)
                                  (Some "student"%string)
                                  (Some "correct horse"%string)
                                  (Some "correct horse"%string))
                  Samples.college)).
  reflexivity.
Defined.

Lemma registration_valid_fresh env d db vd :
  UserRegistrationSerializer_is_valid env d db = inr vd ->
  email_taken (v_email vd) (users db) = false.
Proof.
  unfold UserRegistrationSerializer_is_valid.
  destruct (char_field "email" _ _) as [?|email]; [discriminate|].
  destruct (char_field "first_name" _ _) as [?|fn]; [discriminate|].
  destruct (char_field "last_name" _ _) as [?|ln]; [discriminate|].
  destruct (r_role d) as [role|]; [|discriminate].
  destruct (char_field "password" _ _) as [?|pw]; [discriminate|].
  destruct (char_field "password2" _ _) as [?|pw2]; [discriminate|].
  destruct (email_format_ok env email); cbn [negb]; [|discriminate].
  destruct (email_taken email (users db)) eqn:E; [discriminate|].
  destruct (Py.str_in role ROLE_CHOICES); cbn [negb]; [|discriminate].
  destruct (validate_password env pw); cbn [negb]; [|discriminate].
  destruct (String.eqb pw pw2); cbn [negb]; [|discriminate].
  intros [= <-]. exact E.
Qed.

Lemma users_with_email_none e db :
  email_taken e (users db) = false -> users_with_email e db = [].
Proof.
  unfold email_taken, users_with_email.
  induction (users db) as [|x l IH]; [reflexivity|].
  cbn [existsb filter]. rewrite orb_false_iff. intros [Hx Hl].
  rewrite Hx. exact (IH Hl).
Qed.

(** X9. How [login_view] decides, for credentials that pass the
    serializer. Tokens are issued exactly when one user has that e-mail,
    is active and the password checks. A disabled account is answered 403
    before the password is looked at, so whatever the password. An unknown
    e-mail and a wrong password get the very same 401. *)
Theorem login_view_decisions env check c db email password :
  LoginSerializer_is_valid env c = inr (email, password) ->
  (forall status message u refresh access,
     login_view env check c db = Tokens status message u refresh access <->
     users_with_email email db = [u] /\ User.is_active u = true
     /\ check password (User.password u) = true
     /\ status = 200%Z /\ message = "Login successful"%string
     /\ refresh = fst (for_user env u) /\ access = snd (for_user env u)) /\
  (forall u check',
     users_with_email email db = [u] -> User.is_active u = false ->
     login_view env check' c db = Refusal 403 "User account is disabled.") /\
  (forall u,
     users_with_email email db = []
     \/ (users_with_email email db = [u] /\ User.is_active u = true
         /\ check password (User.password u) = false) ->
     login_view env check c db = Refusal 401 "Invalid email or password.").
Proof.
  intros Hv. split; [|split].
  - intros status message u refresh access. unfold login_view. rewrite Hv.
    destruct (users_with_email email db) as [|x [|y l]].
    + split; [discriminate | intros [H _]; discriminate].
    + destruct (User.is_active x) eqn:Ha; cbn [negb].
      * destruct (check password (User.password x)) eqn:Hc; cbn [negb].
        -- split.
           ++ intros [= <- <- <- <- <-]. repeat split; assumption.
           ++ intros [[= ->] [_ [_ [-> [-> [-> ->]]]]]]. reflexivity.
        -- split; [discriminate|].
           intros [[= ->] [_ [Hc' _]]]. congruence.
      * split; [discriminate|]. intros [[= ->] [Ha' _]]. congruence.
    + split; [discriminate | intros [H _]; discriminate].
  - intros u check' Hu Ha. unfold login_view. rewrite Hv, Hu, Ha.
    reflexivity.
  - intros u [Hnone | [Hu [Ha Hc]]]; unfold login_view; rewrite Hv.
    + rewrite Hnone. reflexivity.
    + rewrite Hu, Ha, Hc. reflexivity.
Qed.

Lemma login_view_decisions_witness :
  login_view Samples.plain_auth (fun raw stored => String.eqb stored "pbkdf2$b")
    (mkCredentials (Some "nobody@college.example"%string) (Some "guess"%string))
    Samples.college
  = Refusal 401 "Invalid email or password.".
Proof.
  apply (proj2 (proj2 (login_view_decisions Samples.plain_auth
                         (fun raw stored => String.eqb stored "pbkdf2$b")
                         (mkCredentials (Some "nobody@college.example"%string)
                                        (Some "guess"%string))
                         Samples.college "nobody@college.example" "guess"
                         eq_refl)) Samples.pupil).
  left. reflexivity.
Defined.

(** X10. Registration, then login. After a registration answered 201, a
    login with the e-mail and password that the registration validated is
    answered 200 with tokens for the new user - provided the hasher
    recognises its own hash and normalisation left the e-mail as it was.
    If normalisation changed the spelling, the e-mail as registered is not
    the one stored, and the same login is answered 401. (The table compares
    e-mails exactly.) *)
Theorem register_then_login env check now caller d db vd c :
  UserRegistrationSerializer_is_valid env d db = inr vd ->
  email_taken (normalize_email env (v_email vd)) (users db) = false ->
  LoginSerializer_is_valid env c = inr (v_email vd, v_password vd) ->
  check (v_password vd) (make_password env (v_password vd)) = true ->
  let after := snd (run_view (register_view env now caller d) db) in
  exists u,
    fst (run_view (register_view env now caller d) db)
    = Response 201 (Registered u (fst (for_user env u)) (snd (for_user env u)))
    /\ (normalize_email env (v_email vd) = v_email vd ->
        login_view env check c after
        = Tokens 200 "Login successful" u (fst (for_user env u))
                 (snd (for_user env u)))
    /\ (normalize_email env (v_email vd) <> v_email vd ->
        login_view env check c after
        = Refusal 401 "Invalid email or password.").
Proof.
  intros Hv Hfree Hlogin Hcheck after.
  destruct (proj2 (proj2 (register_view_outcomes env now caller d db))
              vd Hv Hfree) as [Hrun _].
  cbv zeta in Hrun. subst after. rewrite Hrun. cbn [fst snd].
  eexists. split; [reflexivity|].
  pose proof (users_with_email_none _ _ (registration_valid_fresh env d db vd Hv))
    as Hnone.
  assert (Hfilter : forall u,
            users_with_email (v_email vd)
              (mkDB (users db ++ [u]) (Users.staff db) (hods db))
            = if String.eqb (User.email u) (v_email vd) then [u] else []).
  { intros u. unfold users_with_email in *. cbn [users].
    rewrite filter_app, Hnone. cbn [filter app].
    destruct (String.eqb (User.email u) (v_email vd)); reflexivity. }
  split.
  - intros Hsame. unfold login_view. rewrite Hlogin, Hfilter.
    cbn [User.email]. rewrite Hsame, String.eqb_refl.
    cbn [User.is_active User.password negb]. rewrite Hcheck. reflexivity.
  - intros Hdiff. unfold login_view. rewrite Hlogin, Hfilter.
    cbn [User.email]. apply String.eqb_neq in Hdiff. rewrite Hdiff.
    reflexivity.
Qed.

Lemma register_then_login_witness :
  exists u,
    login_view Samples.plain_auth
      (fun raw stored => String.eqb stored (String.append "hash$" raw))
      (mkCredentials (Some "eve@college.example"%string)
                     (Some "correct horse"%string))
      (snd (run_view (register_view Samples.plain_auth 5000 None
                        (mkRegistration (Some "eve@college.example"%string)
                                        (Some "Eve"%string) (Some "Moss"%string)
                                        (Some "student"%string)
                                        (Some "correct horse"%string)
                                        (Some "correct horse"%string)))
                     Samples.college))
    = Tokens 200 "Login successful" u
             (fst (for_user Samples.plain_auth u))
             (snd (for_user Samples.plain_auth u)).
Proof.
  destruct (register_then_login Samples.plain_auth
              (fun raw stored => String.eqb stored (String.append "hash$" raw))
              5000 None
              (mkRegistration (Some "eve@college.example"%string)
                              (Some "Eve"%string) (Some "Moss"%string)
                              (Some "student"%string)
                              (Some "correct horse"%string)
                              (Some "correct horse"%string))
              Samples.college
              (mkRegistrationData "eve@college.example" "Eve" "Moss" "student"
                                  "correct horse" "correct horse")
              (mkCredentials (Some "eve@college.example"%string)
                             (Some "correct horse"%string))
              eq_refl eq_refl eq_refl eq_refl) as [u [_ [H _]]].
  exists u. apply H. reflexivity.
Defined.

End AccountFacts.

(** ** Notices: who sees what, and what the views accept *)

Module NoticeViewFacts.
Import Notices NoticeViews NoticesFacts.

Lemma In_insert_by_created x y l :
  In x (insert_by_created y l) <-> x = y \/ In x l.
Proof.
  induction l as [|z l IH]; cbn [insert_by_created].
  - cbn. intuition.
  - destruct (created_at z <=? created_at y)%Z; cbn [In];
      [intuition | rewrite IH; intuition].
Qed.

Lemma In_newest_first x l : In x (newest_first l) <-> In x l.
Proof.
  unfold newest_first. induction l as [|y l IH]; [reflexivity|].
  cbn [fold_right In]. rewrite In_insert_by_created, IH. intuition.
Qed.

Lemma length_insert_by_created y l :
  List.length (insert_by_created y l) = S (List.length l).
Proof.
  induction l as [|z l IH]; [reflexivity|].
  cbn [insert_by_created]. destruct (created_at z <=? created_at y)%Z;
    cbn [List.length]; [reflexivity | now rewrite IH].
Qed.

Lemma length_newest_first l : List.length (newest_first l) = List.length l.
Proof.
  unfold newest_first. induction l as [|y l IH]; [reflexivity|].
  cbn [fold_right]. rewrite length_insert_by_created, IH. reflexivity.
Qed.

(** X11. What a student sees. The list holds exactly the notices whose
    audience is 'all'; a notice asked for by its key is refused exactly
    when its audience is 'staff'. So every listed notice can be fetched,
    but a notice whose audience is neither value (an unset audience) is
    served by key although it is never listed. Admin and staff are listed
    every notice and refused none. *)
Theorem what_students_see u rows :
  Users.User.role u = "student"%string ->
  (exists l,
     list_notices_view (Some u) rows
     = Response 200 (NoticeList (Z.of_nat (List.length l)) l)
     /\ (forall n, In n l <-> In n rows /\ audience n = "all"%string)
     /\ List.length l
        = List.length (filter (fun n => String.eqb (audience n) "all") rows)) /\
  (forall id n,
     get id rows = Some n ->
     notice_detail_view (Some u) id rows
     = if String.eqb (audience n) "staff"
       then Response 403 (Error "You do not have permission to view this notice.")
       else Response 200 (NoticeData n)) /\
  (forall id n,
     get id rows = Some n ->
     audience n <> "staff"%string -> audience n <> "all"%string ->
     notice_detail_view (Some u) id rows = Response 200 (NoticeData n)
     /\ forall l count,
          list_notices_view (Some u) rows = Response 200 (NoticeList count l) ->
          ~ In n l) /\
  (forall v,
     Users.User.role v = "admin"%string \/ Users.User.role v = "staff"%string ->
     (exists l,
        list_notices_view (Some v) rows
        = Response 200 (NoticeList (Z.of_nat (List.length rows)) l)
        /\ forall n, In n l <-> In n rows)
     /\ forall id n,
          get id rows = Some n ->
          notice_detail_view (Some v) id rows = Response 200 (NoticeData n)).
Proof.
  intros Hrole.
  assert (Hlist : list_notices_view (Some u) rows
                  = Response 200
                      (NoticeList
                         (Z.of_nat (List.length
                            (newest_first
                               (filter (fun n => String.eqb (audience n) "all")
                                       rows))))
                         (newest_first
                            (filter (fun n => String.eqb (audience n) "all")
                                    rows)))).
  { unfold list_notices_view. rewrite Hrole. reflexivity. }
  assert (Hmem : forall n,
            In n (newest_first
                    (filter (fun n => String.eqb (audience n) "all") rows))
            <-> In n rows /\ audience n = "all"%string).
  { intros n. rewrite In_newest_first, filter_In, String.eqb_eq. reflexivity. }
  assert (Hdetail : forall id n,
            get id rows = Some n ->
            notice_detail_view (Some u) id rows
            = if String.eqb (audience n) "staff"
              then Response 403
                     (Error "You do not have permission to view this notice.")
              else Response 200 (NoticeData n)).
  { intros id n Hget. unfold notice_detail_view. rewrite Hget, Hrole.
    cbn [String.eqb Ascii.eqb Bool.eqb andb]. rewrite andb_true_r.
    reflexivity. }
  split; [|split; [|split]].
  - eexists. split; [exact Hlist|]. split; [exact Hmem|].
    apply length_newest_first.
  - exact Hdetail.
  - intros id n Hget Hstaff Hall. split.
    + rewrite (Hdetail id n Hget). apply String.eqb_neq in Hstaff.
      rewrite Hstaff. reflexivity.
    + intros l count Hl. rewrite Hlist in Hl. injection Hl as _ <-.
      intros Hin. apply Hmem in Hin. tauto.
  - intros v Hv. split.
    + exists (newest_first rows). split.
      * unfold list_notices_view.
        assert (E : String.eqb (Users.User.role v) "admin"
                    || String.eqb (Users.User.role v) "staff" = true)
          by (destruct Hv as [-> | ->]; reflexivity).
        rewrite E, length_newest_first. reflexivity.
      * intros n. apply In_newest_first.
    + intros id n Hget. unfold notice_detail_view. rewrite Hget.
      assert (E : String.eqb (Users.User.role v) "student" = false)
        by (destruct Hv as [-> | ->]; reflexivity).
      rewrite E, andb_false_r. reflexivity.
Qed.

Lemma what_students_see_witness :
  notice_detail_view (Some Samples.pupil) 1
    [mkNotice (Some 1%Z) "Lost and found" "" (Some "Umbrella"%string) None None
              None (Some 2%Z) "normal" None 10 10]
  = Response 200
      (NoticeData (mkNotice (Some 1%Z) "Lost and found" "" (Some "Umbrella"%string)
                            None None None (Some 2%Z) "normal" None 10 10)).
Proof.
  apply (proj1 (proj1 (proj2 (proj2 (what_students_see Samples.pupil
           [mkNotice (Some 1%Z) "Lost and found" "" (Some "Umbrella"%string)
                     None None None (Some 2%Z) "normal" None 10 10]
           eq_refl))) 1%Z _ eq_refl ltac:(discriminate) ltac:(discriminate))).
Defined.

(** X12. An update that brings neither a title nor a content is refused,
    whatever the stored notice holds: [validate] looks at the request
    only. An admin's PATCH of, say, the priority alone is answered 400 and
    the table is untouched; the same for a PUT. *)
Theorem update_needs_title_or_content now u m id a rows notice :
  Users.User.role u = "admin"%string ->
  m <> DELETE ->
  get id rows = Some notice ->
  field_errors (match m with PATCH => true | _ => false end) a = [] ->
  Py.truthy_opt (get_text (blank_to_none (a_title a))) = false ->
  Py.truthy_opt (get_text (blank_to_none (a_content a))) = false ->
  manage_notice_view now (Some u) m id a rows
  = (Response 400 (Errors ["Either title or content must be provided."%string]),
     rows).
Proof.
  intros Hrole Hm Hget Hfields Ht Hc. unfold manage_notice_view.
  rewrite Hrole, Hget. cbn [String.eqb Ascii.eqb Bool.eqb negb].
  destruct m; try contradiction;
    unfold is_valid; rewrite Hfields; unfold validate; rewrite Ht, Hc;
    reflexivity.
Qed.

Lemma update_needs_title_or_content_witness :
  manage_notice_view 500 (Some Samples.principal) PATCH 1
    (mkAttrs None None None None None None (Some "urgent"%string) None)
    [mkNotice (Some 1%Z) "Events" "all" (Some "Sports day"%string) None None
              None (Some 2%Z) "normal" None 10 10]
  = (Response 400 (Errors ["Either title or content must be provided."%string]),
     [mkNotice (Some 1%Z) "Events" "all" (Some "Sports day"%string) None None
               None (Some 2%Z) "normal" None 10 10]).
Proof.
  apply (update_needs_title_or_content 500 Samples.principal PATCH 1%Z
           (mkAttrs None None None None None None (Some "urgent"%string) None)
           _ (mkNotice (Some 1%Z) "Events" "all" (Some "Sports day"%string) None
                       None None (Some 2%Z) "normal" None 10 10));
    first [reflexivity | discriminate].
Defined.


Lemma is_valid_inr p a vd :
  is_valid p a = inr vd -> field_errors p a = [] /\ validate a = inr vd.
Proof.
  unfold is_valid. destruct (field_errors p a); [|discriminate].
  destruct (validate a) as [[]|v]; try discriminate.
  intros H. injection H as <-. split; reflexivity.
Qed.

Lemma validate_inr a vd :
  validate a = inr vd ->
  vd = mkAttrs (a_category a)
               (validate_audience (a_category a) (a_audience a))
               (blank_to_none (a_title a)) (blank_to_none (a_content a))
               (a_date a) (a_datetime a) (a_priority a) (a_expiry_date a)
  /\ (Py.truthy_opt (get_text (blank_to_none (a_title a))) = true
      \/ Py.truthy_opt (get_text (blank_to_none (a_content a))) = true).
Proof.
  unfold validate.
  destruct (Py.truthy_opt (get_text (blank_to_none (a_title a)))),
           (Py.truthy_opt (get_text (blank_to_none (a_content a))));
    cbn [negb andb]; try discriminate;
    intros H; injection H as <-; split; auto.
Qed.

Lemma field_errors_nil p a :
  field_errors p a = [] ->
  (match a_category a with
   | Some c => Py.str_in c CATEGORY_CHOICES = true
   | None => p = true
   end)
  /\ (match a_audience a with
      | Some v => Py.str_in v AUDIENCE_CHOICES = true
      | None => p = true
      end).
Proof.
  unfold field_errors. intros H.
  apply app_eq_nil in H as [Hc H]. apply app_eq_nil in H as [Ha _].
  split.
  - destruct (a_category a) as [c|].
    + destruct (Py.str_in c CATEGORY_CHOICES); [reflexivity | discriminate].
    + destruct p; [reflexivity | discriminate].
  - destruct (a_audience a) as [v|].
    + destruct (Py.str_in v AUDIENCE_CHOICES); [reflexivity | discriminate].
    + destruct p; [reflexivity | discriminate].
Qed.

Lemma audience_choice v :
  Py.str_in v AUDIENCE_CHOICES = true -> v = "staff"%string \/ v = "all"%string.
Proof.
  unfold Py.str_in, AUDIENCE_CHOICES. cbn [existsb]. intros H.
  apply orb_true_iff in H as [H|H].
  - left. apply String.eqb_eq in H. congruence.
  - apply orb_true_iff in H as [H|H]; [|discriminate].
    right. apply String.eqb_eq in H. congruence.
Qed.

Lemma validate_audience_given c v :
  Py.str_in v AUDIENCE_CHOICES = true ->
  validate_audience c (Some v) = Some v.
Proof.
  intros H. unfold validate_audience.
  destruct (Py.truthy_opt c); [|reflexivity].
  destruct (audience_choice v H) as [-> | ->]; reflexivity.
Qed.

Lemma derive_audience_given n :
  Py.str_in (audience n) AUDIENCE_CHOICES = true -> derive_audience n = n.
Proof.
  intros H. unfold derive_audience.
  destruct (audience_choice _ H) as [E | E]; rewrite E; reflexivity.
Qed.

(** X13. A notice created through the view carries the audience the
    request sent: the field is required, so neither the serializer nor
    [Notice.save] derives it from the category. The row is appended with a
    fresh key, stamped with the time of the call and posted by the caller,
    who is an admin or a staff member; it has a title or a content. *)
Theorem created_notice_keeps_the_audience_sent now u a rows n rows' :
  create_notice_view now (Some u) a rows = (Response 201 (Created n), rows') ->
  Py.str_in (Users.User.role u) ["admin"; "staff"]%string = true
  /\ a_audience a = Some (audience n)
  /\ a_category a = Some (category n)
  /\ Py.str_in (audience n) AUDIENCE_CHOICES = true
  /\ Py.str_in (category n) CATEGORY_CHOICES = true
  /\ posted_by n = Users.User.pk u
  /\ pk n = Some (next_pk rows)
  /\ created_at n = now
  /\ rows' = rows ++ [n]
  /\ (Py.truthy_opt (title n) = true \/ Py.truthy_opt (content n) = true).
Proof.
  unfold create_notice_view.
  destruct (Py.str_in (Users.User.role u) ["admin"; "staff"]%string) eqn:Hrole;
    cbn [negb]; [|discriminate].
  destruct (is_valid false a) as [errors|vd] eqn:Hvalid; [discriminate|].
  apply is_valid_inr in Hvalid as [Hfields Hvalidate].
  apply validate_inr in Hvalidate as [-> Htext].
  apply field_errors_nil in Hfields as [Hc Ha].
  destruct (a_category a) as [c|] eqn:Ec; [|discriminate].
  destruct (a_audience a) as [v|] eqn:Ea; [|discriminate].
  rewrite (validate_audience_given (Some c) v Ha).
  unfold save. rewrite derive_audience_given by exact Ha.
  unfold Model_save. cbn. intros H. injection H as <- <-. cbn.
  repeat split; auto.
Qed.

Lemma created_notice_keeps_the_audience_sent_witness :
  a_audience (mkAttrs (Some "Staff Meeting"%string) (Some "all"%string)
                      (Some (Some "Budget"%string)) None None None None None)
  = Some "all"%string
  /\ exists n rows',
       create_notice_view 500 (Some Samples.lecturer)
         (mkAttrs (Some "Staff Meeting"%string) (Some "all"%string)
                  (Some (Some "Budget"%string)) None None None None None) []
       = (Response 201 (Created n), rows')
       /\ audience n = "all"%string
       /\ rows' = [n].
Proof.
  split; [reflexivity|].
  do 2 eexists.
  assert (E : create_notice_view 500 (Some Samples.lecturer)
                (mkAttrs (Some "Staff Meeting"%string) (Some "all"%string)
                         (Some (Some "Budget"%string)) None None None None None)
                []
              = (Response 201
                   (Created (fst (save 500
                      (apply_attrs
                         (mkAttrs (Some "Staff Meeting"%string)
                                  (Some "all"%string)
                                  (Some (Some "Budget"%string)) None None None
                                  None None)
                         (blank_instance (Users.User.pk Samples.lecturer)))
                      []))),
                 snd (save 500
                      (apply_attrs
                         (mkAttrs (Some "Staff Meeting"%string)
                                  (Some "all"%string)
                                  (Some (Some "Budget"%string)) None None None
                                  None None)
                         (blank_instance (Users.User.pk Samples.lecturer)))
                      [])))
    by (vm_compute; reflexivity).
  split; [exact E|].
  pose proof (created_notice_keeps_the_audience_sent _ _ _ _ _ _ E) as P.
  destruct P as (_ & Ha & _ & _ & _ & _ & _ & _ & Hrows & _).
  split; [|exact Hrows].
  cbn [a_audience] in Ha. congruence.
Defined.


Lemma str_in_cases x l : Py.str_in x l = true -> In x l.
Proof.
  unfold Py.str_in. intros H. apply existsb_exists in H as (y & Hy & E).
  apply String.eqb_eq in E. congruence.
Qed.

Lemma staff_category_not_for_all c :
  Py.str_in c staff_categories = true ->
  Py.str_in c all_users_categories = false.
Proof.
  intros H. apply str_in_cases in H. unfold staff_categories in H.
  cbn [In] in H.
  repeat (destruct H as [<- | H]; [reflexivity|]). contradiction.
Qed.

Lemma categories_split c :
  Py.str_in c CATEGORY_CHOICES
  = Py.str_in c staff_categories || Py.str_in c all_users_categories.
Proof.
  change CATEGORY_CHOICES with (staff_categories ++ all_users_categories).
  unfold Py.str_in. apply existsb_app.
Qed.

Lemma categories_partition c :
  Py.str_in c CATEGORY_CHOICES
  = xorb (Py.str_in c staff_categories) (Py.str_in c all_users_categories).
Proof.
  rewrite categories_split.
  destruct (Py.str_in c staff_categories) eqn:Hs.
  - rewrite (staff_category_not_for_all c Hs). reflexivity.
  - destruct (Py.str_in c all_users_categories); reflexivity.
Qed.



Lemma pk_derive_audience n : pk (derive_audience n) = pk n.
Proof.
  unfold derive_audience.
  destruct (negb (Py.truthy (audience n))); [|reflexivity].
  destruct (Py.str_in (category n) staff_categories); [reflexivity|].
  destruct (Py.str_in (category n) all_users_categories); reflexivity.
Qed.


Lemma created_at_derive_audience n :
  created_at (derive_audience n) = created_at n.
Proof.
  unfold derive_audience.
  destruct (negb (Py.truthy (audience n))); [|reflexivity].
  destruct (Py.str_in (category n) staff_categories); [reflexivity|].
  destruct (Py.str_in (category n) all_users_categories); reflexivity.
Qed.



(** X15. The category choices are exactly the staff categories and the
    all-users categories, and no category is in both. So saving a notice
    with a valid category always leaves it with an audience: the one it
    had, or the one of its category when it had none. *)
Theorem valid_category_always_gets_an_audience now n rows :
  Py.str_in (category n) CATEGORY_CHOICES = true ->
  (forall c, Py.str_in c CATEGORY_CHOICES
             = xorb (Py.str_in c staff_categories)
                    (Py.str_in c all_users_categories))
  /\ audience (fst (save now n rows))
     = (if Py.truthy (audience n) then audience n
        else if Py.str_in (category n) staff_categories then "staff"
             else "all")%string
  /\ Py.truthy (audience (fst (save now n rows))) = true.
Proof.
  intros Hcat. split; [exact categories_partition|].
  assert (Haud : audience (fst (save now n rows)) = audience (derive_audience n)).
  { unfold save, Model_save. rewrite pk_derive_audience.
    destruct (pk n) as [k|]; [|reflexivity].
    destruct (existsb (pk_is k) rows); reflexivity. }
  rewrite Haud. rewrite categories_split in Hcat. unfold derive_audience.
  destruct (Py.truthy (audience n)) eqn:Ht; cbn [negb].
  - split; [reflexivity | exact Ht].
  - destruct (Py.str_in (category n) staff_categories);
      [split; reflexivity|].
    cbn [orb] in Hcat. rewrite Hcat. split; reflexivity.
Qed.

Lemma valid_category_always_gets_an_audience_witness :
  audience (fst (save 500 (mkNotice None "Exam Timetable" "" None None None None
                                    None "normal" None 0 0) []))
  = "all"%string.
Proof.
  apply (proj1 (proj2 (valid_category_always_gets_an_audience 500
           (mkNotice None "Exam Timetable" "" None None None None None "normal"
                     None 0 0) [] eq_refl))).
Defined.

(** X16. Deleting a notice. An admin's DELETE of a stored notice removes
    every row with that key and no other: afterwards the key is not found
    (the detail view answers 404) and every other key reads as before.
    Nobody else deletes: a staff member or a student is answered 403 and
    the table is untouched, also for a notice the caller posted. *)
Theorem delete_removes_only_that_notice now u id a rows notice :
  get id rows = Some notice ->
  (Users.User.role u = "admin"%string ->
   exists rows',
     manage_notice_view now (Some u) DELETE id a rows
     = (Response 204 (Message "Notice deleted successfully"), rows')
     /\ get id rows' = None
     /\ (forall v, notice_detail_view (Some v) id rows'
                   = Response 404 (Error "Notice not found."))
     /\ (forall j, j <> id -> get j rows' = get j rows)
     /\ (forall n, In n rows' <-> In n rows /\ pk n <> Some id))
  /\ (Users.User.role u <> "admin"%string ->
      forall m, manage_notice_view now (Some u) m id a rows
                = (Response 403 (Error "Only admins can manage notices."), rows)).
Proof.
  intros Hget. split.
  - intros Hrole. unfold manage_notice_view.
    rewrite Hrole, Hget. cbn [String.eqb Ascii.eqb Bool.eqb negb].
    eexists. split; [reflexivity|].
    assert (Hgone : get id (filter (fun n => negb (pk_is id n)) rows) = None).
    { unfold get. clear Hget. induction rows as [|x rows IH]; [reflexivity|].
      cbn [filter]. destruct (pk_is id x) eqn:Hx; cbn [negb]; [exact IH|].
      cbn [find]. rewrite Hx. exact IH. }
    split; [exact Hgone|]. split.
    { intros v. unfold notice_detail_view. rewrite Hgone. reflexivity. }
    split.
    + intros j Hj. unfold get. clear Hget Hgone.
      induction rows as [|x rows IH]; [reflexivity|].
      cbn [filter find]. destruct (pk_is id x) eqn:Hx; cbn [negb].
      * assert (E : pk_is j x = false).
        { unfold pk_is in *. destruct (pk x) as [k|]; [|reflexivity].
          apply Z.eqb_eq in Hx. apply Z.eqb_neq. congruence. }
        rewrite E. exact IH.
      * cbn [find]. destruct (pk_is j x); [reflexivity | exact IH].
    + intros n. rewrite filter_In. unfold pk_is.
      destruct (pk n) as [k|].
      * destruct (Z.eqb_spec k id) as [-> | Hk]; cbn [negb].
        -- split; [intros [_ H]; discriminate | intros [_ H]; congruence].
        -- split; [intros [H _]; split; [exact H | congruence]
                  | intros [H _]; split; [exact H | reflexivity]].
      * cbn [negb]. split; [intros [H _]; split; [exact H | discriminate]
                           | intros [H _]; split; [exact H | reflexivity]].
  - intros Hrole m. unfold manage_notice_view.
    apply String.eqb_neq in Hrole. rewrite Hrole. reflexivity.
Qed.

Lemma delete_removes_only_that_notice_witness :
  exists rows',
    manage_notice_view 500 (Some Samples.principal) DELETE 1
      (mkAttrs None None None None None None None None)
      [mkNotice (Some 1%Z) "Events" "all" (Some "Sports day"%string) None None
                None (Some 2%Z) "normal" None 10 10;
       mkNotice (Some 2%Z) "Results" "all" (Some "Marks"%string) None None
                None (Some 2%Z) "normal" None 20 20]
    = (Response 204 (Message "Notice deleted successfully"), rows')
    /\ get 1 rows' = None.
Proof.
  destruct (proj1 (delete_removes_only_that_notice 500 Samples.principal 1%Z
              (mkAttrs None None None None None None None None)
              [mkNotice (Some 1%Z) "Events" "all" (Some "Sports day"%string) None
                        None None (Some 2%Z) "normal" None 10 10;
               mkNotice (Some 2%Z) "Results" "all" (Some "Marks"%string) None
                        None None (Some 2%Z) "normal" None 20 20]
              _ eq_refl) eq_refl) as (rows' & E & Hgone & _).
  exists rows'. split; [exact E | exact Hgone].
Defined.
End NoticeViewFacts.

(** ** Syllabus: the end of the code sequence, the syllabus upsert, the
    deletion of a subject and the subjects of a department *)

Module SyllabusViewFacts.
Import Syllabus SyllabusViews SyllabusFacts.

Local Notation "a +++ b" := (String.append a b)
  (at level 60, right associativity).

Lemma range_100 i : (1 <= i <= 100)%Z -> In i (map Z.of_nat (seq 1 100)).
Proof.
  intros H. apply in_map_iff. exists (Z.to_nat i).
  split; [lia | apply in_seq; lia].
Qed.

(** Among the suffixes 01 .. 99 the order of the strings is the order of
    the numbers; the suffix 100 sorts below 99. *)
Lemma suffix_order k i :
  (1 <= k <= 99)%Z ->
  (1 <= i <= k)%Z \/ (k = 99 /\ i = 100)%Z ->
  String.compare (Py.format_02d k) (Py.format_02d i) <> Lt
  /\ (String.compare (Py.format_02d i) (Py.format_02d k) <> Lt -> i = k).
Proof.
  intros Hk Hi.
  assert (H : forallb (fun k =>
                forallb (fun i =>
                  if ((k <=? 99) && ((i <=? k) || ((k =? 99) && (i =? 100))))%Z
                  then negb (match String.compare (Py.format_02d k)
                                                  (Py.format_02d i) with
                             | Lt => true
                             | _ => false
                             end)
                       && ((match String.compare (Py.format_02d i)
                                                 (Py.format_02d k) with
                            | Lt => true
                            | _ => false
                            end) || (i =? k)%Z)
                  else true)
                  (map Z.of_nat (seq 1 100)))
                (map Z.of_nat (seq 1 100)) = true)
    by (vm_compute; reflexivity).
  rewrite forallb_forall in H.
  specialize (H k (range_100 k ltac:(lia))). cbv beta in H.
  rewrite forallb_forall in H.
  specialize (H i (range_100 i ltac:(lia))). cbv beta in H.
  assert (E : ((k <=? 99) && ((i <=? k) || ((k =? 99) && (i =? 100))))%Z
              = true).
  { destruct Hi as [Hi | [-> ->]]; [|reflexivity].
    apply andb_true_iff. split; [apply Z.leb_le; lia|].
    apply orb_true_iff. left. apply Z.leb_le. lia. }
  rewrite E in H. apply andb_true_iff in H as [H1 H2]. split.
  - destruct (String.compare (Py.format_02d k) (Py.format_02d i));
      [discriminate | discriminate H1 | discriminate].
  - intros Hc.
    destruct (String.compare (Py.format_02d i) (Py.format_02d k));
      cbn [orb] in H2; try (apply Z.eqb_eq; exact H2). contradiction.
Qed.

Lemma int_of_suffix k :
  (1 <= k <= 99)%Z -> Py.int (Py.format_02d k) = Some k.
Proof.
  intros Hk.
  assert (H : forallb (fun k => match Py.int (Py.format_02d k) with
                                | Some v => (v =? k)%Z
                                | None => false
                                end)
                      (map Z.of_nat (seq 1 100)) = true)
    by (vm_compute; reflexivity).
  rewrite forallb_forall in H.
  specialize (H k (range_100 k ltac:(lia))). cbv beta in H.
  destruct (Py.int (Py.format_02d k)) as [v|]; [|discriminate].
  apply Z.eqb_eq in H. congruence.
Qed.

Lemma suffix_starts_with_a_character k :
  (1 <= k <= 100)%Z -> exists c r, Py.format_02d k = String c r.
Proof.
  intros Hk.
  assert (H : forallb (fun k => match Py.format_02d k with
                                | String _ _ => true
                                | EmptyString => false
                                end)
                      (map Z.of_nat (seq 1 100)) = true)
    by (vm_compute; reflexivity).
  rewrite forallb_forall in H.
  specialize (H k (range_100 k Hk)). cbv beta in H.
  destruct (Py.format_02d k) as [|c r]; [discriminate | eauto].
Qed.

(** The row that [order_by('-subject_code').first()] picks carries the
    suffix [k] as soon as some row does and no row carries a later one. *)
Lemma first_by_code_desc_picks p k l :
  (1 <= k <= 99)%Z ->
  (forall r, In r l ->
     exists i, ((1 <= i <= k)%Z \/ (k = 99 /\ i = 100)%Z)
               /\ subject_code r = p +++ Py.format_02d i) ->
  l <> [] ->
  exists m, first_by_code_desc l = Some m /\ In m l
            /\ ((exists r, In r l /\ subject_code r = p +++ Py.format_02d k) ->
                subject_code m = p +++ Py.format_02d k).
Proof.
  intros Hk. induction l as [|r rest IH]; intros Hall Hne; [contradiction|].
  destruct rest as [|r' rest'].
  - exists r. cbn [first_by_code_desc]. split; [reflexivity|].
    split; [now left|]. intros (x & [<- | []] & Hx). exact Hx.
  - destruct IH as (m & Hm & Hin & Hmax);
      [intros x Hx; apply Hall; now right | discriminate |].
    change (first_by_code_desc (r :: r' :: rest'))
      with (match first_by_code_desc (r' :: rest') with
            | None => Some r
            | Some m =>
                match String.compare (subject_code r) (subject_code m) with
                | Lt => Some m
                | _ => Some r
                end
            end).
    rewrite Hm.
    destruct (Hall r (or_introl eq_refl)) as (i & Hi & Hr).
    destruct (Hall m (or_intror Hin)) as (j & Hj & Hmj).
    destruct (String.compare (subject_code r) (subject_code m)) eqn:Hcmp.
    + exists r. split; [reflexivity|]. split; [now left|].
      intros (x & [<- | Hx] & Hcode); [exact Hcode|].
      assert (Hmk : subject_code m = p +++ Py.format_02d k)
        by (apply Hmax; eauto).
      rewrite Hr, Hmk, compare_append_same in Hcmp.
      destruct (suffix_order k i Hk Hi) as [_ Heq].
      rewrite (Heq ltac:(congruence)) in Hr. exact Hr.
    + exists m. split; [reflexivity|]. split; [now right|].
      intros (x & [<- | Hx] & Hcode); [|apply Hmax; eauto].
      rewrite Hcode, Hmj, compare_append_same in Hcmp.
      destruct (suffix_order k j Hk Hj) as [Hno _]. contradiction.
    + exists r. split; [reflexivity|]. split; [now left|].
      intros (x & [<- | Hx] & Hcode); [exact Hcode|].
      assert (Hmk : subject_code m = p +++ Py.format_02d k)
        by (apply Hmax; eauto).
      rewrite Hr, Hmk, compare_append_same in Hcmp.
      destruct (suffix_order k i Hk Hi) as [_ Heq].
      rewrite (Heq ltac:(congruence)) in Hr. exact Hr.
Qed.

(** The generator continues after the greatest suffix in use. *)
Lemma generate_after_greatest rows n d sem k :
  Py.str_in d DEPARTMENT_CHOICES = true ->
  (1 <= sem <= 8)%Z ->
  (1 <= k <= 99)%Z ->
  (forall r, In r rows -> in_pair d sem r = true ->
     exists i, ((1 <= i <= k)%Z \/ (k = 99 /\ i = 100)%Z)
               /\ subject_code r = d +++ Py.str sem +++ Py.format_02d i) ->
  (exists r, In r rows /\ in_pair d sem r = true
             /\ subject_code r = d +++ Py.str sem +++ Py.format_02d k) ->
  generate_subject_code (mkSubject None n EmptyString d sem) rows
  = d +++ Py.str sem +++ Py.format_02d (k + 1).
Proof.
  intros Hd Hsem Hk Hall (r0 & Hin0 & Hpair0 & Hcode0).
  destruct (str_semester sem Hsem) as [c Hc].
  set (p := d +++ Py.str sem).
  assert (Hp : forall x, d +++ Py.str sem +++ x = p +++ x)
    by (intros x; unfold p; now rewrite append_assoc).
  destruct (first_by_code_desc_picks p k (filter (in_pair d sem) rows) Hk)
    as (m & Hm & _ & Hmax).
  - intros r Hr. apply filter_In in Hr as [Hr Hpair].
    destruct (Hall r Hr Hpair) as (i & Hi & Hcode).
    exists i. split; [exact Hi | now rewrite <- Hp].
  - intros Hnil.
    assert (Hin : In r0 (filter (in_pair d sem) rows))
      by (apply filter_In; auto).
    rewrite Hnil in Hin. contradiction.
  - assert (Hmk : subject_code m = d +++ Py.str sem +++ Py.format_02d k).
    { rewrite Hp. apply Hmax. exists r0. split.
      - apply filter_In; auto.
      - now rewrite <- Hp. }
    unfold generate_subject_code. cbn [department semester].
    rewrite Hm, Hmk, (upper_department d Hd), Hc. cbn [String.append].
    rewrite truthy_append_char, slice_from_past_digit, (int_of_suffix k Hk).
    reflexivity.
Qed.


Lemma is_valid_pair data rows a d sem :
  d_department data = Some d -> d_semester data = Some sem ->
  is_valid data rows = inr a ->
  a_department a = d /\ a_semester a = sem.
Proof.
  unfold is_valid. intros -> ->. destruct (d_name data) as [n|]; [|discriminate].
  repeat match goal with
         | |- (if ?b then _ else _) = _ -> _ => destruct b; [discriminate|]
         end.
  intros H. injection H as <-. split; reflexivity.
Qed.

(** X17. The generator follows the greatest code of the pair, and stops
    at 100. In a pair of the model's choices whose codes carry suffixes
    between 01 and [k] (gaps allowed), [k] itself in use and [k] at most
    99, the next code carries [k + 1], and the creation stores it when that
    code and the name are free. But once 99 and 100 are both in use, the
    generator computes 100 again (as a string, 100 sorts below 99): every
    creation in the pair fails on the unique code, the view never answers
    201 for the pair again and leaves the tables as they are. *)
Theorem codes_follow_the_greatest_and_stop_at_100 rows d sem k :
  Py.str_in d DEPARTMENT_CHOICES = true ->
  (1 <= sem <= 8)%Z ->
  (1 <= k <= 99)%Z ->
  (forall r, In r rows -> in_pair d sem r = true ->
     exists i, ((1 <= i <= k)%Z \/ (k = 99 /\ i = 100)%Z)
               /\ subject_code r = d +++ Py.str sem +++ Py.format_02d i) ->
  (exists r, In r rows /\ in_pair d sem r = true
             /\ subject_code r = d +++ Py.str sem +++ Py.format_02d k) ->
  (forall n,
     generate_subject_code (mkSubject None n EmptyString d sem) rows
     = d +++ Py.str sem +++ Py.format_02d (k + 1)) /\
  (forall n,
     code_taken (d +++ Py.str sem +++ Py.format_02d (k + 1)) rows = false ->
     triple_taken (mkSubject None n EmptyString d sem) rows = false ->
     let s := mkSubject (Some (next_pk rows)) n
                        (d +++ Py.str sem +++ Py.format_02d (k + 1)) d sem in
     objects_create n d sem rows = inr (s, rows ++ [s])) /\
  (k = 99%Z ->
   code_taken (d +++ Py.str sem +++ "100") rows = true ->
   (forall n,
      objects_create n d sem rows = inl (Py.IntegrityError "subject_code")) /\
   (forall now user data syl,
      d_department data = Some d -> d_semester data = Some sem ->
      status (fst (SubjectListCreateView_create now user data (mkDB rows syl)))
      <> 201%Z
      /\ snd (SubjectListCreateView_create now user data (mkDB rows syl))
         = mkDB rows syl)).
Proof.
  intros Hd Hsem Hk Hall Hex.
  pose proof (fun n => generate_after_greatest rows n d sem k Hd Hsem Hk Hall Hex)
    as Hgen.
  split; [exact Hgen|]. split.
  - intros n Hcode Htriple s. unfold objects_create.
    pose proof (objects_create_at_inserts rows rows n d sem) as Hins.
    cbv zeta in Hins. rewrite (Hgen n) in Hins. apply Hins; assumption.
  - intros -> Htaken.
    assert (Hfail : forall n, objects_create n d sem rows
                              = inl (Py.IntegrityError "subject_code")).
    { intros n. unfold objects_create. apply objects_create_at_duplicate.
      rewrite (Hgen n). exact Htaken. }
    split; [exact Hfail|].
    intros now user data syl Hdept Hsemester.
    unfold SubjectListCreateView_create, SubjectListCreateView_create_at.
    destruct (negb (Users.IsAuthenticated user));
      [split; [discriminate | reflexivity]|].
    destruct (negb (IsStaffOrReadOnly_write user));
      [split; [discriminate | reflexivity]|].
    cbn [subjects].
    destruct (is_valid data rows) as [errors|a] eqn:Hvalid;
      [split; [discriminate | reflexivity]|].
    destruct (is_valid_pair _ _ _ _ _ Hdept Hsemester Hvalid) as [Ha Hs].
    unfold SubjectSerializer_create. cbn [subjects]. rewrite Ha, Hs.
    pose proof (Hfail (a_name a)) as Hf. unfold objects_create in Hf.
    rewrite Hf. split; [discriminate | reflexivity].
Qed.

Lemma codes_follow_the_greatest_and_stop_at_100_witness :
  generate_subject_code (mkSubject None "Logic" EmptyString "CS" 1)
    [mkSubject (Some 1%Z) "Algebra" "CS199" "CS" 1;
     mkSubject (Some 2%Z) "Calculus" "CS1100" "CS" 1]
  = "CS1100"%string
  /\ objects_create "Logic" "CS" 1
       [mkSubject (Some 1%Z) "Algebra" "CS199" "CS" 1;
        mkSubject (Some 2%Z) "Calculus" "CS1100" "CS" 1]
     = inl (Py.IntegrityError "subject_code").
Proof.
  assert (Hall : forall r,
            In r [mkSubject (Some 1%Z) "Algebra" "CS199" "CS" 1;
                  mkSubject (Some 2%Z) "Calculus" "CS1100" "CS" 1] ->
            in_pair "CS" 1 r = true ->
            exists i, ((1 <= i <= 99)%Z \/ (99 = 99 /\ i = 100)%Z)
                      /\ subject_code r
                         = "CS" +++ Py.str 1 +++ Py.format_02d i).
  { intros r [<- | [<- | []]] _.
    - exists 99%Z. split; [left; lia | reflexivity].
    - exists 100%Z. split; [right; split; reflexivity | reflexivity]. }
  assert (Hex : exists r,
            In r [mkSubject (Some 1%Z) "Algebra" "CS199" "CS" 1;
                  mkSubject (Some 2%Z) "Calculus" "CS1100" "CS" 1]
            /\ in_pair "CS" 1 r = true
            /\ subject_code r = "CS" +++ Py.str 1 +++ Py.format_02d 99).
  { eexists. split; [left; reflexivity|]. split; reflexivity. }
  destruct (codes_follow_the_greatest_and_stop_at_100
              [mkSubject (Some 1%Z) "Algebra" "CS199" "CS" 1;
               mkSubject (Some 2%Z) "Calculus" "CS1100" "CS" 1]
              "CS" 1 99 eq_refl ltac:(lia) ltac:(lia) Hall Hex)
    as (Hgen & _ & Hstop).
  split; [exact (Hgen "Logic"%string)|].
  exact (proj1 (Hstop eq_refl eq_refl) "Logic"%string).
Defined.

Lemma NoDup_map_eq {A B : Type} (f : A -> B) l x y :
  NoDup (map f l) -> In x l -> In y l -> f x = f y -> x = y.
Proof.
  induction l as [|z l IH]; [contradiction|].
  cbn [map]. intros Hnd Hx Hy E. inversion Hnd as [|? ? Hnotin Hnd']; subst.
  destruct Hx as [-> | Hx], Hy as [-> | Hy]; auto.
  - exfalso. apply Hnotin. rewrite E. now apply in_map.
  - exfalso. apply Hnotin. rewrite <- E. now apply in_map.
Qed.

Lemma NoDup_with_last {A : Type} (l : list A) x :
  NoDup l -> ~ In x l -> NoDup (l ++ [x]).
Proof.
  induction l as [|y l IH]; intros Hnd Hx; cbn [app].
  - constructor; [intros [] | constructor].
  - inversion Hnd as [|? ? Hy Hnd']; subst. constructor.
    + intros Hin. apply in_app_or in Hin as [Hin | [<- | []]];
        [contradiction | apply Hx; now left].
    + apply IH; [exact Hnd' | intros Hin; apply Hx; now right].
Qed.

Lemma syllabus_next_pk_bound rows r k :
  In r rows -> syllabus_pk r = Some k -> (k < syllabus_next_pk rows)%Z.
Proof.
  unfold syllabus_next_pk. induction rows as [|x rows IH]; [contradiction|].
  intros [-> | Hin] Hk; cbn [fold_right].
  - rewrite Hk. lia.
  - specialize (IH Hin Hk). destruct (syllabus_pk x); lia.
Qed.

Lemma syllabus_pk_is_own r k rows x :
  SyllabusLaws.Lawful rows -> In r rows -> syllabus_pk r = Some k ->
  In x rows -> syllabus_pk_is k x = true -> x = r.
Proof.
  intros (_ & Hkeys & _) Hr Hk Hx Hpk. unfold syllabus_pk_is in Hpk.
  destruct (syllabus_pk x) as [j|] eqn:Hj; [|discriminate].
  apply Z.eqb_eq in Hpk. subst j.
  apply (NoDup_map_eq syllabus_pk rows); auto. congruence.
Qed.

(** Saving a stored row as it is leaves the table as it is. *)
Lemma Syllabus_save_same r rows :
  SyllabusLaws.Lawful rows -> In r rows -> Syllabus_save r rows = rows.
Proof.
  intros Hlaw Hin. unfold Syllabus_save.
  destruct (syllabus_pk r) as [k|] eqn:Hk.
  - rewrite <- (map_id rows) at 2. apply map_ext_in. intros x Hx.
    destruct (syllabus_pk_is k x) eqn:Hpk; [|reflexivity].
    symmetry. exact (syllabus_pk_is_own r k rows x Hlaw Hin Hk Hx Hpk).
  - destruct Hlaw as (Hsome & _). rewrite Forall_forall in Hsome.
    now destruct (Hsome r Hin).
Qed.

Lemma filter_subject_at_most_one id rows :
  NoDup (map subject rows) ->
  filter (fun r => Z.eqb (subject r) id) rows = []
  \/ exists found, filter (fun r => Z.eqb (subject r) id) rows = [found].
Proof.
  induction rows as [|x rows IH]; [now left|].
  cbn [map filter]. intros Hnd. inversion Hnd as [|? ? Hnotin Hnd']; subst.
  destruct (Z.eqb_spec (subject x) id) as [E|E]; [|auto].
  right. exists x. f_equal.
  destruct (filter (fun r => Z.eqb (subject r) id) rows) as [|y l] eqn:Hf;
    [reflexivity|].
  exfalso. apply Hnotin.
  assert (Hy : In y (filter (fun r => Z.eqb (subject r) id) rows))
    by (rewrite Hf; now left).
  apply filter_In in Hy as [Hy Hs]. apply Z.eqb_eq in Hs.
  rewrite E, <- Hs. now apply in_map.
Qed.

Lemma filter_map_same {A : Type} (p : A -> bool) (g : A -> A) l :
  (forall x, In x l -> p (g x) = p x) ->
  filter p (map g l) = map g (filter p l).
Proof.
  induction l as [|x l IH]; [reflexivity|]. intros H.
  cbn [map filter]. rewrite (H x (or_introl eq_refl)).
  rewrite IH by (intros y Hy; apply H; now right).
  destruct (p x); reflexivity.
Qed.

(** What [update_or_create] does to a lawful table. *)
Lemma update_or_create_spec now id url rows :
  SyllabusLaws.Lawful rows ->
  exists r rows1,
    update_or_create now id url rows
    = inr (r, negb (existsb (fun x => Z.eqb (subject x) id) rows), rows1)
    /\ subject r = id /\ pdf_url r = url
    /\ In r rows1
    /\ filter (fun x => Z.eqb (subject x) id) rows1 = [r]
    /\ filter (fun x => negb (Z.eqb (subject x) id)) rows1
       = filter (fun x => negb (Z.eqb (subject x) id)) rows
    /\ SyllabusLaws.Lawful rows1
    /\ (forall old, In old rows -> subject old = id ->
          uploaded_at r = uploaded_at old /\ syllabus_pk r = syllabus_pk old).
Proof.
  intros Hlaw. pose proof Hlaw as (Hsome & Hkeys & Hsubjects).
  unfold update_or_create.
  destruct (filter_subject_at_most_one id rows Hsubjects) as [Hf | [found Hf]];
    rewrite Hf.
  - assert (Hnone : forall x, In x rows -> Z.eqb (subject x) id = false).
    { intros x Hx. destruct (Z.eqb (subject x) id) eqn:E; [|reflexivity].
      assert (Hin : In x (filter (fun r => Z.eqb (subject r) id) rows))
        by (apply filter_In; auto).
      rewrite Hf in Hin. contradiction. }
    assert (Hex : existsb (fun x => Z.eqb (subject x) id) rows = false).
    { destruct (existsb (fun x => Z.eqb (subject x) id) rows) eqn:E;
        [|reflexivity].
      apply existsb_exists in E as (x & Hx & Hs).
      rewrite (Hnone x Hx) in Hs. discriminate. }
    rewrite Hex. do 2 eexists. split; [reflexivity|].
    cbn [subject pdf_url uploaded_at syllabus_pk].
    split; [reflexivity|]. split; [reflexivity|].
    split; [apply in_or_app; right; now left|].
    split; [rewrite filter_app, Hf; cbn [filter subject];
            now rewrite Z.eqb_refl|].
    split; [rewrite filter_app; cbn [filter subject];
            rewrite Z.eqb_refl; cbn [negb]; apply app_nil_r|].
    split.
    + repeat split.
      * apply Forall_app. split; [exact Hsome|].
        constructor; [discriminate | constructor].
      * rewrite map_app. cbn [map syllabus_pk].
        apply NoDup_with_last; [exact Hkeys|].
        intros Hin. apply in_map_iff in Hin as (x & Hk & Hx).
        pose proof (syllabus_next_pk_bound rows x _ Hx Hk). lia.
      * rewrite map_app. cbn [map subject].
        apply NoDup_with_last; [exact Hsubjects|].
        intros Hin. apply in_map_iff in Hin as (x & Hs & Hx).
        pose proof (Hnone x Hx) as E. apply Z.eqb_neq in E. congruence.
    + intros old Hold Hs. pose proof (Hnone old Hold) as E.
      apply Z.eqb_neq in E. contradiction.
  - assert (Hfound : In found rows /\ Z.eqb (subject found) id = true).
    { apply (proj1 (filter_In (fun r => Z.eqb (subject r) id) found rows)).
      rewrite Hf. now left. }
    destruct Hfound as [Hin Hs]. apply Z.eqb_eq in Hs.
    assert (Hex : existsb (fun x => Z.eqb (subject x) id) rows = true).
    { apply existsb_exists. exists found. split; [exact Hin|].
      now apply Z.eqb_eq. }
    rewrite Hex. rewrite Forall_forall in Hsome.
    destruct (syllabus_pk found) as [k|] eqn:Hk;
      [|now destruct (Hsome found Hin)].
    set (r := set_pdf_url url found).
    set (g := fun x => if syllabus_pk_is k x then r else x).
    assert (Hsave : Syllabus_save r rows = map g rows).
    { unfold Syllabus_save, r. cbn [set_pdf_url syllabus_pk]. rewrite Hk.
      reflexivity. }
    assert (Hg : forall x, In x rows ->
                 g x = if Z.eqb (subject x) id then r else x).
    { intros x Hx. unfold g. destruct (syllabus_pk_is k x) eqn:Hpk.
      - rewrite (syllabus_pk_is_own found k rows x Hlaw Hin Hk Hx Hpk), Hs,
          Z.eqb_refl. reflexivity.
      - destruct (Z.eqb_spec (subject x) id) as [E|E]; [|reflexivity].
        assert (Hxf : In x (filter (fun r => Z.eqb (subject r) id) rows))
          by (apply filter_In; split; [exact Hx | now apply Z.eqb_eq]).
        rewrite Hf in Hxf. destruct Hxf as [<- | []].
        unfold syllabus_pk_is in Hpk. rewrite Hk, Z.eqb_refl in Hpk.
        discriminate. }
    assert (Hsub : forall x, In x rows -> subject (g x) = subject x).
    { intros x Hx. rewrite (Hg x Hx).
      destruct (Z.eqb_spec (subject x) id) as [E|E]; [|reflexivity].
      unfold r. cbn [set_pdf_url subject]. congruence. }
    assert (Hkey : forall x, In x rows -> syllabus_pk (g x) = syllabus_pk x).
    { intros x Hx. unfold g. destruct (syllabus_pk_is k x) eqn:Hpk;
        [|reflexivity].
      rewrite (syllabus_pk_is_own found k rows x Hlaw Hin Hk Hx Hpk).
      reflexivity. }
    exists r, (map g rows). rewrite Hsave. split; [reflexivity|].
    split; [exact Hs|]. split; [reflexivity|].
    assert (Hgf : g found = r).
    { unfold g, syllabus_pk_is. now rewrite Hk, Z.eqb_refl. }
    split; [rewrite <- Hgf; now apply in_map|].
    split.
    { rewrite filter_map_same
        by (intros x Hx; now rewrite (Hsub x Hx)).
      rewrite Hf. cbn [map]. now rewrite Hgf. }
    split.
    { rewrite filter_map_same
        by (intros x Hx; now rewrite (Hsub x Hx)).
      rewrite <- (map_id (filter _ rows)) at 2. apply map_ext_in.
      intros x Hx. apply filter_In in Hx as [Hx Hne].
      rewrite (Hg x Hx). destruct (Z.eqb (subject x) id);
        [discriminate | reflexivity]. }
    split.
    { repeat split.
      - apply Forall_forall. intros y Hy.
        apply in_map_iff in Hy as (x & <- & Hx).
        rewrite (Hkey x Hx). exact (Hsome x Hx).
      - rewrite map_map, (map_ext_in _ syllabus_pk rows Hkey). exact Hkeys.
      - rewrite map_map, (map_ext_in _ subject rows Hsub). exact Hsubjects. }
    intros old Hold Hso.
    assert (Hof : In old (filter (fun r => Z.eqb (subject r) id) rows))
      by (apply filter_In; split; [exact Hold | now apply Z.eqb_eq]).
    rewrite Hf in Hof. destruct Hof as [<- | []].
    split; reflexivity.
Qed.

(** X18. A POST to syllabus/ is an upsert. For a caller who may write, an
    existing subject and a non-empty URL, on a table that keeps its
    constraints: the answer is 201 when the subject had no syllabus and 200
    when it had one; afterwards the subject has exactly one syllabus, with
    the URL sent; an updated row keeps its key and its upload time; the
    syllabi of other subjects and the subjects are untouched; the
    constraints still hold. Sending the same request again, at any later
    time, is answered 200 with the same row and changes nothing. *)
Theorem syllabus_post_is_an_upsert now later user d db id url s :
  write_gate user = None ->
  d_subject d = Some id -> id <> 0%Z ->
  d_pdf_url d = Some url -> url <> EmptyString ->
  find (pk_is id) (subjects db) = Some s ->
  SyllabusLaws.Lawful (syllabi db) ->
  exists r syllabi1,
    SyllabusListCreateView_create now user d db
    = (Response (if existsb (fun x => Z.eqb (subject x) id) (syllabi db)
                 then 200 else 201) (SyllabusData r),
       mkDB (subjects db) syllabi1)
    /\ subject r = id /\ pdf_url r = url
    /\ filter (fun x => Z.eqb (subject x) id) syllabi1 = [r]
    /\ filter (fun x => negb (Z.eqb (subject x) id)) syllabi1
       = filter (fun x => negb (Z.eqb (subject x) id)) (syllabi db)
    /\ SyllabusLaws.Lawful syllabi1
    /\ (forall old, In old (syllabi db) -> subject old = id ->
          uploaded_at r = uploaded_at old /\ syllabus_pk r = syllabus_pk old)
    /\ SyllabusListCreateView_create later user d (mkDB (subjects db) syllabi1)
       = (Response 200 (SyllabusData r), mkDB (subjects db) syllabi1).
Proof.
  intros Hgate Hd Hid Hu Hurl Hfind Hlaw.
  destruct (update_or_create_spec now id url (syllabi db) Hlaw)
    as (r & syllabi1 & Hup & Hs & Hp & Hin & Hone & Hrest & Hlaw1 & Hold).
  assert (Hcheck : falsy_id (d_subject d) || negb (Py.truthy_opt (d_pdf_url d))
                   = false).
  { rewrite Hd, Hu. cbn [falsy_id Py.truthy_opt]. unfold Py.truthy.
    apply Z.eqb_neq in Hid. apply String.eqb_neq in Hurl.
    rewrite Hid, Hurl. reflexivity. }
  exists r, syllabi1. split.
  { unfold SyllabusListCreateView_create.
    rewrite Hgate, Hcheck, Hd, Hu, Hfind, Hup.
    destruct (existsb (fun x => Z.eqb (subject x) id) (syllabi db));
      reflexivity. }
  repeat (split; [assumption|]).
  unfold SyllabusListCreateView_create.
  rewrite Hgate, Hcheck, Hd, Hu. cbn [subjects syllabi]. rewrite Hfind.
  unfold update_or_create. rewrite Hone.
  assert (Hr : set_pdf_url url r = r).
  { unfold set_pdf_url. rewrite <- Hp. destruct r; reflexivity. }
  rewrite Hr, (Syllabus_save_same r syllabi1 Hlaw1 Hin). reflexivity.
Qed.

Lemma syllabus_post_is_an_upsert_witness :
  exists r syllabi1,
    SyllabusListCreateView_create 700 (Some Samples.lecturer)
      (mkSyllabusData (Some 1%Z) (Some "https://example.org/new.pdf"%string))
      (mkDB [mkSubject (Some 1%Z) "Algorithms" "CS101" "CS" 1]
            [mkSyllabus (Some 1%Z) 1 "https://example.org/old.pdf" 100])
    = (Response 200 (SyllabusData r),
       mkDB [mkSubject (Some 1%Z) "Algorithms" "CS101" "CS" 1] syllabi1)
    /\ syllabi1
       = [mkSyllabus (Some 1%Z) 1 "https://example.org/new.pdf" 100].
Proof.
  assert (Hlaw : SyllabusLaws.Lawful
                   [mkSyllabus (Some 1%Z) 1 "https://example.org/old.pdf" 100]).
  { repeat split.
    - constructor; [discriminate | constructor].
    - constructor; [intros [] | constructor].
    - constructor; [intros [] | constructor]. }
  destruct (syllabus_post_is_an_upsert 700 800 (Some Samples.lecturer)
              (mkSyllabusData (Some 1%Z)
                              (Some "https://example.org/new.pdf"%string))
              (mkDB [mkSubject (Some 1%Z) "Algorithms" "CS101" "CS" 1]
                    [mkSyllabus (Some 1%Z) 1 "https://example.org/old.pdf" 100])
              1%Z "https://example.org/new.pdf"
              (mkSubject (Some 1%Z) "Algorithms" "CS101" "CS" 1)
              eq_refl eq_refl ltac:(discriminate) eq_refl ltac:(discriminate)
              eq_refl Hlaw)
    as (r & syllabi1 & E & _).
  exists r, syllabi1. split; [exact E|].
  assert (E' : SyllabusListCreateView_create 700 (Some Samples.lecturer)
                 (mkSyllabusData (Some 1%Z)
                                 (Some "https://example.org/new.pdf"%string))
                 (mkDB [mkSubject (Some 1%Z) "Algorithms" "CS101" "CS" 1]
                       [mkSyllabus (Some 1%Z) 1 "https://example.org/old.pdf"
                                   100])
               = (Response 200
                    (SyllabusData
                       (mkSyllabus (Some 1%Z) 1 "https://example.org/new.pdf"
                                   100)),
                  mkDB [mkSubject (Some 1%Z) "Algorithms" "CS101" "CS" 1]
                       [mkSyllabus (Some 1%Z) 1 "https://example.org/new.pdf"
                                   100]))
    by (vm_compute; reflexivity).
  rewrite E' in E. injection E as _ <-. reflexivity.
Defined.


Lemma next_pk_bound rows r k :
  In r rows -> pk r = Some k -> (k < next_pk rows)%Z.
Proof.
  unfold next_pk. induction rows as [|x rows IH]; [contradiction|].
  intros [-> | Hin] Hk; cbn [fold_right].
  - rewrite Hk. lia.
  - specialize (IH Hin Hk). destruct (pk x); lia.
Qed.

Lemma filter_all {A : Type} (p : A -> bool) l :
  (forall x, In x l -> p x = true) -> filter p l = l.
Proof.
  induction l as [|x l IH]; [reflexivity|]. intros H. cbn [filter].
  rewrite (H x (or_introl eq_refl)), IH; [reflexivity|].
  intros y Hy. apply H. now right.
Qed.

Lemma objects_create_inr n d sem rows s rows1 :
  objects_create n d sem rows = inr (s, rows1) ->
  s = mkSubject (Some (next_pk rows)) n
                (generate_subject_code (mkSubject None n EmptyString d sem) rows)
                d sem
  /\ rows1 = rows ++ [s]
  /\ code_taken (subject_code s) rows = false.
Proof.
  unfold objects_create, objects_create_at, save_at, Model_save.
  cbn [subject_code Py.truthy String.eqb negb]. unfold set_subject_code.
  cbn [subject_code pk name department semester].
  destruct (code_taken _ rows) eqn:Hcode; [discriminate|].
  destruct (triple_taken _ rows); [discriminate|].
  intros H. injection H as <- <-. cbn [subject_code]. auto.
Qed.

(** X19. Deleting a subject, and what becomes of its code. A caller who
    may write and deletes the subject that was created last is answered
    204; the subject and its syllabus are gone, every other subject and
    syllabus stays. The next creation in the same pair is then given the
    very code of the deleted subject: a code does not identify one subject
    for ever. *)
Theorem deleted_code_is_handed_out_again user rows syl n1 n2 d sem s1 rows1 :
  write_gate user = None ->
  objects_create n1 d sem rows = inr (s1, rows1) ->
  triple_taken (mkSubject None n2 EmptyString d sem) rows = false ->
  exists id,
    pk s1 = Some id
    /\ SubjectDetailView_destroy user id (mkDB rows1 syl)
       = (Response 204 NoContent,
          mkDB rows (filter (fun r => negb (Z.eqb (subject r) id)) syl))
    /\ exists s2 rows2,
         objects_create n2 d sem rows = inr (s2, rows2)
         /\ name s2 = n2
         /\ subject_code s2 = subject_code s1.
Proof.
  intros Hgate Hcreate Htriple.
  destruct (objects_create_inr _ _ _ _ _ _ Hcreate) as (Hs1 & -> & Hfree).
  exists (next_pk rows). split; [rewrite Hs1; reflexivity|]. split.
  - unfold SubjectDetailView_destroy. rewrite Hgate. cbn [subjects syllabi].
    assert (Hown : pk_is (next_pk rows) s1 = true)
      by (rewrite Hs1; unfold pk_is; cbn [pk]; apply Z.eqb_refl).
    destruct (find (pk_is (next_pk rows)) (rows ++ [s1])) eqn:Hfind.
    + rewrite filter_app. cbn [filter]. rewrite Hown. cbn [negb].
      rewrite app_nil_r, filter_all; [reflexivity|].
      intros r Hr. unfold pk_is.
      destruct (pk r) as [k|] eqn:Hk; [|reflexivity].
      pose proof (next_pk_bound rows r k Hr Hk).
      apply negb_true_iff, Z.eqb_neq. lia.
    + assert (Hin : In s1 (rows ++ [s1]))
        by (apply in_or_app; right; now left).
      pose proof (find_none _ _ Hfind s1 Hin). congruence.
  - pose proof (objects_create_at_inserts rows rows n2 d sem) as Hins.
    cbv zeta in Hins. do 2 eexists. split.
    + unfold objects_create. apply Hins; [|exact Htriple].
      rewrite Hs1 in Hfree. exact Hfree.
    + split; [reflexivity|]. rewrite Hs1. reflexivity.
Qed.

Lemma deleted_code_is_handed_out_again_witness :
  exists id,
    pk (mkSubject (Some 2%Z) "Logic" "CS102" "CS" 1) = Some id
    /\ SubjectDetailView_destroy (Some Samples.lecturer) id
         (mkDB [mkSubject (Some 1%Z) "Algebra" "CS101" "CS" 1;
                mkSubject (Some 2%Z) "Logic" "CS102" "CS" 1]
               [mkSyllabus (Some 1%Z) 2 "https://example.org/logic.pdf" 100])
       = (Response 204 NoContent,
          mkDB [mkSubject (Some 1%Z) "Algebra" "CS101" "CS" 1]
               (filter (fun r => negb (Z.eqb (subject r) id))
                       [mkSyllabus (Some 1%Z) 2 "https://example.org/logic.pdf"
                                   100]))
    /\ exists s2 rows2,
         objects_create "Topology" "CS" 1
           [mkSubject (Some 1%Z) "Algebra" "CS101" "CS" 1] = inr (s2, rows2)
         /\ name s2 = "Topology"%string
         /\ subject_code s2
            = subject_code (mkSubject (Some 2%Z) "Logic" "CS102" "CS" 1).
Proof.
  apply (deleted_code_is_handed_out_again (Some Samples.lecturer)
           [mkSubject (Some 1%Z) "Algebra" "CS101" "CS" 1]
           [mkSyllabus (Some 1%Z) 2 "https://example.org/logic.pdf" 100]
           "Logic" "Topology" "CS" 1
           (mkSubject (Some 2%Z) "Logic" "CS102" "CS" 1)
           [mkSubject (Some 1%Z) "Algebra" "CS101" "CS" 1;
            mkSubject (Some 2%Z) "Logic" "CS102" "CS" 1]
           eq_refl eq_refl eq_refl).
Defined.


Lemma In_insert_ordered x y l : In x (insert_ordered y l) <-> x = y \/ In x l.
Proof.
  induction l as [|z l IH]; cbn [insert_ordered].
  - cbn. intuition.
  - destruct (ordering_le y z); cbn [In]; [intuition | rewrite IH; intuition].
Qed.

Lemma In_ordered x l : In x (ordered l) <-> In x l.
Proof.
  unfold ordered. induction l as [|y l IH]; [reflexivity|].
  cbn [fold_right In]. rewrite In_insert_ordered, IH. intuition.
Qed.

Lemma upper_when_truthy d :
  (if Py.truthy d then Py.upper d else d) = Py.upper d.
Proof. destruct d; reflexivity. Qed.

(** X20. The subjects of a department. For ASCII input, the queryset of
    [DepartmentSubjectsView] never reports bad input as a validation
    error: a department outside the choices and a semester that is not a
    number both end in a NameError, since the module does not bind the
    name [serializers]. A valid department is accepted in any letter case
    and selects exactly the subjects stored under its upper-case code, of
    the given semester when one is given. *)
Theorem department_subjects_or_name_error department semester rows :
  isascii department = true ->
  (forall s, semester = Some s -> isascii s = true) ->
  (forall detail,
     DepartmentSubjectsView_get_queryset department semester rows
     <> inl (Py.ValidationError detail)) /\
  (Py.str_in (Py.upper department) DEPARTMENT_CHOICES = false ->
   DepartmentSubjectsView_get_queryset department semester rows
   = inl (Py.NameError "serializers")) /\
  (Py.str_in (Py.upper department) DEPARTMENT_CHOICES = true ->
   (semester = None \/ semester = Some EmptyString ->
    exists l,
      DepartmentSubjectsView_get_queryset department semester rows = inr l
      /\ forall r, In r l <->
                   In r rows /\ Syllabus.department r = Py.upper department) /\
   (forall s v,
      semester = Some s -> s <> EmptyString -> Py.int s = Some v ->
      exists l,
        DepartmentSubjectsView_get_queryset department semester rows = inr l
        /\ forall r, In r l <->
                     In r rows /\ Syllabus.department r = Py.upper department
                     /\ Syllabus.semester r = v) /\
   (forall s,
      semester = Some s -> s <> EmptyString -> Py.int s = None ->
      DepartmentSubjectsView_get_queryset department semester rows
      = inl (Py.NameError "serializers"))).
Proof.
  intros _ _. unfold DepartmentSubjectsView_get_queryset.
  rewrite upper_when_truthy.
  assert (Hmem : forall r,
            In r (ordered (filter (fun r => String.eqb (Syllabus.department r)
                                                      (Py.upper department))
                                  rows))
            <-> In r rows /\ Syllabus.department r = Py.upper department).
  { intros r. rewrite In_ordered, filter_In, String.eqb_eq. reflexivity. }
  split; [|split].
  - intros detail.
    destruct (Py.str_in (Py.upper department) DEPARTMENT_CHOICES);
      cbn [negb]; [|discriminate].
    destruct semester as [s|]; [|discriminate].
    destruct (Py.truthy s); [|discriminate].
    destruct (Py.int s); discriminate.
  - intros ->. reflexivity.
  - intros ->. cbn [negb]. split; [|split].
    + intros [-> | ->]; eexists; (split; [reflexivity | exact Hmem]).
    + intros s v -> Hs Hv. apply String.eqb_neq in Hs.
      unfold Py.truthy. rewrite Hs, Hv. cbn [negb].
      eexists. split; [reflexivity|]. intros r.
      rewrite In_ordered, !filter_In, String.eqb_eq, Z.eqb_eq. tauto.
    + intros s -> Hs Hv. apply String.eqb_neq in Hs.
      unfold Py.truthy. rewrite Hs, Hv. reflexivity.
Qed.

Lemma department_subjects_or_name_error_witness :
  DepartmentSubjectsView_get_queryset "physics" None
    [mkSubject (Some 1%Z) "Algebra" "CS101" "CS" 1]
  = inl (Py.NameError "serializers")
  /\ exists l,
       DepartmentSubjectsView_get_queryset "cs" (Some " 1 "%string)
         [mkSubject (Some 1%Z) "Algebra" "CS101" "CS" 1;
          mkSubject (Some 2%Z) "Circuits" "ECE101" "ECE" 1;
          mkSubject (Some 3%Z) "Logic" "CS201" "CS" 2]
       = inr l
       /\ forall r, In r l <->
                    In r [mkSubject (Some 1%Z) "Algebra" "CS101" "CS" 1;
                          mkSubject (Some 2%Z) "Circuits" "ECE101" "ECE" 1;
                          mkSubject (Some 3%Z) "Logic" "CS201" "CS" 2]
                    /\ Syllabus.department r = Py.upper "cs"
                    /\ Syllabus.semester r = 1%Z.
Proof.
  split.
  - apply (proj1 (proj2 (department_subjects_or_name_error "physics" None
             [mkSubject (Some 1%Z) "Algebra" "CS101" "CS" 1]
             eq_refl ltac:(discriminate)))). reflexivity.
  - apply (proj1 (proj2 (proj2 (proj2 (department_subjects_or_name_error "cs"
             (Some " 1 "%string)
             [mkSubject (Some 1%Z) "Algebra" "CS101" "CS" 1;
              mkSubject (Some 2%Z) "Circuits" "ECE101" "ECE" 1;
              mkSubject (Some 3%Z) "Logic" "CS201" "CS" 2]
             eq_refl
             ltac:(intros s E; injection E as <-; reflexivity))) eq_refl))
           " 1 "%string 1%Z eq_refl ltac:(discriminate) eq_refl).
Defined.
End SyllabusViewFacts.

(** ** Users: what the deletion of a staff member takes along *)

Module StaffViewFacts.
Import Users Users.HeadOfDepartment Invariants TableLaws UsersFacts HodFacts
       StaffViews.

Lemma NoDup_map_filter {A B : Type} (f : A -> B) (g : A -> bool) l :
  NoDup (map f l) -> NoDup (map f (filter g l)).
Proof.
  induction l as [|x l IH]; [intros; constructor|].
  cbn [map filter]. intros Hnd. inversion Hnd as [|? ? Hnotin Hnd']; subst.
  destruct (g x); [|auto]. cbn [map]. constructor; [|auto].
  intros Hin. apply Hnotin. apply in_map_iff in Hin as (y & Hy & Hin).
  apply filter_In in Hin as [Hin _]. rewrite <- Hy. now apply in_map.
Qed.

Lemma Forall_kept_by_filter {A : Type} (P : A -> Prop) (g : A -> bool) l :
  Forall P l -> Forall P (filter g l).
Proof.
  rewrite !Forall_forall. intros H x Hx. apply filter_In in Hx as [Hx _]. auto.
Qed.

(** Deleting rows breaks no constraint of the table. *)
Lemma Lawful_filter (g : t -> bool) rows :
  Lawful rows -> Lawful (filter g rows).
Proof.
  intros [[[Hpk Hkeys] Hone] [[Hst Hstaff] Hdated]].
  split; [split; [split|]|split; [split|]].
  - now apply Forall_kept_by_filter.
  - now apply NoDup_map_filter.
  - intros d. pose proof (count_active_filter_le d g rows). specialize (Hone d).
    lia.
  - now apply Forall_kept_by_filter.
  - now apply NoDup_map_filter.
  - now apply Forall_kept_by_filter.
Qed.

Lemma count_active_member d l h :
  In h l -> active_in d h = true -> (1 <= count_active d l)%nat.
Proof.
  induction l as [|x l IH]; [contradiction|].
  intros [-> | Hin] Hact; rewrite count_active_cons.
  - rewrite Hact. lia.
  - specialize (IH Hin Hact). lia.
Qed.

(** With at most one active row in a department, any two are the same. *)
Lemma active_row_is_unique d l a b :
  (count_active d l <= 1)%nat ->
  In a l -> In b l -> active_in d a = true -> active_in d b = true -> a = b.
Proof.
  induction l as [|x l IH]; [contradiction|].
  rewrite count_active_cons. intros Hc [-> | Ha] [-> | Hb] Haa Hab.
  - reflexivity.
  - rewrite Haa in Hc. pose proof (count_active_member d l b Hb Hab). lia.
  - rewrite Hab in Hc. pose proof (count_active_member d l a Ha Haa). lia.
  - apply IH; auto. destruct (active_in d x); lia.
Qed.

Lemma staff_is_spec k h : staff_is k h = true <-> staff h = Some k.
Proof.
  unfold staff_is. destruct (staff h) as [j|]; [|split; discriminate].
  rewrite Z.eqb_eq. split; congruence.
Qed.

(** X21. Deleting a staff member. An admin's DELETE of a stored staff
    member is answered 204 and removes the user, the profile and every
    Head-of-Department row of that staff member, active or ended, and
    nothing else; the constraints of the table still hold. No successor is
    appointed: a department the staff member headed has no active head
    afterwards and the department's HOD view answers 404. *)
Theorem staff_deletion_takes_the_appointments u staff_id db s usr :
  User.role u = "admin"%string ->
  filter (fun x => String.eqb (Staff.staff_id x) staff_id) (Users.staff db) = [s] ->
  find_user (Staff.user s) db = Some usr ->
  Lawful (hods db) ->
  exists db',
    run_view (manage_staff_view_DELETE (Some u) staff_id) db
    = (Response 204 (Detail "Staff member deleted successfully"), db')
    /\ find_user (Staff.user s) db' = None
    /\ find_staff (Staff.user s) db' = None
    /\ (forall x, In x (users db') <->
                  In x (users db) /\ User.pk x <> Some (Staff.user s))
    /\ (forall x, In x (Users.staff db') <->
                  In x (Users.staff db) /\ Staff.user x <> Staff.user s)
    /\ (forall h, In h (hods db') <->
                  In h (hods db) /\ staff h <> Some (Staff.user s))
    /\ Lawful (hods db')
    /\ (forall h viewer,
          In h (hods db) -> staff h = Some (Staff.user s) ->
          is_active h = true -> IsAuthenticated viewer = true ->
          run_view (DepartmentHODView_get viewer (department h)) db'
          = (Response 404
               (Detail (String.append "No active HOD found for "
                          (String.append (department h) " department"))),
             db')).
Proof.
  intros Hrole Hget Huser Hlaw.
  set (k := Staff.user s) in *.
  exists (mkDB (filter (fun x => negb (user_pk_is k x)) (users db))
               (filter (fun x => negb (Z.eqb (Staff.user x) k)) (Users.staff db))
               (filter (fun h => negb (staff_is k h)) (hods db))).
  split.
  { unfold manage_staff_view_DELETE, authenticated_gate.
    cbn [IsAuthenticated negb]. rewrite Hrole.
    cbn [String.eqb Ascii.eqb Bool.eqb negb].
    unfold run_view, bind, read. rewrite Hget.
    assert (Hu : find_user (Staff.user s) db = Some usr) by exact Huser.
    rewrite Hu. unfold Staff_delete, User_delete, ret.
    cbn [users Users.staff hods fst snd]. fold k.
    rewrite !NoticesFacts.filter_twice. reflexivity. }
  cbn [users Users.staff hods].
  assert (Hh : forall h, In h (filter (fun h => negb (staff_is k h)) (hods db))
                         <-> In h (hods db) /\ staff h <> Some k).
  { intros h. rewrite filter_In, negb_true_iff. rewrite <- staff_is_spec.
    destruct (staff_is k h); split; intros [H1 H2]; split; auto;
      try discriminate; congruence. }
  split.
  { unfold find_user. cbn [users]. apply find_none_existsb.
    destruct (existsb (user_pk_is k) (filter _ (users db))) eqn:E;
      [|reflexivity].
    apply existsb_exists in E as (x & Hx & Hpk).
    apply filter_In in Hx as [_ Hx]. rewrite Hpk in Hx. discriminate. }
  split.
  { unfold find_staff. cbn [Users.staff]. apply find_none_existsb.
    destruct (existsb _ (filter _ (Users.staff db))) eqn:E; [|reflexivity].
    apply existsb_exists in E as (x & Hx & Hpk).
    apply filter_In in Hx as [_ Hx]. rewrite Hpk in Hx. discriminate. }
  split.
  { intros x. rewrite filter_In, negb_true_iff. unfold user_pk_is.
    destruct (User.pk x) as [j|].
    - destruct (Z.eqb_spec j k) as [-> | Hj]; split; intros [H1 H2];
        split; auto; try discriminate; congruence.
    - split; intros [H1 H2]; split; auto; discriminate. }
  split.
  { intros x. rewrite filter_In, negb_true_iff, Z.eqb_neq. reflexivity. }
  split; [exact Hh|].
  split; [apply Lawful_filter; exact Hlaw|].
  intros h viewer Hin Hstaff Hactive Hviewer.
  unfold DepartmentHODView_get, authenticated_gate. rewrite Hviewer.
  cbn [negb]. unfold run_view, bind, read. cbn [hods].
  assert (Hnone : filter (active_in (department h))
                         (filter (fun h => negb (staff_is k h)) (hods db)) = []).
  { destruct (filter (active_in (department h)) (filter _ (hods db)))
      as [|h' rest] eqn:Hf; [reflexivity|].
    assert (Hin' : In h' (filter (active_in (department h))
                                 (filter (fun h => negb (staff_is k h))
                                         (hods db))))
      by (rewrite Hf; now left).
    apply filter_In in Hin' as [Hin' Hact']. apply Hh in Hin' as [Hin' Hne].
    destruct Hlaw as [[_ Hone] _].
    assert (E : h = h').
    { apply (active_row_is_unique (department h) (hods db)); auto.
      apply active_in_own. exact Hactive. }
    subst h'. contradiction. }
  rewrite Hnone. reflexivity.
Qed.

Lemma staff_deletion_takes_the_appointments_witness :
  exists db',
    run_view (manage_staff_view_DELETE (Some Samples.principal) "S001")
             Samples.college_with_head
    = (Response 204 (Detail "Staff member deleted successfully"), db')
    /\ hods db' = []
    /\ run_view (DepartmentHODView_get (Some Samples.pupil) "CS") db'
       = (Response 404 (Detail "No active HOD found for CS department"), db').
Proof.
  assert (Hlaw : Lawful (hods Samples.college_with_head)).
  { cbn. repeat split.
    - constructor; [discriminate | constructor].
    - constructor; [intros [] | constructor].
    - intros d. unfold count_active. cbn [filter].
      destruct (active_in d _); cbn; lia.
    - constructor; [discriminate | constructor].
    - constructor; [intros [] | constructor].
    - constructor; [discriminate | constructor]. }
  destruct (staff_deletion_takes_the_appointments Samples.principal "S001"
              Samples.college_with_head Samples.lecturer_profile
              Samples.lecturer eq_refl eq_refl eq_refl Hlaw)
    as (db' & E & _ & _ & _ & _ & Hh & _ & Hview).
  exists db'. split; [exact E|].
  assert (Hnil : hods db' = []).
  { destruct (hods db') as [|h rest] eqn:Hd; [reflexivity|].
    destruct (proj1 (Hh h) (or_introl eq_refl)) as [[<- | []] Hne].
    now destruct Hne. }
  split; [exact Hnil|].
  exact (Hview (HeadOfDepartment.mk (Some 1%Z) (Some 2%Z) "CS" (Some 10%Z) None
                                    true None 100 100)
               (Some Samples.pupil) (or_introl eq_refl) eq_refl eq_refl eq_refl).
Defined.

End StaffViewFacts.

(** ** Users: adding a staff member, and taking them away again *)

Module AddStaffFacts.
Import Users Users.HeadOfDepartment UsersFacts HodFacts StaffViews AddStaff.

Lemma staff_registration_valid env d db vd :
  StaffRegistrationSerializer_is_valid env d db = inr vd ->
  Py.truthy (s_email vd) = true
  /\ Py.truthy (s_staff_id vd) = true
  /\ (String.length (s_staff_id vd) <= 50)%nat
  /\ email_taken (s_email vd) (users db) = false
  /\ staff_id_taken (s_staff_id vd) (Users.staff db) = false.
Proof.
  unfold StaffRegistrationSerializer_is_valid.
  destruct (char_field "email" _ _) as [?|email] eqn:E1; [discriminate|].
  destruct (char_field "first_name" _ _) as [?|fn]; [discriminate|].
  destruct (char_field "last_name" _ _) as [?|ln]; [discriminate|].
  destruct (char_field "password" _ _) as [?|pw]; [discriminate|].
  destruct (char_field "password2" _ _) as [?|pw2]; [discriminate|].
  destruct (char_field "staff_id" _ _) as [?|sid] eqn:E2; [discriminate|].
  destruct (department_field _) as [?|dep]; [discriminate|].
  destruct (optional_char_field "designation" _ _) as [?|des]; [discriminate|].
  destruct (optional_char_field "qualification" _ _) as [?|qua];
    [discriminate|].
  destruct (email_format_ok env email); cbn [negb]; [|discriminate].
  destruct (validate_password env pw); cbn [negb]; [|discriminate].
  destruct (String.eqb pw pw2); cbn [negb]; [|discriminate].
  destruct (email_taken email (users db)) eqn:Ee; [discriminate|].
  destruct (staff_id_taken sid (Users.staff db)) eqn:Es; [discriminate|].
  intros [= <-]. cbn [s_email s_staff_id].
  split; [eapply char_field_truthy; exact E1|].
  split; [eapply char_field_truthy; exact E2|].
  split; [|split; [exact Ee | exact Es]].
  unfold char_field in E2. destruct (q_staff_id d) as [raw|]; [|discriminate].
  destruct (negb (Py.truthy (Py.strip raw))); [discriminate|].
  destruct (50 <? String.length (Py.strip raw))%nat eqn:El; [discriminate|].
  injection E2 as <-. apply Nat.ltb_ge in El. exact El.
Qed.

Lemma users_next_pk_bound rows x k :
  In x rows -> User.pk x = Some k -> (k < users_next_pk rows)%Z.
Proof.
  unfold users_next_pk. induction rows as [|y rows IH]; [contradiction|].
  intros [-> | Hin] Hk; cbn [fold_right].
  - rewrite Hk. lia.
  - specialize (IH Hin Hk). destruct (User.pk y); lia.
Qed.

Lemma filter_keeps_all {A : Type} (p : A -> bool) l :
  (forall x, In x l -> p x = true) -> filter p l = l.
Proof.
  induction l as [|x l IH]; [reflexivity|]. intros H. cbn [filter].
  rewrite (H x (or_introl eq_refl)), IH; [reflexivity|].
  intros y Hy. apply H. now right.
Qed.

Lemma filter_drops_all {A : Type} (p : A -> bool) l :
  (forall x, In x l -> p x = false) -> filter p l = [].
Proof.
  induction l as [|x l IH]; [reflexivity|]. intros H. cbn [filter].
  rewrite (H x (or_introl eq_refl)). apply IH.
  intros y Hy. apply H. now right.
Qed.

Lemma find_last {A : Type} (p : A -> bool) l x :
  find p l = None -> p x = true -> find p (l ++ [x]) = Some x.
Proof.
  intros Hnone Hx. induction l as [|y l IH]; cbn [app find] in *.
  - now rewrite Hx.
  - destruct (p y); [discriminate | auto].
Qed.

(** X22. Adding a staff member and deleting them again. For an admin and
    a body the serializer accepts: when the normalised e-mail is already
    stored, the INSERT of the user fails and the view answers 400 with
    nothing written; otherwise the answer is 201, one user (role 'staff',
    [is_staff] set, active, hashed password) and one profile with the
    user's key are appended and the appointments are untouched. On tables
    whose foreign keys point at stored rows, the admin's DELETE of that
    staff id then gives back exactly the tables from before the
    addition. *)
Theorem add_then_delete_staff env now u d db vd :
  User.role u = "admin"%string ->
  StaffRegistrationSerializer_is_valid env d db = inr vd ->
  (email_taken (normalize_email env (s_email vd)) (users db) = true ->
   add_staff_view env now (Some u) d db
   = (Failed 400 (Py.IntegrityError "UNIQUE users.email"), db)) /\
  (email_taken (normalize_email env (s_email vd)) (users db) = false ->
   let k := users_next_pk (users db) in
   let account :=
     User.mk (Some k) (normalize_email env (s_email vd)) (s_first_name vd)
             (s_last_name vd) "staff" true true false
             (make_password env (s_password vd)) now now in
   let profile :=
     Staff.mk k (s_staff_id vd) (s_department vd) (s_designation vd)
              (s_qualification vd) (Py.date_of now) in
   let db1 := mkDB (users db ++ [account]) (Users.staff db ++ [profile])
                   (hods db) in
   add_staff_view env now (Some u) d db = (Added 201 profile, db1)
   /\ ((forall s, In s (Users.staff db) ->
          exists x, In x (users db) /\ User.pk x = Some (Staff.user s)) ->
       (forall h j, In h (hods db) -> staff h = Some j ->
          exists s, In s (Users.staff db) /\ Staff.user s = j) ->
       run_view (manage_staff_view_DELETE (Some u) (s_staff_id vd)) db1
       = (Response 204 (Detail "Staff member deleted successfully"), db))).
Proof.
  intros Hrole Hvalid.
  destruct (staff_registration_valid env d db vd Hvalid)
    as (Hemail & _ & _ & _ & Hsid).
  split.
  - intros Htaken. unfold add_staff_view. rewrite Hrole, Hvalid.
    cbn [String.eqb Ascii.eqb Bool.eqb negb].
    unfold StaffRegistrationSerializer_create, bind, create_user.
    rewrite Hemail. cbn [negb]. unfold bind, read, raise. rewrite Htaken.
    reflexivity.
  - intros Hfree k account profile db1.
    assert (Hcreate : StaffRegistrationSerializer_create env now vd db
                      = (inr profile, db1)).
    { unfold StaffRegistrationSerializer_create, bind, create_user.
      rewrite Hemail. cbn [negb]. unfold bind, read, write_users, ret.
      rewrite Hfree. cbn [User.pk Users.staff users hods].
      unfold staff_id_taken in Hsid. rewrite Hsid. reflexivity. }
    split.
    { unfold add_staff_view. rewrite Hrole, Hvalid, Hcreate. reflexivity. }
    intros Husers Hstaff.
    assert (Hold : forall s, In s (Users.staff db) -> Staff.user s <> k).
    { intros s Hs. destruct (Husers s Hs) as (x & Hx & Hpk).
      pose proof (users_next_pk_bound (users db) x _ Hx Hpk). unfold k. lia. }
    assert (Hget : filter (fun x => String.eqb (Staff.staff_id x) (s_staff_id vd))
                          (Users.staff db1) = [profile]).
    { unfold db1. cbn [Users.staff]. rewrite filter_app.
      rewrite filter_drops_all.
      - cbn [filter app Staff.staff_id profile]. rewrite String.eqb_refl.
        reflexivity.
      - intros x Hx. unfold staff_id_taken in Hsid.
        destruct (String.eqb (Staff.staff_id x) (s_staff_id vd)) eqn:E;
          [|reflexivity].
        assert (Hex : existsb (fun x => String.eqb (Staff.staff_id x)
                                                   (s_staff_id vd))
                              (Users.staff db) = true)
          by (apply existsb_exists; eauto).
        congruence. }
    assert (Hnot : forall x, In x (users db) -> user_pk_is k x = false).
    { intros x Hx. unfold user_pk_is.
      destruct (User.pk x) as [j|] eqn:Hj; [|reflexivity].
      pose proof (users_next_pk_bound (users db) x j Hx Hj).
      apply Z.eqb_neq. unfold k. lia. }
    assert (Hfind : find_user k db1 = Some account).
    { unfold find_user, db1. cbn [users].
      assert (Hnone : find (user_pk_is k) (users db) = None).
      { apply find_none_existsb.
        destruct (existsb (user_pk_is k) (users db)) eqn:E; [|reflexivity].
        apply existsb_exists in E as (x & Hx & Hpk).
        rewrite (Hnot x Hx) in Hpk. discriminate. }
      apply find_last; [exact Hnone|].
      unfold user_pk_is, account. cbn [User.pk]. apply Z.eqb_refl. }
    unfold manage_staff_view_DELETE, authenticated_gate.
    cbn [IsAuthenticated negb]. rewrite Hrole.
    cbn [String.eqb Ascii.eqb Bool.eqb negb].
    unfold run_view, bind, read. rewrite Hget.
    change (Staff.user profile) with k. rewrite Hfind.
    unfold Staff_delete, User_delete, ret.
    change (Staff.user profile) with k.
    cbn [users Users.staff hods fst snd db1].
    rewrite !NoticesFacts.filter_twice, !filter_app.
    assert (Hacc : user_pk_is k account = true)
      by (unfold user_pk_is, account; cbn [User.pk]; apply Z.eqb_refl).
    cbn [filter]. change (Staff.user profile) with k.
    rewrite Hacc, Z.eqb_refl. cbn [negb]. rewrite !app_nil_r.
    rewrite (filter_keeps_all _ (users db))
      by (intros x Hx; now rewrite (Hnot x Hx)).
    rewrite (filter_keeps_all _ (Users.staff db))
      by (intros s Hs; apply negb_true_iff, Z.eqb_neq; now apply Hold).
    rewrite (filter_keeps_all _ (hods db)).
    + destruct db; reflexivity.
    + intros h Hh. apply negb_true_iff. unfold staff_is.
      destruct (staff h) as [j|] eqn:Hj; [|reflexivity].
      apply Z.eqb_neq. intros ->.
      destruct (Hstaff h k Hh Hj) as (s & Hs & E). exact (Hold s Hs E).
Qed.

Lemma add_then_delete_staff_witness :
  exists profile db1,
    add_staff_view Samples.plain_auth 900 (Some Samples.principal)
      (mkStaffRequest (Some "kim@college.example"%string) (Some "Kim"%string)
                      (Some "Rao"%string) (Some "correct horse"%string)
                      (Some "correct horse"%string) (Some "lab-7"%string)
                      (Some (Some "CS"%string)) None None)
      Samples.college_with_head
    = (Added 201 profile, db1)
    /\ Staff.staff_id profile = "lab-7"%string
    /\ run_view (manage_staff_view_DELETE (Some Samples.principal) "lab-7") db1
       = (Response 204 (Detail "Staff member deleted successfully"),
          Samples.college_with_head).
Proof.
  pose proof (add_then_delete_staff Samples.plain_auth 900 Samples.principal
                (mkStaffRequest (Some "kim@college.example"%string)
                                (Some "Kim"%string) (Some "Rao"%string)
                                (Some "correct horse"%string)
                                (Some "correct horse"%string)
                                (Some "lab-7"%string)
                                (Some (Some "CS"%string)) None None)
                Samples.college_with_head
                (mkStaffRegistration "kim@college.example" "Kim" "Rao"
                                     "correct horse" "lab-7"
                                     (Some "CS"%string) None None)
                eq_refl eq_refl) as [_ H].
  specialize (H eq_refl). cbv zeta in H. destruct H as [Hadd Hdel].
  do 2 eexists. split; [exact Hadd|]. split; [reflexivity|].
  apply Hdel.
  - intros s [<- | [<- | []]].
    + exists Samples.lecturer. split; [right; now left | reflexivity].
    + exists Samples.reader. split; [right; right; now left | reflexivity].
  - intros h j [<- | []] [= <-].
    exists Samples.lecturer_profile. split; [now left | reflexivity].
Defined.

End AddStaffFacts.

(** ** Users: the list of the Heads of Department *)

Module HodListFacts.
Import Users Users.HeadOfDepartment UsersFacts HodFacts.

Lemma In_insert_sorted x y l : In x (insert_sorted y l) <-> x = y \/ In x l.
Proof.
  induction l as [|z l IH]; cbn [insert_sorted].
  - cbn. intuition.
  - destruct (listed_before y z); cbn [In]; [intuition | rewrite IH; intuition].
Qed.

Lemma In_sorted x l : In x (fold_right insert_sorted [] l) <-> In x l.
Proof.
  induction l as [|y l IH]; [reflexivity|].
  cbn [fold_right In]. rewrite In_insert_sorted, IH. intuition.
Qed.

Lemma NoDup_insert_sorted x l :
  ~ In x l -> NoDup l -> NoDup (insert_sorted x l).
Proof.
  induction l as [|y l IH]; intros Hx Hnd; cbn [insert_sorted].
  - constructor; [intros [] | constructor].
  - destruct (listed_before x y); [constructor; assumption|].
    inversion Hnd as [|? ? Hy Hnd']; subst. constructor.
    + rewrite In_insert_sorted. intros [-> | Hin]; [|contradiction].
      apply Hx. now left.
    + apply IH; [|exact Hnd']. intros Hin. apply Hx. now right.
Qed.

Lemma NoDup_sorted l : NoDup l -> NoDup (fold_right insert_sorted [] l).
Proof.
  induction l as [|x l IH]; intros Hnd; [constructor|].
  inversion Hnd as [|? ? Hx Hnd']; subst. cbn [fold_right].
  apply NoDup_insert_sorted; [rewrite In_sorted; exact Hx | auto].
Qed.

(** Of two rows, one may stand before the other. *)
Lemma listed_before_total x y :
  listed_before x y = false -> listed_before y x = true.
Proof.
  unfold listed_before. rewrite (String.compare_antisym (department x)).
  destruct (String.compare (department y) (department x)); cbn [CompOpp];
    try discriminate; [|reflexivity].
  destruct (is_active x), (is_active y); cbn [Bool.eqb];
    try discriminate; try reflexivity;
    destruct (start_date x) as [a|], (start_date y) as [b|];
    try discriminate; intros H; apply Z.leb_gt in H; apply Z.leb_le; lia.
Qed.

Lemma Sorted_insert_sorted x l :
  Sorted (fun a b => listed_before a b = true) l ->
  Sorted (fun a b => listed_before a b = true) (insert_sorted x l).
Proof.
  induction l as [|y l IH]; intros Hs; cbn [insert_sorted].
  - repeat constructor.
  - destruct (listed_before x y) eqn:E.
    + constructor; [exact Hs | constructor; exact E].
    + inversion Hs as [|? ? Hs' Hhd]; subst. constructor; [auto|].
      destruct l as [|z l]; cbn [insert_sorted].
      * constructor. now apply listed_before_total.
      * destruct (listed_before x z); constructor;
          [now apply listed_before_total | now inversion Hhd].
Qed.

Lemma Sorted_sorted l :
  Sorted (fun a b => listed_before a b = true) (fold_right insert_sorted [] l).
Proof.
  induction l as [|x l IH]; [constructor|].
  cbn [fold_right]. now apply Sorted_insert_sorted.
Qed.

(** X23. The list of the Heads of Department. A caller with [is_staff]
    gets 200 and the tables stay as they are. The list holds exactly the
    rows of the department asked for (all departments when none or an
    empty one is given) whose activity is the one asked for, none of them
    twice, ordered by department, the active row first, then the latest
    start first. Only the word 'true', in any letter case, asks for the
    active rows: every other value of [is_active] - '1' or 'yes' as well
    as 'false' - lists the ended appointments. *)
Theorem hod_list_is_filtered_and_ordered user dept act db :
  IsAdminUser user = true ->
  exists l,
    run_view (HeadOfDepartmentListCreateView_get user dept act) db
    = (Response 200 (HodList l), db)
    /\ (forall h,
          In h l <->
          In h (hods db)
          /\ (forall d, dept = Some d -> d <> EmptyString -> department h = d)
          /\ (forall v, act = Some v ->
                is_active h = String.eqb (Py.lower v) "true"))
    /\ (NoDup (hods db) -> NoDup l)
    /\ Sorted (fun a b => listed_before a b = true) l
    /\ (forall v h, act = Some v -> Py.lower v <> "true"%string ->
          In h l -> is_active h = false).
Proof.
  intros Hgate.
  assert (Hauth : IsAuthenticated user = true)
    by (destruct user; [reflexivity | discriminate]).
  unfold HeadOfDepartmentListCreateView_get, admin_gate.
  rewrite Hauth, Hgate. cbn [negb]. unfold run_view, bind, read, ret.
  eexists. split; [reflexivity|].
  set (by_department :=
         match dept with
         | Some d => if Py.truthy d
                     then filter (fun h => String.eqb (department h) d) (hods db)
                     else hods db
         | None => hods db
         end).
  set (by_activity :=
         match act with
         | Some v => filter (fun h => Bool.eqb (is_active h)
                                               (String.eqb (Py.lower v) "true"))
                            by_department
         | None => by_department
         end).
  assert (Hd : forall h, In h by_department <->
                 In h (hods db)
                 /\ (forall d, dept = Some d -> d <> EmptyString ->
                               department h = d)).
  { intros h. unfold by_department. destruct dept as [d|].
    - unfold Py.truthy. destruct (String.eqb_spec d EmptyString) as [-> | Hne];
        cbn [negb].
      + split; [intros H; split; [exact H | intros d [= <-] Hd; now destruct Hd]
               | tauto].
      + rewrite filter_In, String.eqb_eq. split.
        * intros [H E]. split; [exact H | intros d' [= <-] _; exact E].
        * intros [H E]. split; [exact H | now apply E].
    - split; [intros H; split; [exact H | discriminate] | tauto]. }
  assert (Ha : forall h, In h by_activity <->
                 In h by_department
                 /\ (forall v, act = Some v ->
                       is_active h = String.eqb (Py.lower v) "true")).
  { intros h. unfold by_activity. destruct act as [v|].
    - rewrite filter_In, Bool.eqb_true_iff. split.
      + intros [H E]. split; [exact H | intros v' [= <-]; exact E].
      + intros [H E]. split; [exact H | now apply E].
    - split; [intros H; split; [exact H | discriminate] | tauto]. }
  assert (Hmem : forall h,
            In h (fold_right insert_sorted [] by_activity) <->
            In h (hods db)
            /\ (forall d, dept = Some d -> d <> EmptyString -> department h = d)
            /\ (forall v, act = Some v ->
                  is_active h = String.eqb (Py.lower v) "true")).
  { intros h. rewrite In_sorted, Ha, Hd. tauto. }
  split; [exact Hmem|]. split; [|split].
  - intros Hnd. apply NoDup_sorted. unfold by_activity, by_department.
    destruct act, dept as [d|]; try destruct (Py.truthy d);
      repeat apply NoDup_filter; exact Hnd.
  - apply Sorted_sorted.
  - intros v h -> Hv Hin. apply Hmem in Hin as (_ & _ & E).
    rewrite (E v eq_refl). now apply String.eqb_neq.
Qed.

Lemma hod_list_is_filtered_and_ordered_witness :
  exists l,
    run_view (HeadOfDepartmentListCreateView_get (Some Samples.lecturer) None
                                                 (Some "1"%string))
             Samples.college_with_head
    = (Response 200 (HodList l), Samples.college_with_head)
    /\ l = [].
Proof.
  destruct (hod_list_is_filtered_and_ordered (Some Samples.lecturer) None
              (Some "1"%string) Samples.college_with_head eq_refl)
    as (l & E & _ & _ & _ & Hquirk).
  exists l. split; [exact E|].
  assert (E' : run_view (HeadOfDepartmentListCreateView_get
                           (Some Samples.lecturer) None (Some "1"%string))
                        Samples.college_with_head
               = (Response 200 (HodList []), Samples.college_with_head))
    by (vm_compute; reflexivity).
  rewrite E' in E. now injection E as <-.
Defined.

End HodListFacts.
